(** * PCX build-configuration engine: Catalog, BuildEngine and the price parser

    A shallow embedding of the core of [app.py]: the [Part] record, the
    [Catalog] registry with its category normalisation, the [BuildEngine]
    selection with power estimation, compatibility rules and assembly
    steps, the helpers [_parse_price_brl] and [_try_num], and the loops
    of the three scrapers.

    Conventions of the embedding.
    - A Python [str] is a [string] holding the UTF-8 bytes of the text, as
      the source file stores its literals.  [strip] removes the white
      space of [str.isspace], [upper] is the full upper-case mapping of
      the Unicode Character Database, and [slice_to] counts code points.
      [lower] maps the letters of Basic Latin and of the Latin-1
      Supplement, which is all the program can tell of a lower-cased
      text.
    - A Python [float] is an IEEE-754 binary64 value, [spec_float] with
      precision 53 and maximal exponent 1024.
    - A Python [dict] is an insertion-ordered association list with at
      most one binding per key.
    - A function that can raise returns a [result]; [try: ... except: pass]
      is a match on that result.
    - The number parser and printer of the Python runtime ([float(str)],
      [int(str)], [repr(float)]) are not code of the program: they are the
      members of the class [PyRuntime]. *)

From Stdlib Require Import String Ascii List ZArith Bool Lia Wf_nat.
From Stdlib Require Import Floats.SpecFloat.
From Stdlib Require Import DecimalString.
From Stdlib Require Import Sorted Permutation.
Import ListNotations.

Open Scope string_scope.
Open Scope Z_scope.

(* ------------------------------------------------------------------ *)
(** ** Exceptions *)

Inductive exn : Type :=
| IndexError
| AttributeError
| OverflowError
| ValueError
| TypeError.

Inductive result (A : Type) : Type :=
| Ok (a : A)
| Raise (e : exn).

Arguments Ok {A} a.
Arguments Raise {A} e.

Definition bind {A B : Type} (r : result A) (k : A -> result B) : result B :=
  match r with
  | Ok a => k a
  | Raise e => Raise e
  end.

Notation "x <- r ;; k" := (bind r (fun x => k))
  (at level 61, r at next level, right associativity).

(** [l.append(x)] *)
Definition py_append {A : Type} (l : list A) (x : A) : list A := (l ++ [x])%list.

(** [try: body  except: pass] around a body that may append to [issues]. *)
Definition try_pass {A : Type} (dflt : A) (r : result A) : A :=
  match r with
  | Ok a => a
  | Raise _ => dflt
  end.

(* ------------------------------------------------------------------ *)
(** ** Python strings *)

Module PyStr.

Definition code (c : ascii) : N := N_of_ascii c.

(** [str.strip()] removes the characters of [str.isspace]: the
    one-byte characters TAB..CR, FS..US and SPACE, ... *)
Definition is_space (c : ascii) : bool :=
  let n := code c in
  ((9 <=? n) && (n <=? 13) || (28 <=? n) && (n <=? 32))%N.

(** ... U+0085 and U+00A0, two bytes each, ... *)
Definition is_space2 (a b : ascii) : bool :=
  ((code a =? 0xC2) && ((code b =? 0x85) || (code b =? 0xA0)))%N.

(** ... and U+1680, U+2000..U+200A, U+2028, U+2029, U+202F, U+205F and
    U+3000, three bytes each. *)
Definition is_space3 (a b c : ascii) : bool :=
  (if code a =? 0xE1 then (code b =? 0x9A) && (code c =? 0x80)
   else if code a =? 0xE2 then
     (if code b =? 0x80
      then (0x80 <=? code c) && (code c <=? 0x8A)
           || (code c =? 0xA8) || (code c =? 0xA9) || (code c =? 0xAF)
      else (code b =? 0x81) && (code c =? 0x9F))
   else (code a =? 0xE3) && (code b =? 0x80) && (code c =? 0x80))%N.

(** What follows the white-space character a text starts with; [None]
    when it starts with none. *)
Definition after_space (s : string) : option string :=
  match s with
  | EmptyString => None
  | String a r =>
      if is_space a then Some r
      else match r with
           | EmptyString => None
           | String b r2 =>
               if is_space2 a b then Some r2
               else match r2 with
                    | EmptyString => None
                    | String c r3 =>
                        if is_space3 a b c then Some r3 else None
                    end
           end
  end.

Fixpoint lstrip (s : string) : string :=
  match s with
  | EmptyString => EmptyString
  | String a r =>
      if is_space a then lstrip r
      else match r with
           | EmptyString => s
           | String b r2 =>
               if is_space2 a b then lstrip r2
               else match r2 with
                    | EmptyString => s
                    | String c r3 =>
                        if is_space3 a b c then lstrip r3 else s
                    end
           end
  end.

(** Every character of [s] is white space. *)
Fixpoint all_space (s : string) : bool :=
  match s with
  | EmptyString => true
  | String a r =>
      if is_space a then all_space r
      else match r with
           | EmptyString => false
           | String b r2 =>
               if is_space2 a b then all_space r2
               else match r2 with
                    | EmptyString => false
                    | String c r3 =>
                        if is_space3 a b c then all_space r3 else false
                    end
           end
  end.

(** The text up to the white space it ends with: cut where what is
    left is white space only. *)
Fixpoint rstrip (s : string) : string :=
  match s with
  | EmptyString => EmptyString
  | String c r => if all_space s then EmptyString else String c (rstrip r)
  end.

(** [s.strip()] *)
Definition strip (s : string) : string := rstrip (lstrip s).

Definition is_ascii_upper (c : ascii) : bool :=
  ((65 <=? code c) && (code c <=? 90))%N.

(** Second byte of a two-byte sequence led by 0xC3: U+00C0..U+00DE are
    upper-case letters except U+00D7 (the multiplication sign). *)
Definition is_latin1_upper_tail (c : ascii) : bool :=
  ((128 <=? code c) && (code c <=? 158) && negb (code c =? 151))%N.

Definition shift_up (c : ascii) : ascii := ascii_of_N (code c + 32).

Definition is_c3 (c : ascii) : bool := (code c =? 195)%N.

(** The byte [c] in lower case; [after_c3] tells that the previous byte
    was the lead byte 0xC3. *)
Definition lower_byte (after_c3 : bool) (c : ascii) : ascii :=
  if after_c3
  then (if is_latin1_upper_tail c then shift_up c else c)
  else (if is_ascii_upper c then shift_up c else c).

Fixpoint lower_from (after_c3 : bool) (s : string) : string :=
  match s with
  | EmptyString => EmptyString
  | String c r =>
      String (lower_byte after_c3 c) (lower_from (negb after_c3 && is_c3 c) r)
  end.

(** [s.lower()] on the letters A..Z and U+00C0..U+00DE.  The program
    only looks for words in lower-cased text ([in], [==]) and hands it
    to [float] and [int]; none of these words has a letter that a
    letter outside the two ranges turns into (k for the Kelvin sign,
    i with a dot above for U+0130), so that nothing the program does
    with the text depends on the other letters. *)
Definition lower (s : string) : string := lower_from false s.

(** The code points of a text, from its UTF-8 bytes.  A byte that
    starts no sequence stands for itself, as 0x110000 plus the byte. *)
Definition is_cont (c : ascii) : bool :=
  ((0x80 <=? code c) && (code c <=? 0xBF))%N.
Definition cont (c : ascii) : N := (code c - 0x80)%N.
Definition raw (c : ascii) : N :=
  (if code c <? 0x80 then code c else 0x110000 + code c)%N.

Fixpoint decode (s : string) : list N :=
  match s with
  | EmptyString => []
  | String a r =>
      match r with
      | EmptyString => [raw a]
      | String b r2 =>
          if ((0xC2 <=? code a) && (code a <=? 0xDF))%N && is_cont b
          then ((code a - 0xC0) * 64 + cont b)%N :: decode r2
          else
            match r2 with
            | EmptyString => raw a :: decode r
            | String c r3 =>
                if ((0xE0 <=? code a) && (code a <=? 0xEF))%N
                   && is_cont b && is_cont c
                then ((code a - 0xE0) * 4096 + cont b * 64 + cont c)%N
                       :: decode r3
                else
                  match r3 with
                  | EmptyString => raw a :: decode r
                  | String d r4 =>
                      if ((0xF0 <=? code a) && (code a <=? 0xF4))%N
                         && is_cont b && is_cont c && is_cont d
                      then ((code a - 0xF0) * 262144 + cont b * 4096
                            + cont c * 64 + cont d)%N :: decode r4
                      else raw a :: decode r
                  end
            end
      end
  end.

Definition byte (n : N) : string := String (ascii_of_N n) EmptyString.

Definition encode_point (n : N) : string :=
  (if n <? 0x80 then byte n
   else if n <? 0x800 then byte (0xC0 + n / 64) ++ byte (0x80 + n mod 64)
   else if n <? 0x10000
   then byte (0xE0 + n / 4096) ++ byte (0x80 + (n / 64) mod 64)
        ++ byte (0x80 + n mod 64)
   else if n <? 0x110000
   then byte (0xF0 + n / 262144) ++ byte (0x80 + (n / 4096) mod 64)
        ++ byte (0x80 + (n / 64) mod 64) ++ byte (0x80 + n mod 64)
   else byte (n - 0x110000))%N%string.

Definition encode (l : list N) : string :=
  fold_right (fun n s => (encode_point n ++ s)%string) EmptyString l.

(** [s[:n]]: the first [n] characters. *)
Definition slice_to (n : nat) (s : string) : string :=
  encode (firstn n (decode s)).

(** The upper-case mappings of [str.upper], which has them from the
    Unicode Character Database (version 14.0 in CPython 3.11).
    [(first, last, step, image)]: the code points [first],
    [first + step], ... up to [last] are mapped to [image],
    [image + step], ... *)
Definition upper_ranges : list (N * N * N * N) :=
  [
  (0x61, 0x7A, 1, 0x41); (0xB5, 0xB5, 1, 0x39C); (0xE0, 0xF6, 1, 0xC0);
  (0xF8, 0xFE, 1, 0xD8); (0xFF, 0xFF, 1, 0x178); (0x101, 0x12F, 2, 0x100);
  (0x131, 0x131, 1, 0x49); (0x133, 0x137, 2, 0x132);
  (0x13A, 0x148, 2, 0x139); (0x14B, 0x177, 2, 0x14A);
  (0x17A, 0x17E, 2, 0x179); (0x17F, 0x17F, 1, 0x53);
  (0x180, 0x180, 1, 0x243); (0x183, 0x185, 2, 0x182);
  (0x188, 0x188, 1, 0x187); (0x18C, 0x18C, 1, 0x18B);
  (0x192, 0x192, 1, 0x191); (0x195, 0x195, 1, 0x1F6);
  (0x199, 0x199, 1, 0x198); (0x19A, 0x19A, 1, 0x23D);
  (0x19E, 0x19E, 1, 0x220); (0x1A1, 0x1A5, 2, 0x1A0);
  (0x1A8, 0x1A8, 1, 0x1A7); (0x1AD, 0x1AD, 1, 0x1AC);
  (0x1B0, 0x1B0, 1, 0x1AF); (0x1B4, 0x1B6, 2, 0x1B3);
  (0x1B9, 0x1B9, 1, 0x1B8); (0x1BD, 0x1BD, 1, 0x1BC);
  (0x1BF, 0x1BF, 1, 0x1F7); (0x1C5, 0x1C5, 1, 0x1C4);
  (0x1C6, 0x1C6, 1, 0x1C4); (0x1C8, 0x1C8, 1, 0x1C7);
  (0x1C9, 0x1C9, 1, 0x1C7); (0x1CB, 0x1CB, 1, 0x1CA);
  (0x1CC, 0x1CC, 1, 0x1CA); (0x1CE, 0x1DC, 2, 0x1CD);
  (0x1DD, 0x1DD, 1, 0x18E); (0x1DF, 0x1EF, 2, 0x1DE);
  (0x1F2, 0x1F2, 1, 0x1F1); (0x1F3, 0x1F3, 1, 0x1F1);
  (0x1F5, 0x1F5, 1, 0x1F4); (0x1F9, 0x21F, 2, 0x1F8);
  (0x223, 0x233, 2, 0x222); (0x23C, 0x23C, 1, 0x23B);
  (0x23F, 0x240, 1, 0x2C7E); (0x242, 0x242, 1, 0x241);
  (0x247, 0x24F, 2, 0x246); (0x250, 0x250, 1, 0x2C6F);
  (0x251, 0x251, 1, 0x2C6D); (0x252, 0x252, 1, 0x2C70);
  (0x253, 0x253, 1, 0x181); (0x254, 0x254, 1, 0x186);
  (0x256, 0x257, 1, 0x189); (0x259, 0x259, 1, 0x18F);
  (0x25B, 0x25B, 1, 0x190); (0x25C, 0x25C, 1, 0xA7AB);
  (0x260, 0x260, 1, 0x193); (0x261, 0x261, 1, 0xA7AC);
  (0x263, 0x263, 1, 0x194); (0x265, 0x265, 1, 0xA78D);
  (0x266, 0x266, 1, 0xA7AA); (0x268, 0x268, 1, 0x197);
  (0x269, 0x269, 1, 0x196); (0x26A, 0x26A, 1, 0xA7AE);
  (0x26B, 0x26B, 1, 0x2C62); (0x26C, 0x26C, 1, 0xA7AD);
  (0x26F, 0x26F, 1, 0x19C); (0x271, 0x271, 1, 0x2C6E);
  (0x272, 0x272, 1, 0x19D); (0x275, 0x275, 1, 0x19F);
  (0x27D, 0x27D, 1, 0x2C64); (0x280, 0x280, 1, 0x1A6);
  (0x282, 0x282, 1, 0xA7C5); (0x283, 0x283, 1, 0x1A9);
  (0x287, 0x287, 1, 0xA7B1); (0x288, 0x288, 1, 0x1AE);
  (0x289, 0x289, 1, 0x244); (0x28A, 0x28B, 1, 0x1B1);
  (0x28C, 0x28C, 1, 0x245); (0x292, 0x292, 1, 0x1B7);
  (0x29D, 0x29D, 1, 0xA7B2); (0x29E, 0x29E, 1, 0xA7B0);
  (0x345, 0x345, 1, 0x399); (0x371, 0x373, 2, 0x370);
  (0x377, 0x377, 1, 0x376); (0x37B, 0x37D, 1, 0x3FD);
  (0x3AC, 0x3AC, 1, 0x386); (0x3AD, 0x3AF, 1, 0x388);
  (0x3B1, 0x3C1, 1, 0x391); (0x3C2, 0x3C2, 1, 0x3A3);
  (0x3C3, 0x3CB, 1, 0x3A3); (0x3CC, 0x3CC, 1, 0x38C);
  (0x3CD, 0x3CE, 1, 0x38E); (0x3D0, 0x3D0, 1, 0x392);
  (0x3D1, 0x3D1, 1, 0x398); (0x3D5, 0x3D5, 1, 0x3A6);
  (0x3D6, 0x3D6, 1, 0x3A0); (0x3D7, 0x3D7, 1, 0x3CF);
  (0x3D9, 0x3EF, 2, 0x3D8); (0x3F0, 0x3F0, 1, 0x39A);
  (0x3F1, 0x3F1, 1, 0x3A1); (0x3F2, 0x3F2, 1, 0x3F9);
  (0x3F3, 0x3F3, 1, 0x37F); (0x3F5, 0x3F5, 1, 0x395);
  (0x3F8, 0x3F8, 1, 0x3F7); (0x3FB, 0x3FB, 1, 0x3FA);
  (0x430, 0x44F, 1, 0x410); (0x450, 0x45F, 1, 0x400);
  (0x461, 0x481, 2, 0x460); (0x48B, 0x4BF, 2, 0x48A);
  (0x4C2, 0x4CE, 2, 0x4C1); (0x4CF, 0x4CF, 1, 0x4C0);
  (0x4D1, 0x52F, 2, 0x4D0); (0x561, 0x586, 1, 0x531);
  (0x10D0, 0x10FA, 1, 0x1C90); (0x10FD, 0x10FF, 1, 0x1CBD);
  (0x13F8, 0x13FD, 1, 0x13F0); (0x1C80, 0x1C80, 1, 0x412);
  (0x1C81, 0x1C81, 1, 0x414); (0x1C82, 0x1C82, 1, 0x41E);
  (0x1C83, 0x1C84, 1, 0x421); (0x1C85, 0x1C85, 1, 0x422);
  (0x1C86, 0x1C86, 1, 0x42A); (0x1C87, 0x1C87, 1, 0x462);
  (0x1C88, 0x1C88, 1, 0xA64A); (0x1D79, 0x1D79, 1, 0xA77D);
  (0x1D7D, 0x1D7D, 1, 0x2C63); (0x1D8E, 0x1D8E, 1, 0xA7C6);
  (0x1E01, 0x1E95, 2, 0x1E00); (0x1E9B, 0x1E9B, 1, 0x1E60);
  (0x1EA1, 0x1EFF, 2, 0x1EA0); (0x1F00, 0x1F07, 1, 0x1F08);
  (0x1F10, 0x1F15, 1, 0x1F18); (0x1F20, 0x1F27, 1, 0x1F28);
  (0x1F30, 0x1F37, 1, 0x1F38); (0x1F40, 0x1F45, 1, 0x1F48);
  (0x1F51, 0x1F57, 2, 0x1F59); (0x1F60, 0x1F67, 1, 0x1F68);
  (0x1F70, 0x1F71, 1, 0x1FBA); (0x1F72, 0x1F75, 1, 0x1FC8);
  (0x1F76, 0x1F77, 1, 0x1FDA); (0x1F78, 0x1F79, 1, 0x1FF8);
  (0x1F7A, 0x1F7B, 1, 0x1FEA); (0x1F7C, 0x1F7D, 1, 0x1FFA);
  (0x1FB0, 0x1FB1, 1, 0x1FB8); (0x1FBE, 0x1FBE, 1, 0x399);
  (0x1FD0, 0x1FD1, 1, 0x1FD8); (0x1FE0, 0x1FE1, 1, 0x1FE8);
  (0x1FE5, 0x1FE5, 1, 0x1FEC); (0x214E, 0x214E, 1, 0x2132);
  (0x2170, 0x217F, 1, 0x2160); (0x2184, 0x2184, 1, 0x2183);
  (0x24D0, 0x24E9, 1, 0x24B6); (0x2C30, 0x2C5F, 1, 0x2C00);
  (0x2C61, 0x2C61, 1, 0x2C60); (0x2C65, 0x2C65, 1, 0x23A);
  (0x2C66, 0x2C66, 1, 0x23E); (0x2C68, 0x2C6C, 2, 0x2C67);
  (0x2C73, 0x2C73, 1, 0x2C72); (0x2C76, 0x2C76, 1, 0x2C75);
  (0x2C81, 0x2CE3, 2, 0x2C80); (0x2CEC, 0x2CEE, 2, 0x2CEB);
  (0x2CF3, 0x2CF3, 1, 0x2CF2); (0x2D00, 0x2D25, 1, 0x10A0);
  (0x2D27, 0x2D27, 1, 0x10C7); (0x2D2D, 0x2D2D, 1, 0x10CD);
  (0xA641, 0xA66D, 2, 0xA640); (0xA681, 0xA69B, 2, 0xA680);
  (0xA723, 0xA72F, 2, 0xA722); (0xA733, 0xA76F, 2, 0xA732);
  (0xA77A, 0xA77C, 2, 0xA779); (0xA77F, 0xA787, 2, 0xA77E);
  (0xA78C, 0xA78C, 1, 0xA78B); (0xA791, 0xA793, 2, 0xA790);
  (0xA794, 0xA794, 1, 0xA7C4); (0xA797, 0xA7A9, 2, 0xA796);
  (0xA7B5, 0xA7C3, 2, 0xA7B4); (0xA7C8, 0xA7CA, 2, 0xA7C7);
  (0xA7D1, 0xA7D1, 1, 0xA7D0); (0xA7D7, 0xA7D9, 2, 0xA7D6);
  (0xA7F6, 0xA7F6, 1, 0xA7F5); (0xAB53, 0xAB53, 1, 0xA7B3);
  (0xAB70, 0xABBF, 1, 0x13A0); (0xFF41, 0xFF5A, 1, 0xFF21);
  (0x10428, 0x1044F, 1, 0x10400); (0x104D8, 0x104FB, 1, 0x104B0);
  (0x10597, 0x105BB, 2, 0x10570); (0x10598, 0x105A1, 1, 0x10571);
  (0x105A4, 0x105B1, 1, 0x1057D); (0x105B4, 0x105B9, 1, 0x1058D);
  (0x105BC, 0x105BC, 1, 0x10595); (0x10CC0, 0x10CF2, 1, 0x10C80);
  (0x118C0, 0x118DF, 1, 0x118A0); (0x16E60, 0x16E7F, 1, 0x16E40);
  (0x1E922, 0x1E943, 1, 0x1E900)  ]%N.

(** The code points whose upper case is more than one code point. *)
Definition upper_special : list (N * list N) :=
  [
  (0xDF, [0x53; 0x53]); (0x149, [0x2BC; 0x4E]); (0x1F0, [0x4A; 0x30C]);
  (0x390, [0x399; 0x308; 0x301]); (0x3B0, [0x3A5; 0x308; 0x301]);
  (0x587, [0x535; 0x552]); (0x1E96, [0x48; 0x331]);
  (0x1E97, [0x54; 0x308]); (0x1E98, [0x57; 0x30A]);
  (0x1E99, [0x59; 0x30A]); (0x1E9A, [0x41; 0x2BE]);
  (0x1F50, [0x3A5; 0x313]); (0x1F52, [0x3A5; 0x313; 0x300]);
  (0x1F54, [0x3A5; 0x313; 0x301]); (0x1F56, [0x3A5; 0x313; 0x342]);
  (0x1F80, [0x1F08; 0x399]); (0x1F81, [0x1F09; 0x399]);
  (0x1F82, [0x1F0A; 0x399]); (0x1F83, [0x1F0B; 0x399]);
  (0x1F84, [0x1F0C; 0x399]); (0x1F85, [0x1F0D; 0x399]);
  (0x1F86, [0x1F0E; 0x399]); (0x1F87, [0x1F0F; 0x399]);
  (0x1F88, [0x1F08; 0x399]); (0x1F89, [0x1F09; 0x399]);
  (0x1F8A, [0x1F0A; 0x399]); (0x1F8B, [0x1F0B; 0x399]);
  (0x1F8C, [0x1F0C; 0x399]); (0x1F8D, [0x1F0D; 0x399]);
  (0x1F8E, [0x1F0E; 0x399]); (0x1F8F, [0x1F0F; 0x399]);
  (0x1F90, [0x1F28; 0x399]); (0x1F91, [0x1F29; 0x399]);
  (0x1F92, [0x1F2A; 0x399]); (0x1F93, [0x1F2B; 0x399]);
  (0x1F94, [0x1F2C; 0x399]); (0x1F95, [0x1F2D; 0x399]);
  (0x1F96, [0x1F2E; 0x399]); (0x1F97, [0x1F2F; 0x399]);
  (0x1F98, [0x1F28; 0x399]); (0x1F99, [0x1F29; 0x399]);
  (0x1F9A, [0x1F2A; 0x399]); (0x1F9B, [0x1F2B; 0x399]);
  (0x1F9C, [0x1F2C; 0x399]); (0x1F9D, [0x1F2D; 0x399]);
  (0x1F9E, [0x1F2E; 0x399]); (0x1F9F, [0x1F2F; 0x399]);
  (0x1FA0, [0x1F68; 0x399]); (0x1FA1, [0x1F69; 0x399]);
  (0x1FA2, [0x1F6A; 0x399]); (0x1FA3, [0x1F6B; 0x399]);
  (0x1FA4, [0x1F6C; 0x399]); (0x1FA5, [0x1F6D; 0x399]);
  (0x1FA6, [0x1F6E; 0x399]); (0x1FA7, [0x1F6F; 0x399]);
  (0x1FA8, [0x1F68; 0x399]); (0x1FA9, [0x1F69; 0x399]);
  (0x1FAA, [0x1F6A; 0x399]); (0x1FAB, [0x1F6B; 0x399]);
  (0x1FAC, [0x1F6C; 0x399]); (0x1FAD, [0x1F6D; 0x399]);
  (0x1FAE, [0x1F6E; 0x399]); (0x1FAF, [0x1F6F; 0x399]);
  (0x1FB2, [0x1FBA; 0x399]); (0x1FB3, [0x391; 0x399]);
  (0x1FB4, [0x386; 0x399]); (0x1FB6, [0x391; 0x342]);
  (0x1FB7, [0x391; 0x342; 0x399]); (0x1FBC, [0x391; 0x399]);
  (0x1FC2, [0x1FCA; 0x399]); (0x1FC3, [0x397; 0x399]);
  (0x1FC4, [0x389; 0x399]); (0x1FC6, [0x397; 0x342]);
  (0x1FC7, [0x397; 0x342; 0x399]); (0x1FCC, [0x397; 0x399]);
  (0x1FD2, [0x399; 0x308; 0x300]); (0x1FD3, [0x399; 0x308; 0x301]);
  (0x1FD6, [0x399; 0x342]); (0x1FD7, [0x399; 0x308; 0x342]);
  (0x1FE2, [0x3A5; 0x308; 0x300]); (0x1FE3, [0x3A5; 0x308; 0x301]);
  (0x1FE4, [0x3A1; 0x313]); (0x1FE6, [0x3A5; 0x342]);
  (0x1FE7, [0x3A5; 0x308; 0x342]); (0x1FF2, [0x1FFA; 0x399]);
  (0x1FF3, [0x3A9; 0x399]); (0x1FF4, [0x38F; 0x399]);
  (0x1FF6, [0x3A9; 0x342]); (0x1FF7, [0x3A9; 0x342; 0x399]);
  (0x1FFC, [0x3A9; 0x399]); (0xFB00, [0x46; 0x46]);
  (0xFB01, [0x46; 0x49]); (0xFB02, [0x46; 0x4C]);
  (0xFB03, [0x46; 0x46; 0x49]); (0xFB04, [0x46; 0x46; 0x4C]);
  (0xFB05, [0x53; 0x54]); (0xFB06, [0x53; 0x54]);
  (0xFB13, [0x544; 0x546]); (0xFB14, [0x544; 0x535]);
  (0xFB15, [0x544; 0x53B]); (0xFB16, [0x54E; 0x546]);
  (0xFB17, [0x544; 0x53D])  ]%N.

Definition in_range (n : N) (r : N * N * N * N) : bool :=
  let '(first, last, step, _) := r in
  ((first <=? n) && (n <=? last) && ((n - first) mod step =? 0))%N.

Definition upper_point (n : N) : list N :=
  match List.find (fun e => (fst e =? n)%N) upper_special with
  | Some (_, l) => l
  | None =>
      match List.find (in_range n) upper_ranges with
      | Some (first, _, _, image) => [(image + (n - first))%N]
      | None => [n]
      end
  end.

(** [s.upper()] *)
Definition upper (s : string) : string :=
  encode (flat_map upper_point (decode s)).

(** [sub in s] *)
Fixpoint contains (sub s : string) : bool :=
  if prefix sub s then true
  else match s with
       | EmptyString => false
       | String _ r => contains sub r
       end.

(** [s in (t1, t2, ...)] *)
Definition mem (s : string) (l : list string) : bool :=
  existsb (String.eqb s) l.

(** [s.count(c)] for a one-character [c]. *)
Fixpoint count (c : ascii) (s : string) : Z :=
  match s with
  | EmptyString => 0
  | String d r => (if Ascii.eqb d c then 1 else 0) + count c r
  end.

(** [s.replace(c, new)] for a one-character [c]. *)
Fixpoint replace_char (c : ascii) (new : string) (s : string) : string :=
  match s with
  | EmptyString => EmptyString
  | String d r =>
      if Ascii.eqb d c then new ++ replace_char c new r
      else String d (replace_char c new r)
  end.

(** [s.replace(ab, "")] for a two-character [ab]: occurrences are
    removed from left to right and the result is not scanned again. *)
Fixpoint remove_pair (a b : ascii) (s : string) : string :=
  match s with
  | EmptyString => EmptyString
  | String x t =>
      match t with
      | EmptyString => s
      | String y r =>
          if Ascii.eqb x a && Ascii.eqb y b then remove_pair a b r
          else String x (remove_pair a b t)
      end
  end.

(** ["".join(ch for ch in s if keep ch)] *)
Fixpoint filter (keep : ascii -> bool) (s : string) : string :=
  match s with
  | EmptyString => EmptyString
  | String c r => if keep c then String c (filter keep r) else filter keep r
  end.

(** [s[-k]] for [k >= 1]; [IndexError] when the string is shorter. *)
Definition getitem_neg (s : string) (k : nat) : result ascii :=
  let n := String.length s in
  if (n <? k)%nat then Raise IndexError
  else match String.get (n - k) s with
       | Some c => Ok c
       | None => Raise IndexError
       end.

(** [str(z)] for an [int]. *)
Definition of_Z (z : Z) : string := NilZero.string_of_int (Z.to_int z).

(** The characters 0 to 9, and the texts made of them only. *)
Definition is_digit (c : ascii) : bool :=
  ((48 <=? code c) && (code c <=? 57))%N.

Fixpoint all_digits (s : string) : bool :=
  match s with
  | EmptyString => true
  | String c r => is_digit c && all_digits r
  end.

(** [s.replace(old, "")] for a non-empty [old]: occurrences are removed
    from left to right and do not overlap; [skip] counts the characters
    of an occurrence still to drop. *)
Fixpoint remove_sub_from (old : string) (skip : nat) (s : string) : string :=
  match s with
  | EmptyString => EmptyString
  | String c r =>
      match skip with
      | S k => remove_sub_from old k r
      | O =>
          if prefix old s
          then remove_sub_from old (String.length old - 1) r
          else String c (remove_sub_from old 0 r)
      end
  end.

Definition remove_sub (old s : string) : string := remove_sub_from old 0 s.

(** [s.split("/")[-1]]: the text after the last slash. *)
Fixpoint last_segment (s : string) : string :=
  match s with
  | EmptyString => EmptyString
  | String c r => if count "/" s =? 0 then s else last_segment r
  end.

(** [sorted(l)] for a list of strings: Python compares strings code
    point by code point, which is the byte order of their UTF-8 form. *)
Fixpoint insert_sorted (x : string) (l : list string) : list string :=
  match l with
  | [] => [x]
  | y :: r => if String.leb x y then x :: l else y :: insert_sorted x r
  end.

Definition sorted (l : list string) : list string :=
  fold_right insert_sorted [] l.

End PyStr.

(* ------------------------------------------------------------------ *)
(** ** Python dictionaries *)

Module Dict.
Section WithValue.
Variable V : Type.

(** Bindings in insertion order. *)
Definition dict : Type := list (string * V).

Definition empty : dict := [].

(** [d.get(k)] *)
Fixpoint get (d : dict) (k : string) : option V :=
  match d with
  | [] => None
  | (k', v) :: r => if String.eqb k' k then Some v else get r k
  end.

(** [d.get(k, dflt)] *)
Definition get_default (d : dict) (k : string) (dflt : V) : V :=
  match get d k with
  | Some v => v
  | None => dflt
  end.

(** [d[k] = v]: a present key keeps its position, a new key goes last. *)
Fixpoint set (d : dict) (k : string) (v : V) : dict :=
  match d with
  | [] => [(k, v)]
  | (k', v') :: r =>
      if String.eqb k' k then (k, v) :: r else (k', v') :: set r k v
  end.

(** [if k in d: del d[k]] *)
Fixpoint del (d : dict) (k : string) : dict :=
  match d with
  | [] => []
  | (k', v') :: r =>
      if String.eqb k' k then r else (k', v') :: del r k
  end.

(** [d.keys()] and [d.values()] *)
Definition keys (d : dict) : list string := map fst d.
Definition values (d : dict) : list V := map snd d.

(** The bindings of [k]: a dictionary holds at most one. *)
Definition bindings (d : dict) (k : string) : list V :=
  map snd (List.filter (fun kv => String.eqb (fst kv) k) d).
End WithValue.

Arguments empty {V}.
Arguments get {V} d k.
Arguments get_default {V} d k dflt.
Arguments set {V} d k v.
Arguments del {V} d k.
Arguments keys {V} d.
Arguments values {V} d.
Arguments bindings {V} d k.
End Dict.


(* ------------------------------------------------------------------ *)
(** ** Python floats: IEEE-754 binary64 *)

Module PyFloat.

Definition float : Type := spec_float.

Definition prec : Z := 53.
Definition emax : Z := 1024.

Definition add : float -> float -> float := SFadd prec emax.
Definition mul : float -> float -> float := SFmul prec emax.
Definition div : float -> float -> float := SFdiv prec emax.

(** The double nearest to an integer (ties to even). *)
Definition of_Z (z : Z) : float := binary_normalize prec emax z 0 false.

Definition zero : float := S754_zero false.

Definition is_finite (f : float) : bool :=
  match f with
  | S754_zero _ | S754_finite _ _ _ => true
  | S754_infinity _ | S754_nan => false
  end.

(** [float(z)] for an [int] *)
Definition of_int (z : Z) : result float :=
  let f := of_Z z in
  if is_finite f then Ok f else Raise OverflowError.

(** The double nearest to [m / 10^k], for [0 <= m]. *)
Definition of_decimal (m : Z) (k : nat) : float :=
  match m with
  | Zpos p => div (S754_finite false p 0)
                  (S754_finite false (Z.to_pos (10 ^ Z.of_nat k)) 0)
  | _ => zero
  end.

(** The literal [1.3]. *)
Definition lit_1_3 : float := of_decimal 13 1.

(** [math.ceil(f)] *)
Definition ceil (f : float) : result Z :=
  match f with
  | S754_zero _ => Ok 0
  | S754_infinity _ => Raise OverflowError
  | S754_nan => Raise ValueError
  | S754_finite s m e =>
      Ok (if s then - Z.shiftl (Z.pos m) e else - Z.shiftl (Z.neg m) e)
  end.

(** [int(f)]: truncation towards zero *)
Definition trunc (f : float) : result Z :=
  match f with
  | S754_zero _ => Ok 0
  | S754_infinity _ => Raise OverflowError
  | S754_nan => Raise ValueError
  | S754_finite s m e =>
      Ok (if s then - Z.shiftl (Z.pos m) e else Z.shiftl (Z.pos m) e)
  end.


(** [a > b], [a == b] *)
Definition gtb (a b : float) : bool := SFltb b a.
Definition eqb (a b : float) : bool := SFeqb a b.

(** [f == z] for an [int] [z]: the comparison is exact. *)
Definition eqb_Z (f : float) (z : Z) : bool :=
  match f with
  | S754_zero _ => z =? 0
  | S754_finite s m e =>
      let n := if s then Z.neg m else Z.pos m in
      if 0 <=? e then Z.shiftl n e =? z else n =? Z.shiftl z (- e)
  | _ => false
  end.

(** [bool(f)] *)
Definition truthy (f : float) : bool :=
  match f with
  | S754_zero _ => false
  | _ => true
  end.

End PyFloat.


(* ------------------------------------------------------------------ *)
(** ** Attribute values and the conversions of the Python runtime *)

(** What an attribute may hold: a number, a boolean or a string; [VNone]
    is Python's [None], the answer of [dict.get] for an absent key. *)
Inductive value : Type :=
| VNone
| VBool (b : bool)
| VInt (z : Z)
| VFloat (f : PyFloat.float)
| VStr (s : string).

(** Conversions between text and numbers that the interpreter provides. *)
Class PyRuntime : Type := {
  (** [float(s)] for a [str]; [None] stands for [ValueError]. *)
  float_of_str : string -> option PyFloat.float;
  (** [int(s)] for a [str]; [None] stands for [ValueError]. *)
  int_of_str : string -> option Z;
  (** [repr(f)] for a [float]. *)
  repr_float : PyFloat.float -> string
}.

Module PyVal.

(** [bool(v)] *)
Definition truthy (v : value) : bool :=
  match v with
  | VNone => false
  | VBool b => b
  | VInt z => negb (z =? 0)
  | VFloat f => PyFloat.truthy f
  | VStr s => negb (s =? "")%string
  end.

(** [a or b] *)
Definition py_or (a b : value) : value := if truthy a then a else b.

Definition Z_of_bool (b : bool) : Z := if b then 1 else 0.

(** [a == b]: numbers compare by value across [bool], [int] and
    [float]; values of unrelated types are different. *)
Definition py_eq (a b : value) : bool :=
  match a, b with
  | VNone, VNone => true
  | VStr s, VStr t => (s =? t)%string
  | VBool x, VBool y => Bool.eqb x y
  | VBool x, VInt z | VInt z, VBool x => Z_of_bool x =? z
  | VBool x, VFloat f | VFloat f, VBool x => PyFloat.eqb_Z f (Z_of_bool x)
  | VInt x, VInt y => x =? y
  | VInt z, VFloat f | VFloat f, VInt z => PyFloat.eqb_Z f z
  | VFloat f, VFloat g => PyFloat.eqb f g
  | _, _ => false
  end.

(** [a != b] *)
Definition py_ne (a b : value) : bool := negb (py_eq a b).

(** [v.upper()]: only a [str] has the method. *)
Definition py_upper (v : value) : result string :=
  match v with
  | VStr s => Ok (PyStr.upper s)
  | _ => Raise AttributeError
  end.

Section WithRuntime.
Context {R : PyRuntime}.

(** [float(v)] *)
Definition py_float (v : value) : result PyFloat.float :=
  match v with
  | VNone => Raise TypeError
  | VBool b => Ok (PyFloat.of_Z (Z_of_bool b))
  | VInt z => PyFloat.of_int z
  | VFloat f => Ok f
  | VStr s =>
      match float_of_str s with
      | Some f => Ok f
      | None => Raise ValueError
      end
  end.

(** [int(v)] *)
Definition py_int (v : value) : result Z :=
  match v with
  | VNone => Raise TypeError
  | VBool b => Ok (Z_of_bool b)
  | VInt z => Ok z
  | VFloat f => PyFloat.trunc f
  | VStr s =>
      match int_of_str s with
      | Some z => Ok z
      | None => Raise ValueError
      end
  end.

(** [str(v)], also the text an f-string puts for [{v}]. *)
Definition py_str (v : value) : string :=
  match v with
  | VNone => "None"
  | VBool true => "True"
  | VBool false => "False"
  | VInt z => PyStr.of_Z z
  | VFloat f => repr_float f
  | VStr s => s
  end.
End WithRuntime.

End PyVal.

(* ------------------------------------------------------------------ *)
(** ** Part *)

Record Part : Type := mkPart {
  id : string;
  category : string;
  name : string;
  price : PyFloat.float;
  attributes : Dict.dict value
}.

(** [p.category = c] *)
Definition set_category (p : Part) (c : string) : Part :=
  mkPart (id p) c (name p) (price p) (attributes p).

(** [p.attributes.get(k)] *)
Definition attr (p : Part) (k : string) : value :=
  Dict.get_default (attributes p) k VNone.

(* ------------------------------------------------------------------ *)
(** ** Catalog *)

(** Parts are objects: the catalog holds references into a heap, and
    [add_part] writes the normalised category into the object it files. *)
Definition ref : Type := nat.
Definition heap : Type := ref -> Part.

Definition heap_set (h : heap) (r : ref) (p : Part) : heap :=
  fun r' => if Nat.eqb r' r then p else h r'.

Module Catalog.

Record t : Type := mk {
  by_cat : Dict.dict (list ref);
  by_id : Dict.dict ref
}.

(** [Catalog.__init__] *)
Definition init : t := mk Dict.empty Dict.empty.

Definition _normalize_category (cat : string) : string :=
  let cat_lower := PyStr.lower (PyStr.strip cat) in
  if PyStr.contains "placa-mãe" cat_lower
     || PyStr.contains "motherboard" cat_lower
     || PyStr.contains "mainboard" cat_lower
  then "Placa-mãe"
  else if PyStr.mem cat_lower ["gpu"; "placa de vídeo"; "video card"]
  then "GPU"
  else if PyStr.mem cat_lower ["cpu"; "processador"]
  then "CPU"
  else if PyStr.mem cat_lower ["ram"; "memória"]
  then "RAM"
  else if PyStr.mem cat_lower ["fonte"; "psu"; "power supply"]
  then "Fonte"
  else if PyStr.mem cat_lower ["gabinete"; "case"]
  then "Gabinete"
  else if PyStr.mem cat_lower ["ssd"; "armazenamento"; "hdd"; "storage"]
  then "Armazenamento"
  else if PyStr.mem cat_lower ["cooler"; "aio"; "resfriamento"]
  then "Cooler"
  else PyStr.strip cat.

(** [add_part(p)], [p] being the object at reference [r]. *)
Definition add_part (st : heap * t) (r : ref) : heap * t :=
  let (h, self) := st in
  let norm_cat := _normalize_category (category (h r)) in
  let h := heap_set h r (set_category (h r) norm_cat) in
  let by_cat' :=
    Dict.set (by_cat self) norm_cat
             (py_append (Dict.get_default (by_cat self) norm_cat []) r) in
  let by_id' := Dict.set (by_id self) (id (h r)) r in
  (h, mk by_cat' by_id').

(** [parts_in(c)] and [find(pid)] *)
Definition parts_in (self : t) (c : string) : list ref :=
  Dict.get_default (by_cat self) c [].
Definition find (self : t) (pid : string) : option ref :=
  Dict.get (by_id self) pid.

(** [categories()] *)
Definition categories (self : t) : list string :=
  PyStr.sorted (Dict.keys (by_cat self)).

(** The catalog after [add_part] on each reference of [rs] in turn. *)
Definition add_all (st : heap * t) (rs : list ref) : heap * t :=
  fold_left add_part rs st.

End Catalog.

(* ------------------------------------------------------------------ *)
(** ** BuildEngine *)

Module BuildEngine.

Import PyVal.

(** [self.parts]: the selection, one part per slot. *)
Record t : Type := mk { parts : Dict.dict Part }.

(** [self.cat_map] *)
Definition cat_map : Dict.dict string :=
  [ ("Placa-mãe", "Placa-mãe"); ("Motherboard", "Placa-mãe");
    ("GPU", "GPU"); ("Placa de Vídeo", "GPU");
    ("CPU", "CPU"); ("Processador", "CPU");
    ("RAM", "RAM"); ("Memória", "RAM");
    ("Fonte", "Fonte"); ("PSU", "Fonte"); ("Power Supply", "Fonte");
    ("Gabinete", "Gabinete"); ("Case", "Gabinete");
    ("Cooler", "Cooler"); ("AIO", "Cooler"); ("Air Cooler", "Cooler");
    ("SSD", "Armazenamento"); ("HDD", "Armazenamento");
    ("Armazenamento", "Armazenamento") ].

(** [BuildEngine.__init__] *)
Definition init : t := mk Dict.empty.

(** The slot [add] files a part under. *)
Definition slot_of (p : Part) : string :=
  Dict.get_default cat_map (category p) (category p).

Definition add (self : t) (p : Part) : t :=
  let cat := slot_of p in
  mk (Dict.set (parts self) cat p).

Definition remove (self : t) (category : string) : t :=
  mk (Dict.del (parts self) category).

(** The occupant of a slot, [self.parts.get(slot)]. *)
Definition slot (self : t) (c : string) : option Part :=
  Dict.get (parts self) c.

(** A [Part] object is always true; [None] is false. *)
Definition present (o : option Part) : bool :=
  match o with
  | Some _ => true
  | None => false
  end.

(** ** The lines of [assembly_steps] *)

Definition line_tools : string :=
  "Ferramentas: chave Phillips #2, pasta térmica, pulseira antiestática (opcional).".
Definition line_prepare_board : string :=
  "1) Preparação da Placa-mãe: Coloque a placa em cima da caixa antiestática.".
Definition line_cpu : string :=
  "2) Instalar CPU na placa-mãe: Alinhar o triângulo/seta, levantar a alavanca e fechar com cuidado.".
Definition line_cooler : string :=
  "3) Instalar cooler/AIO e aplicar pasta térmica se necessário (ou se não pré-aplicada).".
Definition line_ram : string :=
  "4) Inserir módulos de RAM nos slots corretos (consultar manual da placa-mãe para dual channel).".
Definition line_m2 : string :=
  "5) Instalar SSD M.2 nos slots da placa-mãe e parafusar com cuidado.".
Definition line_cpu_before_board : string :=
  "1) Instalar CPU e Cooler (se for o caso) antes de encaixar a Placa-mãe.".
Definition line_ram_generic : string :=
  "2) Inserir RAM nos slots da Placa-mãe.".
Definition line_psu : string :=
  "6) Instalar Fonte no compartimento e rotear os cabos principais (CPU/24pinos) por trás da placa-mãe.".
Definition line_mount_board : string :=
  "7) Instalar Placa-mãe nos 'standoffs' (espaçadores) do gabinete e parafusar com cuidado.".
Definition line_sata : string :=
  "8) Instalar drive SATA (SSD/HDD) nas baias e conectar cabos de dados (SATA) e energia.".
Definition line_gpu : string :=
  "9) Instalar GPU no slot PCIe x16 (geralmente o de cima) e conectar cabos PCIe de energia (se necessário).".
Definition line_front_panel : string :=
  "10) Conectar cabos frontais (Power/Reset, USB, Áudio) e organizar todos os cabos com abraçadeiras.".
Definition line_power_on : string :=
  "11) Conectar periféricos (Monitor, Teclado, Mouse) e ligar o sistema para o POST inicial.".
Definition line_warning : string :=
  "⚠ Atenção: Foram detectados problemas de compatibilidade — reveja antes de ligar:".

Section WithRuntime.
Context {R : PyRuntime}.

(** [p.attributes.get('tdp_w') or p.attributes.get('tdp') or 0] *)
Definition tdp_of (p : Part) : value :=
  py_or (py_or (attr p "tdp_w") (attr p "tdp")) (VInt 0).

(** One turn of the loop of [estimated_power]:
    [try: total += float(tdp)  except: pass]. *)
Definition add_tdp (total : PyFloat.float) (p : Part) : PyFloat.float :=
  try_pass total
    (f <- py_float (tdp_of p) ;; Ok (PyFloat.add total f)).

Definition estimated_power (self : t) : result (Z * Z) :=
  let total := PyFloat.zero in
  let total := fold_left add_tdp (Dict.values (parts self)) total in
  let baseline := 50 in
  let total := PyFloat.add total (PyFloat.of_Z baseline) in
  rec <- PyFloat.ceil (PyFloat.mul total PyFloat.lit_1_3) ;;
  consumed <- PyFloat.trunc total ;;
  Ok (consumed, rec).

(** The texts of the issues. *)
Definition issue_socket (cpu_sock mb_sock : value) : string :=
  "Soquete incompatível: CPU(" ++ py_str cpu_sock
    ++ ") != Placa-mãe(" ++ py_str mb_sock ++ ")".
Definition issue_bios (reqb : value) : string :=
  "Aviso BIOS: " ++ py_str reqb.
Definition issue_ram (ram_u mb_u : string) : string :=
  "Tipo de RAM incompatível: " ++ ram_u ++ " != " ++ mb_u.
Definition issue_gpu (gl cm : value) : string :=
  "GPU muito longa: " ++ py_str gl ++ "mm > gabinete " ++ py_str cm ++ "mm".
Definition issue_cooler (ch clearance : value) : string :=
  "Cooler muito alto: " ++ py_str ch ++ "mm > clearance "
    ++ py_str clearance ++ "mm".
Definition issue_psu (watt : value) (rec : Z) : string :=
  "Fonte pode ser insuficiente: " ++ py_str watt ++ "W < recomendado "
    ++ PyStr.of_Z rec ++ "W".

(** [watt = psu.attributes.get('watt') or psu.attributes.get('power_w')] *)
Definition watt_of (psu : Part) : value :=
  py_or (attr psu "watt") (attr psu "power_w").

(** [cpu.attributes.get('required_bios') or cpu.attributes.get('bios_note')] *)
Definition bios_of (cpu : Part) : value :=
  py_or (attr cpu "required_bios") (attr cpu "bios_note").

(** [ram.attributes.get('tipo') or ram.attributes.get('mem_type')
     or ram.attributes.get('type')] *)
Definition ram_type_of (ram : Part) : value :=
  py_or (py_or (attr ram "tipo") (attr ram "mem_type")) (attr ram "type").

(** [mb.attributes.get('mem_type') or mb.attributes.get('ram_type')] *)
Definition board_ram_type_of (mb : Part) : value :=
  py_or (attr mb "mem_type") (attr mb "ram_type").

(** The blocks of [compatibility_issues], in the order of the source;
    each takes the list [issues] built so far and gives it back,
    extended or not. *)

(** [if cpu and mb: ...]: socket comparison, then the BIOS note. *)
Definition rule_cpu_mb (issues : list string) (cpu mb : option Part)
  : list string :=
  match cpu, mb with
  | Some cpu, Some mb =>
      let cpu_sock := py_or (attr cpu "soquete") (attr cpu "socket") in
      let mb_sock := py_or (attr mb "soquete") (attr mb "socket") in
      let issues :=
        if truthy cpu_sock && truthy mb_sock && py_ne cpu_sock mb_sock
        then py_append issues (issue_socket cpu_sock mb_sock)
        else issues in
      let reqb := bios_of cpu in
      if truthy reqb then py_append issues (issue_bios reqb) else issues
  | _, _ => issues
  end.

(** [if ram and mb: ...]: no [try] around the calls of [upper]. *)
Definition rule_ram_mb (issues : list string) (ram mb : option Part)
  : result (list string) :=
  match ram, mb with
  | Some ram, Some mb =>
      let ram_t := ram_type_of ram in
      let mb_t := board_ram_type_of mb in
      if truthy ram_t && truthy mb_t
      then
        ram_u <- py_upper ram_t ;;
        mb_u <- py_upper mb_t ;;
        Ok (if negb (ram_u =? mb_u)%string
            then py_append issues (issue_ram ram_u mb_u)
            else issues)
      else Ok issues
  | _, _ => Ok issues
  end.

(** [if gpu and case: ...] *)
Definition rule_gpu_case (issues : list string) (gpu case : option Part)
  : list string :=
  match gpu, case with
  | Some gpu, Some case =>
      let gl := py_or (attr gpu "comprimento_mm") (attr gpu "length_mm") in
      let cm :=
        py_or (attr case "gpu_max_mm") (attr case "max_gpu_length_mm") in
      try_pass issues
        (if truthy gl && truthy cm
         then
           a <- py_float gl ;;
           b <- py_float cm ;;
           Ok (if PyFloat.gtb a b
               then py_append issues (issue_gpu gl cm)
               else issues)
         else Ok issues)
  | _, _ => issues
  end.

(** [if cooler and case: ...] *)
Definition rule_cooler_case (issues : list string)
  (cooler case : option Part) : list string :=
  match cooler, case with
  | Some cooler, Some case =>
      let ch := py_or (attr cooler "height_mm") (attr cooler "altura_mm") in
      let clearance :=
        py_or (attr case "cooler_clearance_mm")
              (attr case "max_cooler_height_mm") in
      try_pass issues
        (if truthy ch && truthy clearance
         then
           a <- py_float ch ;;
           b <- py_float clearance ;;
           Ok (if PyFloat.gtb a b
               then py_append issues (issue_cooler ch clearance)
               else issues)
         else Ok issues)
  | _, _ => issues
  end.

(** [if psu: ...]: [estimated_power] is called outside the [try]. *)
Definition rule_psu (self : t) (issues : list string) (psu : option Part)
  : result (list string) :=
  match psu with
  | Some psu =>
      let watt := watt_of psu in
      pr <- estimated_power self ;;
      let rec := snd pr in
      Ok (try_pass issues
            (if truthy watt
             then
               w <- py_int watt ;;
               Ok (if w <? rec
                   then py_append issues (issue_psu watt rec)
                   else issues)
             else Ok issues))
  | None => Ok issues
  end.

Definition compatibility_issues (self : t) : result (list string) :=
  let issues := [] in
  let cpu := slot self "CPU" in
  let mb := slot self "Placa-mãe" in
  let ram := slot self "RAM" in
  let gpu := slot self "GPU" in
  let case := slot self "Gabinete" in
  let psu := slot self "Fonte" in
  let cooler := slot self "Cooler" in
  let issues := rule_cpu_mb issues cpu mb in
  issues <- rule_ram_mb issues ram mb ;;
  let issues := rule_gpu_case issues gpu case in
  let issues := rule_cooler_case issues cooler case in
  issues <- rule_psu self issues psu ;;
  Ok issues.

(** [str(storage.attributes.get('form_factor', '')).lower()] *)
Definition form_factor (storage : Part) : string :=
  PyStr.lower
    (py_str (Dict.get_default (attributes storage) "form_factor" (VStr ""))).

Definition assembly_steps (self : t) : result (list string) :=
  let steps := [] in
  let steps := py_append steps line_tools in
  let storage := slot self "Armazenamento" in
  let steps :=
    if present (slot self "Placa-mãe")
    then
      let steps := py_append steps line_prepare_board in
      let steps :=
        if present (slot self "CPU")
        then py_append steps line_cpu else steps in
      let steps :=
        if present (slot self "Cooler")
        then py_append steps line_cooler else steps in
      let steps :=
        if present (slot self "RAM")
        then py_append steps line_ram else steps in
      match storage with
      | Some st =>
          if (form_factor st =? "m.2")%string
          then py_append steps line_m2 else steps
      | None => steps
      end
    else
      let steps := py_append steps line_cpu_before_board in
      if present (slot self "RAM")
      then py_append steps line_ram_generic else steps in
  let steps :=
    if present (slot self "Fonte")
    then py_append steps line_psu else steps in
  let steps :=
    if present (slot self "Placa-mãe")
    then py_append steps line_mount_board else steps in
  let steps :=
    match storage with
    | Some st =>
        let ff := form_factor st in
        if (ff =? "2.5")%string || (ff =? "3.5")%string
           || (ff =? "sata")%string
        then py_append steps line_sata else steps
    | None => steps
    end in
  let steps :=
    if present (slot self "GPU")
    then py_append steps line_gpu else steps in
  let steps := py_append steps line_front_panel in
  let steps := py_append steps line_power_on in
  issues <- compatibility_issues self ;;
  match issues with
  | [] => Ok steps
  | _ :: _ =>
      Ok ((line_warning :: map (fun it => (" - " ++ it)%string) issues)
            ++ steps)%list
  end.
End WithRuntime.

(** Selection and removal, as the interface issues them. *)
Inductive op : Type :=
| Select (p : Part)
| Deselect (category : string).

Definition step (self : t) (o : op) : t :=
  match o with
  | Select p => add self p
  | Deselect c => remove self c
  end.

Definition run (self : t) (ops : list op) : t := fold_left step ops self.

End BuildEngine.

(* ------------------------------------------------------------------ *)
(** ** Helpers: the price parser *)

Section PriceParser.
Context {R : PyRuntime}.

(** [allowed = set("0123456789.,")] *)
Definition allowed (ch : ascii) : bool :=
  PyStr.contains (String ch EmptyString) "0123456789.,".

Definition newline : ascii := ascii_of_N 10.

(** [c and s[-3] == sep], the right operand evaluated only when [c]. *)
Definition and_third_from_end (c : bool) (s : string) (sep : ascii)
  : result bool :=
  if c then (ch <- PyStr.getitem_neg s 3 ;; Ok (Ascii.eqb ch sep))
  else Ok false.

(** [try: return float(s)  except: return 0.0] *)
Definition float_or_zero (s : string) : PyFloat.float :=
  match float_of_str s with
  | Some f => f
  | None => PyFloat.zero
  end.

Definition _parse_price_brl (text : option string) : result PyFloat.float :=
  match text with
  | None => Ok PyFloat.zero
  | Some text =>
      if (text =? "")%string then Ok PyFloat.zero
      else
        let txt :=
          PyStr.replace_char " " ""
            (PyStr.replace_char newline " " (PyStr.strip text)) in
        let txt := PyStr.remove_pair "r" "$" (PyStr.remove_pair "R" "$" txt) in
        let s := PyStr.filter allowed txt in
        if (s =? "")%string then Ok PyFloat.zero
        else
          comma <- and_third_from_end (PyStr.count "," s =? 1) s "," ;;
          s <- (if comma
                then Ok (PyStr.replace_char "," "."
                           (PyStr.replace_char "." "" s))
                else
                  dot <- and_third_from_end (PyStr.count "." s =? 1) s "." ;;
                  if dot then Ok s
                  else
                    let s :=
                      if 1 <? PyStr.count "." s
                      then PyStr.replace_char "." "" s else s in
                    Ok (PyStr.replace_char "," "." s)) ;;
          Ok (float_or_zero s)
  end.
End PriceParser.

(* ------------------------------------------------------------------ *)
(** ** Helpers: reading a number off a table cell *)

Section TryNum.
Context {R : PyRuntime}.

(** The unit marks [_try_num] removes, in the order of the source. *)
Definition strip_units (vl : string) : string :=
  PyStr.strip
    (PyStr.remove_sub "w"
       (PyStr.remove_sub "mm"
          (PyStr.remove_sub "mhz"
             (PyStr.remove_sub "tb"
                (PyStr.remove_sub "g"
                   (PyStr.remove_sub "gb" vl)))))).

(** [_try_num(v)]; only [float] and [int] can raise inside the [try],
    and [except: return v] gives the argument back. *)
Definition _try_num (v : value) : value :=
  match v with
  | VBool _ | VInt _ | VFloat _ => v
  | VNone => v
  | VStr s =>
      let vl := PyStr.lower (PyStr.strip s) in
      if (vl =? "")%string then v
      else if PyStr.mem vl ["true"; "sim"; "yes"] then VBool true
      else if PyStr.mem vl ["false"; "não"; "no"] then VBool false
      else
        let vl := strip_units vl in
        if PyStr.contains "." vl
        then match float_of_str vl with
             | Some f => VFloat f
             | None => v
             end
        else match int_of_str vl with
             | Some z => VInt z
             | None => v
             end
  end.
End TryNum.

(* ------------------------------------------------------------------ *)
(** ** Scrapers: from the product cards of a page to parts

    The page and its elements belong to the libraries [requests] and
    [bs4]: what the scrapers ask of an element of the page is the
    class [Soup], and a scraper is modelled from the list of cards
    that [soup.select] gives it. *)

Class Soup (E : Type) : Type := {
  (** [c.name] *)
  tag_name : E -> string;
  (** [c.get(key)] *)
  get_attr : E -> string -> option string;
  (** [c.select_one(selector)] *)
  select_one : E -> string -> option E;
  (** [c.find("a", href=True)]: the anchor found, with its [href] *)
  find_anchor : E -> option (E * string);
  (** [c.get_text()] *)
  get_text : E -> string;
  (** [c.get_text(strip=True)] *)
  get_text_strip : E -> string;
  (** [c.get_text(" ", strip=True)] *)
  get_text_sep_strip : E -> string
}.

(** What a scraper reads off one card: the link ([None] without an
    anchor), the name and the price. *)
Record card : Type := mkCard {
  card_href : option string;
  card_name : string;
  card_price : PyFloat.float
}.

(** The category a scraper gives a part, from its name. *)
Definition infer_category (name : string) : string :=
  let cat := "Unknown" in
  if PyStr.contains "placa de vídeo" (PyStr.lower name)
     || PyStr.contains "rtx" (PyStr.lower name)
  then "GPU"
  else if PyStr.contains "processador" (PyStr.lower name) then "CPU"
  else if PyStr.contains "placa-mãe" (PyStr.lower name) then "Placa-mãe"
  else if PyStr.contains "memória" (PyStr.lower name) then "RAM"
  else if PyStr.contains "fonte" (PyStr.lower name) then "Fonte"
  else if PyStr.contains "gabinete" (PyStr.lower name) then "Gabinete"
  else if PyStr.contains "ssd" (PyStr.lower name) then "Armazenamento"
  else if PyStr.contains "cooler" (PyStr.lower name) then "Cooler"
  else cat.

(** [href] as a value: a string, or [None]. *)
Definition href_value (href : option string) : value :=
  match href with
  | Some h => VStr h
  | None => VNone
  end.

Section Scrapers.
Context {R : PyRuntime} {E : Type} {S : Soup E}.

(** [c.name == 'a' and c.get('href') and '/produto/' in c.get('href')] *)
Definition is_product_link (c : E) : bool :=
  (tag_name c =? "a")%string
  && match get_attr c "href" with
     | Some h => negb (h =? "")%string && PyStr.contains "/produto/" h
     | None => false
     end.

(** The text [scrap_kabum_category] hands to the price parser:
    [price_el.get_text() if price_el else None]. *)
Definition kabum_price_text (c : E) : option string :=
  if is_product_link c
  then option_map get_text
         (select_one c ".price, .valor, .preco, .productCardPrice")
  else option_map get_text (select_one c ".price, .valor, .preco").

(** The first lines of the loop of [scrap_kabum_category].  On a link
    to a product the name is the text of an element inside it, and
    [get_text] is called on [None] when there is none. *)
Definition read_kabum (c : E) : result card :=
  if is_product_link c
  then
    let href := get_attr c "href" in
    name <- match select_one c ".name, h2, h3" with
            | Some el => Ok (PyStr.slice_to 200 (get_text_sep_strip el))
            | None => Raise AttributeError
            end ;;
    price <- _parse_price_brl (kabum_price_text c) ;;
    Ok (mkCard href name price)
  else
    let href := option_map snd (find_anchor c) in
    let name := PyStr.slice_to 200 (get_text_sep_strip c) in
    price <- _parse_price_brl (kabum_price_text c) ;;
    Ok (mkCard href name price).

(** The first lines of the loops of [scrap_pichau_category] and
    [scrap_terabyte_category], which differ in the selector of the
    price element: the parser is called when there is such an element,
    and the price is 0.0 otherwise. *)
Definition read_shop (selector : string) (c : E) : result card :=
  let a := find_anchor c in
  let href := option_map snd a in
  let name :=
    match a with
    | Some (el, _) => get_text_strip el
    | None => PyStr.slice_to 150 (get_text_strip c)
    end in
  price <- match select_one c selector with
           | Some el => _parse_price_brl (Some (get_text el))
           | None => Ok PyFloat.zero
           end ;;
  Ok (mkCard href name price).

Definition read_pichau : E -> result card :=
  read_shop ".price, .valor, .price-box".
Definition read_terabyte : E -> result card :=
  read_shop ".price, .valor".

(** [pid = href.split("/")[-1] if href else f"{prefix}{len(seen)}"] *)
Definition card_pid (prefix : string) (seen : list string) (cd : card)
  : string :=
  match card_href cd with
  | Some h =>
      if (h =? "")%string
      then prefix ++ PyStr.of_Z (Z.of_nat (List.length seen))
      else PyStr.last_segment h
  | None => prefix ++ PyStr.of_Z (Z.of_nat (List.length seen))
  end.

(** The loop [for c in cards: ...] of the three scrapers, which differ
    in how a card is read, in the source they name and in the prefix
    of the ids they make up; [items] and [seen] are what the loop has
    gathered so far, [seen] being a set, held as the list of its
    elements. *)
Fixpoint scrap_loop (read : E -> result card) (source prefix : string)
  (limit : Z) (cards : list E) (items : list Part) (seen : list string)
  : result (list Part) :=
  match cards with
  | [] => Ok items
  | c :: rest =>
      cd <- read c ;;
      let pid := card_pid prefix seen cd in
      if PyStr.mem pid seen
      then scrap_loop read source prefix limit rest items seen
      else
        let seen := py_append seen pid in
        let cat := infer_category (card_name cd) in
        let items :=
          py_append items
            (mkPart pid cat (card_name cd) (card_price cd)
               [("source", VStr source); ("link", href_value (card_href cd))])
        in
        if limit <=? Z.of_nat (List.length items) then Ok items
        else scrap_loop read source prefix limit rest items seen
  end.

(** [scrap_kabum_category], [scrap_pichau_category] and
    [scrap_terabyte_category] on the cards of the page. *)
Definition scrap_kabum_cards (cards : list E) (limit : Z)
  : result (list Part) :=
  scrap_loop read_kabum "kabum" "kb_" limit cards [] [].
Definition scrap_pichau_cards (cards : list E) (limit : Z)
  : result (list Part) :=
  scrap_loop read_pichau "pichau" "pich_" limit cards [] [].
Definition scrap_terabyte_cards (cards : list E) (limit : Z)
  : result (list Part) :=
  scrap_loop read_terabyte "terabyte" "ter_" limit cards [] [].
End Scrapers.

(* ------------------------------------------------------------------ *)
(** ** A runtime for plain decimal numerals

    An instance of [PyRuntime] to run the model on concrete inputs.  It
    reads optionally signed decimal numerals surrounded by white space
    ([12], [-3], [1234.56]) and prints a float by its exact decimal
    expansion, which is Python's [repr] whenever that expansion has at
    most 15 significant digits and no exponent is called for. *)

Module PlainRuntime.

Definition digit (c : ascii) : option Z :=
  let n := PyStr.code c in
  if ((48 <=? n) && (n <=? 57))%N then Some (Z.of_N n - 48) else None.

(** The number written by a string of digits, read after [acc]. *)
Fixpoint digits_from (acc : Z) (s : string) : option Z :=
  match s with
  | EmptyString => Some acc
  | String c r =>
      match digit c with
      | Some d => digits_from (10 * acc + d) r
      | None => None
      end
  end.

(** Splits a sign off: [(negative, rest)]. *)
Definition split_sign (s : string) : bool * string :=
  match s with
  | String "-" r => (true, r)
  | String "+" r => (false, r)
  | _ => (false, s)
  end.

Definition plain_int (s : string) : option Z :=
  let (neg, body) := split_sign (PyStr.strip s) in
  if (body =? "")%string then None
  else match digits_from 0 body with
       | Some n => Some (if neg then - n else n)
       | None => None
       end.

(** The text before the first ['.'] and the text after it. *)
Fixpoint split_dot (s : string) : string * option string :=
  match s with
  | EmptyString => (EmptyString, None)
  | String c r =>
      if Ascii.eqb c "." then (EmptyString, Some r)
      else let (a, b) := split_dot r in (String c a, b)
  end.

Definition plain_float (s : string) : option PyFloat.float :=
  let (neg, body) := split_sign (PyStr.strip s) in
  let (whole, frac) := split_dot body in
  let frac := match frac with Some f => f | None => EmptyString end in
  if ((whole ++ frac) =? "")%string then None
  else match digits_from 0 (whole ++ frac) with
       | Some m =>
           let f := PyFloat.of_decimal m (String.length frac) in
           Some (if neg then SFopp f else f)
       | None => None
       end.

Definition digit_char (d : Z) : ascii := ascii_of_N (Z.to_N (d + 48)).

(** The decimal digits of [num / den] after the point, for
    [0 <= num < den] and [den] a power of two. *)
Fixpoint frac_digits (fuel : nat) (num den : Z) : string :=
  match fuel with
  | O => EmptyString
  | S fuel' =>
      if num =? 0 then EmptyString
      else String (digit_char (10 * num / den))
                  (frac_digits fuel' ((10 * num) mod den) den)
  end.

Definition exact_repr (f : PyFloat.float) : string :=
  match f with
  | S754_zero s => if s then "-0.0" else "0.0"
  | S754_infinity s => if s then "-inf" else "inf"
  | S754_nan => "nan"
  | S754_finite s m e =>
      let sign := if s then "-" else "" in
      if 0 <=? e then sign ++ PyStr.of_Z (Z.shiftl (Z.pos m) e) ++ ".0"
      else
        let den := 2 ^ (- e) in
        let frac := frac_digits (Z.to_nat (- e)) (Z.pos m mod den) den in
        sign ++ PyStr.of_Z (Z.pos m / den) ++ "."
             ++ (if (frac =? "")%string then "0" else frac)
  end.

#[export] Instance runtime : PyRuntime := {
  float_of_str := plain_float;
  int_of_str := plain_int;
  repr_float := exact_repr
}.

End PlainRuntime.

(* ------------------------------------------------------------------ *)
(** ** Vocabulary of the statements *)

Module Spec.

Import PyVal BuildEngine.

(** The names [_normalize_category] returns for a recognised label. *)
Definition canonical_categories : list string :=
  [ "Placa-mãe"; "GPU"; "CPU"; "RAM"; "Fonte"; "Gabinete";
    "Armazenamento"; "Cooler" ].

(** The terms looked for anywhere in a label. *)
Definition board_terms : list string :=
  [ "placa-mãe"; "motherboard"; "mainboard" ].

(** The labels compared with the whole lower-cased text, each with the
    name it folds into. *)
Definition exact_synonyms : list (string * string) :=
  [ ("gpu", "GPU"); ("placa de vídeo", "GPU"); ("video card", "GPU");
    ("cpu", "CPU"); ("processador", "CPU");
    ("ram", "RAM"); ("memória", "RAM");
    ("fonte", "Fonte"); ("psu", "Fonte"); ("power supply", "Fonte");
    ("gabinete", "Gabinete"); ("case", "Gabinete");
    ("ssd", "Armazenamento"); ("armazenamento", "Armazenamento");
    ("hdd", "Armazenamento"); ("storage", "Armazenamento");
    ("cooler", "Cooler"); ("aio", "Cooler"); ("resfriamento", "Cooler") ].

(** A part is filed in some category list, or indexed under some id. *)
Definition in_by_cat (c : Catalog.t) (r : ref) : Prop :=
  exists k, In r (Catalog.parts_in c k).
Definition in_by_id (c : Catalog.t) (r : ref) : Prop :=
  exists k, Catalog.find c k = Some r.

(** What holds of the heap [h] and the catalog [c] once the parts
    [done] were added, [h0] being the heap before. *)
Record indexed (h0 : heap) (done : list ref) (h : heap) (c : Catalog.t)
  : Prop := {
  ids_kept : forall r, id (h r) = id (h0 r);
  by_id_sound :
    forall k r, Catalog.find c k = Some r -> In r done /\ id (h r) = k;
  by_cat_sound :
    forall k r, In r (Catalog.parts_in c k) ->
      In r done /\ category (h r) = k /\ Catalog._normalize_category k = k;
  done_filed :
    forall r, In r done ->
      In r (Catalog.parts_in c (category (h r)))
      /\ exists r', Catalog.find c (id (h r)) = Some r'
}.

(** The occupants of a slot. *)
Definition occupants (self : BuildEngine.t) (c : string) : list Part :=
  Dict.bindings (parts self) c.

(** The issue of the power-supply rule, by its opening words. *)
Definition is_psu_issue (s : string) : bool :=
  prefix "Fonte pode ser insuficiente: " s.
Definition count_psu_issues (issues : list string) : nat :=
  List.length (List.filter is_psu_issue issues).

Definition is_str (v : value) : Prop := exists s, v = VStr s.

(** The lines [assembly_steps] puts before its steps: nothing without
    issues, else the warning and one indented line per issue. *)
Definition warning_block (issues : list string) : list string :=
  match issues with
  | [] => []
  | _ :: _ => line_warning :: map (fun it => (" - " ++ it)%string) issues
  end.

(** Two floats that are equal, or both a zero of either sign. *)
Definition is_zero (f : PyFloat.float) : Prop := exists s, f = S754_zero s.
Definition same_number (a b : PyFloat.float) : Prop :=
  a = b \/ (is_zero a /\ is_zero b).

(** What [_parse_price_brl] keeps of a text before it looks for the
    separators. *)
Definition kept_text (text : string) : string :=
  PyStr.filter allowed
    (PyStr.remove_pair "r" "$"
       (PyStr.remove_pair "R" "$"
          (PyStr.replace_char " " ""
             (PyStr.replace_char newline " " (PyStr.strip text))))).

Section WithRuntime.
Context {R : PyRuntime}.

(** A part that adds nothing to the power total: its TDP reading does
    not convert, or is absent or zero. *)
Definition silent (p : Part) : Prop :=
  (exists e, py_float (tdp_of p) = Raise e)
  \/ py_float (tdp_of p) = Ok PyFloat.zero.


(** What a slot contributes in the words of the specification: its
    TDP as a number, 0 when absent or not numeric. *)
Definition tdp_contribution (p : Part) : PyFloat.float :=
  try_pass PyFloat.zero (py_float (tdp_of p)).

(** [consumed]: the contributions summed in slot order, plus 50. *)
Definition consumed (self : BuildEngine.t) : PyFloat.float :=
  PyFloat.add
    (fold_left (fun total p => PyFloat.add total (tdp_contribution p))
               (Dict.values (parts self)) PyFloat.zero)
    (PyFloat.of_Z 50).



(** The memory-type rule can call [upper]: when both readings are
    true values, both are strings. *)
Definition ram_types_usable (self : BuildEngine.t) : Prop :=
  forall ram mb,
    slot self "RAM" = Some ram -> slot self "Placa-mãe" = Some mb ->
    truthy (ram_type_of ram) = true ->
    truthy (board_ram_type_of mb) = true ->
    is_str (ram_type_of ram) /\ is_str (board_ram_type_of mb).

(** With a power supply selected, [estimated_power] returns. *)
Definition power_usable (self : BuildEngine.t) : Prop :=
  slot self "Fonte" <> None -> exists pr, estimated_power self = Ok pr.
End WithRuntime.

End Spec.

(* ------------------------------------------------------------------ *)
(** ** Concrete catalogs and selections *)

Module Examples.

Import PyVal BuildEngine.

Definition part (pid cat : string) (attrs : Dict.dict value) : Part :=
  mkPart pid cat pid PyFloat.zero attrs.

(** An element of a page, by what a scraper can read of it: its tag,
    its [href], its text, the text of the name element and of the
    price element inside it, and the [href] and text of the first
    anchor inside it. *)
Record node : Type := mkNode {
  node_tag : string;
  node_href : option string;
  node_text : string;
  node_title : option string;
  node_price : option string;
  node_anchor : option (string * string)
}.

Definition leaf (t : string) : node := mkNode "span" None t None None None.

#[export] Instance plain_soup : Soup node := {
  tag_name := node_tag;
  get_attr c k := if (k =? "href")%string then node_href c else None;
  select_one c sel :=
    if (sel =? ".name, h2, h3")%string
    then option_map leaf (node_title c)
    else option_map leaf (node_price c);
  find_anchor c := option_map (fun a => (leaf (snd a), fst a)) (node_anchor c);
  get_text := node_text;
  get_text_strip := node_text;
  get_text_sep_strip := node_text
}.

(** A card with an anchor inside, and a link to a product. *)
Definition shop_card (href name : string) (price : option string) : node :=
  mkNode "div" None name None price (Some (href, name)).
Definition product_link (href : string) (title price : option string)
  : node :=
  mkNode "a" (Some href) "" title price None.

(** White space outside ASCII: the no-break space U+00A0 and the em
    space U+2003, by their bytes. *)
Definition nbsp : string := String "194" (String "160" "").
Definition em_space : string :=
  String "226" (String "128" (String "131" "")).

(** A full build with bare parts. *)
Definition bare_build : BuildEngine.t :=
  run init
    [ Select (part "mb1" "Placa-mãe" []); Select (part "c1" "CPU" []);
      Select (part "r1" "RAM" []); Select (part "p1" "Fonte" []);
      Select (part "g1" "Gabinete" []); Select (part "v1" "GPU" []) ].

(** Readings of 65 and 170 watts, and a part without a reading. *)
Definition powered_build : BuildEngine.t :=
  run init
    [ Select (part "c1" "CPU" [("tdp", VInt 65)]);
      Select (part "r1" "RAM" []);
      Select (part "v1" "GPU" [("tdp_w", VStr "170")]) ].


(** A power supply whose wattage reads 0. *)
Definition zero_watt_build : BuildEngine.t :=
  run init [ Select (part "p1" "Fonte" [("power_w", VInt 0)]) ].

(** A power supply of [w] watts next to a 65-watt CPU; the recommended
    value is [ceil((65 + 50) * 1.3) = 150]. *)
Definition psu_build (w : Z) : BuildEngine.t :=
  run init
    [ Select (part "c1" "CPU" [("tdp", VInt 65)]);
      Select (part "p1" "PSU" [("watt", VInt w)]) ].

(** A CPU with a BIOS requirement, without and with a motherboard. *)
Definition bios_cpu : Part :=
  part "c1" "CPU" [("socket", VStr "AM4"); ("required_bios", VStr "F20")].
Definition cpu_only_build : BuildEngine.t := run init [ Select bios_cpu ].
Definition cpu_board_build : BuildEngine.t :=
  run init
    [ Select bios_cpu;
      Select (part "mb1" "Motherboard" [("socket", VStr "LGA1700")]) ].

(** Memory whose type column read as the number 4. *)
Definition numeric_ram_build : BuildEngine.t :=
  run init
    [ Select (part "r1" "RAM" [("type", VInt 4)]);
      Select (part "mb1" "Placa-mãe" [("mem_type", VStr "DDR4")]) ].

(** Two part objects with the same id, and two with different ids. *)
Definition same_id_heap : heap :=
  fun r => if Nat.eqb r 0 then part "1" "cpu" [] else part "1" "CPU" [].
Definition two_ids_heap : heap :=
  fun r => if Nat.eqb r 0 then part "1" "processador" []
           else part "2" " Video Card " [].

End Examples.

(* ================================================================== *)
(** * Properties *)

(* ------------------------------------------------------------------ *)
(** ** Dictionaries *)

Section DictFacts.
Variable V : Type.
Implicit Types (d : Dict.dict V) (k : string) (v : V).

Lemma get_set_same d k v : Dict.get (Dict.set d k v) k = Some v.
Proof.
  induction d as [|[k' v'] d IH]; simpl.
  - now rewrite String.eqb_refl.
  - destruct (String.eqb k' k) eqn:E; simpl.
    + now rewrite String.eqb_refl.
    + now rewrite E.
Qed.

Lemma get_set_other d k k' v :
  k <> k' -> Dict.get (Dict.set d k v) k' = Dict.get d k'.
Proof.
  intros Hne. induction d as [|[k0 v0] d IH]; simpl.
  - apply String.eqb_neq in Hne. now rewrite Hne.
  - destruct (String.eqb k0 k) eqn:E; simpl.
    + apply String.eqb_eq in E. subst k0.
      apply String.eqb_neq in Hne. now rewrite Hne.
    + now rewrite IH.
Qed.

Lemma in_keys_set d k v k' :
  In k' (Dict.keys (Dict.set d k v)) -> k' = k \/ In k' (Dict.keys d).
Proof.
  induction d as [|[k0 v0] d IH]; simpl.
  - intros [H|[]]; auto.
  - destruct (String.eqb k0 k) eqn:E; simpl.
    + apply String.eqb_eq in E. subst k0. intros [H|H]; auto.
    + intros [H|H]; auto. destruct (IH H); auto.
Qed.

Lemma in_keys_del d k k' :
  In k' (Dict.keys (Dict.del d k)) -> In k' (Dict.keys d).
Proof.
  induction d as [|[k0 v0] d IH]; simpl; auto.
  destruct (String.eqb k0 k); simpl; intuition.
Qed.

(** Assignment and deletion keep the keys distinct. *)
Lemma NoDup_keys_set d k v :
  NoDup (Dict.keys d) -> NoDup (Dict.keys (Dict.set d k v)).
Proof.
  induction d as [|[k0 v0] d IH]; simpl; intros H.
  - constructor; [intros [] | constructor].
  - inversion H as [|? ? Hnin Hnd]; subst.
    destruct (String.eqb k0 k) eqn:E; simpl.
    + apply String.eqb_eq in E. subst k0. now constructor.
    + constructor; auto.
      intros Hin. apply in_keys_set in Hin. destruct Hin as [->|Hin]; auto.
      now rewrite String.eqb_refl in E.
Qed.

Lemma NoDup_keys_del d k :
  NoDup (Dict.keys d) -> NoDup (Dict.keys (Dict.del d k)).
Proof.
  induction d as [|[k0 v0] d IH]; simpl; intros H; auto.
  inversion H as [|? ? Hnin Hnd]; subst.
  destruct (String.eqb k0 k); simpl; auto.
  constructor; auto. intros Hin. now apply in_keys_del in Hin.
Qed.

Lemma bindings_absent d k :
  ~ In k (Dict.keys d) -> Dict.bindings d k = [].
Proof.
  induction d as [|[k0 v0] d IH]; simpl; intros H; auto.
  unfold Dict.bindings in *. simpl.
  destruct (String.eqb k0 k) eqn:E.
  - apply String.eqb_eq in E. subst. tauto.
  - apply IH. tauto.
Qed.

(** With distinct keys, the bindings of a key are what [get] finds. *)
Lemma bindings_get d k :
  NoDup (Dict.keys d) ->
  Dict.bindings d k = match Dict.get d k with Some v => [v] | None => [] end.
Proof.
  induction d as [|[k0 v0] d IH]; simpl; intros H; auto.
  inversion H as [|? ? Hnin Hnd]; subst.
  unfold Dict.bindings in *. simpl.
  destruct (String.eqb k0 k) eqn:E; simpl.
  - apply String.eqb_eq in E. subst k0.
    f_equal. now apply bindings_absent.
  - now apply IH.
Qed.
End DictFacts.

Arguments get_set_same {V}.
Arguments get_set_other {V}.
Arguments NoDup_keys_set {V}.
Arguments NoDup_keys_del {V}.
Arguments bindings_get {V}.

(* ------------------------------------------------------------------ *)
(** ** The selection: one part per slot *)

Section Selection.
Import BuildEngine Spec.

(** Whatever was selected and removed, the slot names are distinct. *)
Lemma run_NoDup (ops : list op) (self : BuildEngine.t) :
  NoDup (Dict.keys (parts self)) ->
  NoDup (Dict.keys (parts (run self ops))).
Proof.
  revert self. induction ops as [|o ops IH]; intros self H; simpl; auto.
  apply IH. destruct o; simpl.
  - now apply NoDup_keys_set.
  - now apply NoDup_keys_del.
Qed.

(** C5. In every state of the engine (a dictionary: its slot names
    are distinct), selecting [p1] and then [p2], two parts filed under
    the same slot, leaves [p2] as the occupant of that slot and as its
    only occupant; and after any sequence of selections and removals
    no slot has more than one occupant. *)
Theorem select_replaces_occupant (self : BuildEngine.t) (p1 p2 : Part) :
  NoDup (Dict.keys (parts self)) ->
  slot_of p1 = slot_of p2 ->
  let self' := add (add self p1) p2 in
  slot self' (slot_of p2) = Some p2
  /\ occupants self' (slot_of p2) = [p2]
  /\ forall (ops : list op) (c : string),
       (List.length (occupants (run self ops) c) <= 1)%nat.
Proof.
  intros Hwf Hslot self'.
  assert (Hget : slot self' (slot_of p2) = Some p2).
  { subst self'. unfold slot, add. simpl. apply get_set_same. }
  assert (Hnd : forall ops, NoDup (Dict.keys (parts (run self ops)))).
  { intros ops. now apply run_NoDup. }
  split; [exact Hget|]. split.
  - unfold occupants. rewrite bindings_get.
    + unfold slot in Hget. now rewrite Hget.
    + exact (Hnd [Select p1; Select p2]).
  - intros ops c. unfold occupants. rewrite bindings_get by apply Hnd.
    destruct (Dict.get _ c); simpl; lia.
Qed.

Lemma select_replaces_occupant_witness :
  let p0 := Examples.part "z" "Cooler" [] in
  let p1 := Examples.part "a" "PSU" [] in
  let p2 := Examples.part "b" "Fonte" [] in
  occupants (add (add (add init p0) p1) p2) "Fonte" = [p2].
Proof.
  intros p0 p1 p2.
  refine (proj1 (proj2 (select_replaces_occupant
                          (add init p0) p1 p2 _ eq_refl))).
  simpl. constructor; [intros [] | constructor].
Defined.
End Selection.

(* ------------------------------------------------------------------ *)
(** ** Assembly steps *)

Section Assembly.
Import BuildEngine Spec.
Context {R : PyRuntime}.

(** C1. With the slots Placa-mãe, CPU, RAM, Fonte, Gabinete and GPU
    occupied, Cooler and Armazenamento empty and no compatibility
    issue, [assembly_steps] returns exactly nine lines: tools, board
    preparation, CPU, RAM, power supply, board mounting, GPU, front
    panel, power-on; no warning block comes first. *)
Theorem assembly_steps_full_build (self : BuildEngine.t) :
  slot self "Placa-mãe" <> None -> slot self "CPU" <> None ->
  slot self "RAM" <> None -> slot self "Fonte" <> None ->
  slot self "Gabinete" <> None -> slot self "GPU" <> None ->
  slot self "Cooler" = None -> slot self "Armazenamento" = None ->
  compatibility_issues self = Ok [] ->
  assembly_steps self =
    Ok [ line_tools; line_prepare_board; line_cpu; line_ram; line_psu;
         line_mount_board; line_gpu; line_front_panel; line_power_on ].
Proof.
  intros Hmb Hcpu Hram Hpsu _ Hgpu Hcooler Hsto Hissues.
  unfold assembly_steps. rewrite Hissues, Hcooler, Hsto.
  destruct (slot self "Placa-mãe"); [|congruence].
  destruct (slot self "CPU"); [|congruence].
  destruct (slot self "RAM"); [|congruence].
  destruct (slot self "Fonte"); [|congruence].
  destruct (slot self "GPU"); [|congruence].
  reflexivity.
Qed.
End Assembly.

Lemma assembly_steps_full_build_witness :
  BuildEngine.assembly_steps (R := PlainRuntime.runtime) Examples.bare_build =
    Ok [ BuildEngine.line_tools; BuildEngine.line_prepare_board;
         BuildEngine.line_cpu; BuildEngine.line_ram; BuildEngine.line_psu;
         BuildEngine.line_mount_board; BuildEngine.line_gpu;
         BuildEngine.line_front_panel; BuildEngine.line_power_on ].
Proof.
  apply (assembly_steps_full_build (R := PlainRuntime.runtime));
    try (vm_compute; discriminate); vm_compute; reflexivity.
Defined.

(* ------------------------------------------------------------------ *)
(** ** Estimated power *)

Section EmptyBuild.
Import BuildEngine.
Context {R : PyRuntime}.

(** C10. With no slot occupied, [estimated_power] returns (50, 65):
    the 50-watt baseline alone, and [ceil(50 * 1.3) = 65]. *)
Theorem estimated_power_empty : estimated_power init = Ok (50, 65).
Proof. vm_compute. reflexivity. Qed.
End EmptyBuild.

(* ------------------------------------------------------------------ *)
(** ** Where the program raises *)

Section Raising.
Import BuildEngine.
Context {R : PyRuntime}.

(** C9. A memory part whose type reads as the number 4, next to a
    motherboard of memory type DDR4: the memory-type rule calls
    [upper] on the number and [compatibility_issues] raises
    [AttributeError]; so does [assembly_steps], which calls it. *)
Theorem compatibility_issues_raises_on_numeric_ram_type :
  compatibility_issues Examples.numeric_ram_build = Raise AttributeError
  /\ assembly_steps Examples.numeric_ram_build = Raise AttributeError.
Proof. split; vm_compute; reflexivity. Qed.

(** C8. [_parse_price_brl] raises [IndexError] on a lone comma: the
    text has one comma and fewer than three characters, and [s[-3]] is
    read outside any [try].  [None], the empty text and text without
    digits give 0.0, and the two examples of the specification reach
    [float] as "1234.56" and "79.90". *)
Theorem parse_price_raises_on_short_text :
  _parse_price_brl (Some ",") = Raise IndexError
  /\ _parse_price_brl (Some "R$ 5,") = Raise IndexError
  /\ _parse_price_brl None = Ok PyFloat.zero
  /\ _parse_price_brl (Some "") = Ok PyFloat.zero
  /\ _parse_price_brl (Some "sob consulta") = Ok PyFloat.zero
  /\ _parse_price_brl (Some "R$ 1.234,56") = Ok (float_or_zero "1234.56")
  /\ _parse_price_brl (Some "R$79,90") = Ok (float_or_zero "79.90").
Proof. repeat split; vm_compute; reflexivity. Qed.
End Raising.

(* ------------------------------------------------------------------ *)
(** ** The power total *)

Section FloatFacts.
Import Spec.

Lemma same_number_refl a : same_number a a.
Proof. now left. Qed.

Lemma same_number_sym a b : same_number a b -> same_number b a.
Proof. intros [->|[Ha Hb]]; [now left | now right]. Qed.

Lemma same_number_trans a b c :
  same_number a b -> same_number b c -> same_number a c.
Proof.
  intros [->|[Ha Hb]] [<-|[Hb' Hc]]; try (now left); now right.
Qed.

(** Adding [+0.0] changes at most the sign of a zero. *)
Lemma add_zero_same a : same_number (PyFloat.add a PyFloat.zero) a.
Proof.
  destruct a as [[|]| | |]; simpl;
    try (now left); right; split; eexists; reflexivity.
Qed.

(** Sums whose left operands are the same number are the same number. *)
Lemma add_same_number a b f :
  same_number a b -> same_number (PyFloat.add a f) (PyFloat.add b f).
Proof.
  intros [->|[[sa ->] [sb ->]]]; [now left|].
  destruct f as [sf| | |]; simpl; try (now left).
  right. destruct sa, sb, sf; split; eexists; reflexivity.
Qed.

(** Adding the baseline forgets the sign of a zero. *)
Lemma add_baseline_same a b :
  same_number a b ->
  PyFloat.add a (PyFloat.of_Z 50) = PyFloat.add b (PyFloat.of_Z 50).
Proof.
  intros [->|[[sa ->] [sb ->]]]; [reflexivity|].
  destruct (PyFloat.of_Z 50) eqn:E; try (vm_compute in E; discriminate).
  reflexivity.
Qed.
End FloatFacts.

Section Power.
Import PyVal BuildEngine Spec.
Context {R : PyRuntime}.

Lemma add_tdp_reading total p f :
  py_float (tdp_of p) = Ok f -> add_tdp total p = PyFloat.add total f.
Proof. intros H. unfold add_tdp. now rewrite H. Qed.

Lemma add_tdp_raise total p e :
  py_float (tdp_of p) = Raise e -> add_tdp total p = total.
Proof. intros H. unfold add_tdp. now rewrite H. Qed.

(** The loop of [estimated_power] computes the sum of the
    contributions, up to the sign of a zero. *)
Lemma fold_add_tdp_contributions (ps : list Part) :
  forall t t', same_number t t' ->
    same_number
      (fold_left add_tdp ps t)
      (fold_left (fun total p => PyFloat.add total (tdp_contribution p))
                 ps t').
Proof.
  induction ps as [|p ps IH]; intros t t' H; simpl; auto.
  apply IH. unfold tdp_contribution.
  destruct (py_float (tdp_of p)) as [f|e] eqn:E; simpl.
  - rewrite (add_tdp_reading _ _ _ E). now apply add_same_number.
  - rewrite (add_tdp_raise _ _ _ E).
    eapply same_number_trans; [exact H|].
    apply same_number_sym, add_zero_same.
Qed.


Lemma estimated_power_of_total (self : BuildEngine.t) (total : PyFloat.float) :
  same_number (fold_left add_tdp (Dict.values (parts self)) PyFloat.zero)
              total ->
  estimated_power self =
    (let total := PyFloat.add total (PyFloat.of_Z 50) in
     rec <- PyFloat.ceil (PyFloat.mul total PyFloat.lit_1_3) ;;
     consumed <- PyFloat.trunc total ;;
     Ok (consumed, rec)).
Proof.
  intros H. unfold estimated_power. cbv zeta.
  now rewrite (add_baseline_same _ _ H).
Qed.


End Power.



(* ------------------------------------------------------------------ *)
(** ** The compatibility rules *)

Section Rules.
Import PyVal BuildEngine Spec.
Context {R : PyRuntime}.

Lemma count_psu_append (issues : list string) (x : string) :
  count_psu_issues (py_append issues x) =
    (count_psu_issues issues + if is_psu_issue x then 1 else 0)%nat.
Proof.
  unfold count_psu_issues, py_append.
  rewrite filter_app, length_app. simpl.
  destruct (is_psu_issue x); reflexivity.
Qed.

Lemma in_py_append (issues : list string) (x y : string) :
  In y (py_append issues x) <-> In y issues \/ y = x.
Proof.
  unfold py_append. rewrite in_app_iff. simpl. intuition.
Qed.

(** Only the power-supply rule words an issue as its own. *)
Lemma socket_not_psu a b : is_psu_issue (issue_socket a b) = false.
Proof. reflexivity. Qed.
Lemma bios_not_psu a : is_psu_issue (issue_bios a) = false.
Proof. reflexivity. Qed.
Lemma ram_not_psu a b : is_psu_issue (issue_ram a b) = false.
Proof. reflexivity. Qed.
Lemma gpu_not_psu a b : is_psu_issue (issue_gpu a b) = false.
Proof. reflexivity. Qed.
Lemma cooler_not_psu a b : is_psu_issue (issue_cooler a b) = false.
Proof. reflexivity. Qed.
Lemma psu_is_psu a r : is_psu_issue (issue_psu a r) = true.
Proof.
  unfold is_psu_issue, issue_psu. cbn.
  now destruct (py_str a ++ _)%string.
Qed.

Ltac count_step :=
  repeat (rewrite count_psu_append);
  rewrite ?socket_not_psu, ?bios_not_psu, ?ram_not_psu, ?gpu_not_psu,
    ?cooler_not_psu, ?psu_is_psu;
  try lia.

Lemma rule_cpu_mb_count issues cpu mb :
  count_psu_issues (rule_cpu_mb issues cpu mb) = count_psu_issues issues.
Proof.
  unfold rule_cpu_mb. destruct cpu as [cpu|], mb as [mb|]; auto.
  cbv zeta.
  destruct (truthy _ && truthy _ && py_ne _ _);
    destruct (truthy (bios_of cpu)); count_step.
Qed.

(** With both parts selected, a BIOS reading that is a true value is
    reported, whatever the sockets. *)
Lemma rule_cpu_mb_bios issues cpu mb :
  truthy (bios_of cpu) = true ->
  In (issue_bios (bios_of cpu)) (rule_cpu_mb issues (Some cpu) (Some mb)).
Proof.
  intros H. unfold rule_cpu_mb. cbv zeta. rewrite H.
  apply in_py_append. now right.
Qed.

Lemma rule_ram_mb_count issues ram mb issues' :
  rule_ram_mb issues ram mb = Ok issues' ->
  count_psu_issues issues' = count_psu_issues issues.
Proof.
  unfold rule_ram_mb. destruct ram as [ram|], mb as [mb|];
    try (intros [= <-]; reflexivity).
  cbv zeta. destruct (truthy _ && truthy _); [|intros [= <-]; reflexivity].
  destruct (py_upper (ram_type_of ram)) as [u|]; simpl; [|discriminate].
  destruct (py_upper (board_ram_type_of mb)) as [v|]; simpl; [|discriminate].
  intros [= <-]. destruct (negb _); count_step.
Qed.

Lemma rule_ram_mb_keeps issues ram mb issues' x :
  rule_ram_mb issues ram mb = Ok issues' -> In x issues -> In x issues'.
Proof.
  unfold rule_ram_mb. destruct ram as [ram|], mb as [mb|];
    try (intros [= <-]; auto).
  cbv zeta. destruct (truthy _ && truthy _); [|intros [= <-]; auto].
  destruct (py_upper (ram_type_of ram)) as [u|]; simpl; [|discriminate].
  destruct (py_upper (board_ram_type_of mb)) as [v|]; simpl; [|discriminate].
  intros [= <-] H. destruct (negb _); rewrite ?in_py_append; auto.
Qed.

(** The memory-type rule returns when its readings are usable. *)
Lemma rule_ram_mb_returns (self : BuildEngine.t) issues :
  ram_types_usable self ->
  exists issues',
    rule_ram_mb issues (slot self "RAM") (slot self "Placa-mãe") = Ok issues'.
Proof.
  intros H. unfold ram_types_usable in H.
  destruct (slot self "RAM") as [ram|]; [|eexists; reflexivity].
  destruct (slot self "Placa-mãe") as [mb|]; [|eexists; reflexivity].
  specialize (H ram mb eq_refl eq_refl). unfold rule_ram_mb. cbv zeta.
  destruct (truthy (ram_type_of ram)) eqn:E1; [|eexists; reflexivity].
  destruct (truthy (board_ram_type_of mb)) eqn:E2; [|eexists; reflexivity].
  destruct (H eq_refl eq_refl) as [[s Hs] [s' Hs']].
  rewrite Hs, Hs'. simpl. eexists; reflexivity.
Qed.

Lemma rule_gpu_case_count issues gpu case :
  count_psu_issues (rule_gpu_case issues gpu case) = count_psu_issues issues.
Proof.
  unfold rule_gpu_case. destruct gpu as [gpu|], case as [case|]; auto.
  cbv zeta. destruct (truthy _ && truthy _); auto.
  destruct (py_float _) as [a|]; simpl; auto.
  destruct (py_float _) as [b|]; simpl; auto.
  destruct (PyFloat.gtb a b); count_step.
Qed.

Lemma rule_gpu_case_keeps issues gpu case x :
  In x issues -> In x (rule_gpu_case issues gpu case).
Proof.
  intros H. unfold rule_gpu_case. destruct gpu as [gpu|], case as [case|]; auto.
  cbv zeta. destruct (truthy _ && truthy _); auto.
  destruct (py_float _) as [a|]; simpl; auto.
  destruct (py_float _) as [b|]; simpl; auto.
  destruct (PyFloat.gtb a b); rewrite ?in_py_append; auto.
Qed.

Lemma rule_cooler_case_count issues cooler case :
  count_psu_issues (rule_cooler_case issues cooler case) =
    count_psu_issues issues.
Proof.
  unfold rule_cooler_case. destruct cooler as [cooler|], case as [case|]; auto.
  cbv zeta. destruct (truthy _ && truthy _); auto.
  destruct (py_float _) as [a|]; simpl; auto.
  destruct (py_float _) as [b|]; simpl; auto.
  destruct (PyFloat.gtb a b); count_step.
Qed.

Lemma rule_cooler_case_keeps issues cooler case x :
  In x issues -> In x (rule_cooler_case issues cooler case).
Proof.
  intros H. unfold rule_cooler_case.
  destruct cooler as [cooler|], case as [case|]; auto.
  cbv zeta. destruct (truthy _ && truthy _); auto.
  destruct (py_float _) as [a|]; simpl; auto.
  destruct (py_float _) as [b|]; simpl; auto.
  destruct (PyFloat.gtb a b); rewrite ?in_py_append; auto.
Qed.

Lemma rule_psu_keeps self issues psu issues' x :
  rule_psu self issues psu = Ok issues' -> In x issues -> In x issues'.
Proof.
  unfold rule_psu. destruct psu as [psu|]; [|intros [= <-]; auto].
  cbv zeta. destruct (estimated_power self) as [pr|]; simpl; [|discriminate].
  intros [= <-] H. destruct (truthy (watt_of psu)); simpl; auto.
  destruct (py_int _) as [w|]; simpl; auto.
  destruct (w <? snd pr); rewrite ?in_py_append; auto.
Qed.

Lemma rule_psu_returns self issues :
  power_usable self ->
  exists issues', rule_psu self issues (slot self "Fonte") = Ok issues'.
Proof.
  intros H. unfold power_usable in H. unfold rule_psu.
  destruct (slot self "Fonte") as [psu|]; [|eexists; reflexivity].
  destruct H as [pr Hpr]; [discriminate|]. rewrite Hpr. simpl.
  eexists; reflexivity.
Qed.

(** [compatibility_issues] returns when the memory-type readings are
    usable and, with a power supply selected, the power estimate
    returns. *)
Lemma compatibility_issues_returns (self : BuildEngine.t) :
  ram_types_usable self -> power_usable self ->
  exists issues, compatibility_issues self = Ok issues.
Proof.
  intros Hram Hpow. unfold compatibility_issues. cbv zeta.
  destruct (rule_ram_mb_returns self
              (rule_cpu_mb [] (slot self "CPU") (slot self "Placa-mãe")) Hram)
    as [i2 E2].
  rewrite E2. simpl.
  destruct (rule_psu_returns self
              (rule_cooler_case
                 (rule_gpu_case i2 (slot self "GPU") (slot self "Gabinete"))
                 (slot self "Cooler") (slot self "Gabinete")) Hpow)
    as [i5 E5].
  rewrite E5. simpl. eexists; reflexivity.
Qed.

(** C3, as the program has it.  With a power supply whose wattage
    reading is a true value (not 0, not empty) that [int] converts to
    [w], [compatibility_issues] reports the power supply once when
    [w] is below the recommended value and not at all when [w] equals
    or exceeds it. *)
Theorem psu_issue_boundary (self : BuildEngine.t) (psu : Part) (w c rec : Z) :
  slot self "Fonte" = Some psu ->
  truthy (watt_of psu) = true ->
  py_int (watt_of psu) = Ok w ->
  estimated_power self = Ok (c, rec) ->
  ram_types_usable self ->
  exists issues,
    compatibility_issues self = Ok issues
    /\ count_psu_issues issues = if w <? rec then 1%nat else 0%nat.
Proof.
  intros Hpsu Hwatt Hint Hpow Hram.
  unfold compatibility_issues. cbv zeta.
  destruct (rule_ram_mb_returns self
              (rule_cpu_mb [] (slot self "CPU") (slot self "Placa-mãe")) Hram)
    as [i2 E2].
  rewrite E2. simpl.
  pose proof (rule_ram_mb_count _ _ _ _ E2) as C2.
  rewrite rule_cpu_mb_count in C2.
  rewrite Hpsu. unfold rule_psu. cbv zeta.
  rewrite Hpow, Hwatt, Hint. simpl.
  eexists; split; [reflexivity|].
  destruct (w <? rec); count_step;
    rewrite rule_cooler_case_count, rule_gpu_case_count, C2; reflexivity.
Qed.

(** C7, as the program has it.  With a CPU and a motherboard selected
    and a BIOS reading on the CPU that is a true value,
    [compatibility_issues] contains the BIOS advisory, whatever the
    sockets are. *)
Theorem bios_advisory_with_board (self : BuildEngine.t) (cpu mb : Part) :
  slot self "CPU" = Some cpu ->
  slot self "Placa-mãe" = Some mb ->
  truthy (bios_of cpu) = true ->
  ram_types_usable self -> power_usable self ->
  exists issues,
    compatibility_issues self = Ok issues
    /\ In (issue_bios (bios_of cpu)) issues.
Proof.
  intros Hcpu Hmb Hbios Hram Hpow.
  destruct (compatibility_issues_returns self Hram Hpow) as [issues E].
  exists issues. split; [exact E|].
  unfold compatibility_issues in E. cbv zeta in E.
  rewrite Hcpu, Hmb in E.
  destruct (rule_ram_mb _ _ _) as [i2|] eqn:E2; simpl in E; [|discriminate].
  destruct (rule_psu _ _ _) as [i5|] eqn:E5; simpl in E; [|discriminate].
  injection E as <-.
  eapply rule_psu_keeps; [exact E5|].
  apply rule_cooler_case_keeps, rule_gpu_case_keeps.
  eapply rule_ram_mb_keeps; [exact E2|].
  now apply rule_cpu_mb_bios.
Qed.
End Rules.

Lemma psu_issue_boundary_witness :
  (exists issues,
      BuildEngine.compatibility_issues (R := PlainRuntime.runtime)
        (Examples.psu_build 149) = Ok issues
      /\ Spec.count_psu_issues issues = 1%nat)
  /\ (exists issues,
      BuildEngine.compatibility_issues (R := PlainRuntime.runtime)
        (Examples.psu_build 150) = Ok issues
      /\ Spec.count_psu_issues issues = 0%nat).
Proof.
  split.
  - apply (psu_issue_boundary (R := PlainRuntime.runtime)
             (Examples.psu_build 149)
             (Examples.part "p1" "PSU" [("watt", VInt 149)]) 149 115 150);
      try (vm_compute; reflexivity).
    intros ram mb H. vm_compute in H. discriminate.
  - apply (psu_issue_boundary (R := PlainRuntime.runtime)
             (Examples.psu_build 150)
             (Examples.part "p1" "PSU" [("watt", VInt 150)]) 150 115 150);
      try (vm_compute; reflexivity).
    intros ram mb H. vm_compute in H. discriminate.
Defined.

(** C3, as stated, on a power supply whose wattage reads 0: [int] gives
    0, which is below the recommended 65, and no issue is reported,
    because the rule starts with [if watt and ...]. *)
Lemma psu_zero_watt_counterexample :
  let psu := Examples.part "p1" "Fonte" [("power_w", VInt 0)] in
  BuildEngine.slot Examples.zero_watt_build "Fonte" = Some psu
  /\ PyVal.py_int (R := PlainRuntime.runtime) (BuildEngine.watt_of psu) = Ok 0
  /\ BuildEngine.estimated_power (R := PlainRuntime.runtime)
       Examples.zero_watt_build = Ok (50, 65)
  /\ BuildEngine.compatibility_issues (R := PlainRuntime.runtime)
       Examples.zero_watt_build = Ok [].
Proof. repeat split; vm_compute; reflexivity. Qed.

Lemma bios_advisory_with_board_witness :
  exists issues,
    BuildEngine.compatibility_issues (R := PlainRuntime.runtime)
      Examples.cpu_board_build = Ok issues
    /\ In "Aviso BIOS: F20" issues.
Proof.
  apply (bios_advisory_with_board (R := PlainRuntime.runtime)
           Examples.cpu_board_build Examples.bios_cpu
           (Examples.part "mb1" "Motherboard" [("socket", VStr "LGA1700")]));
    try (vm_compute; reflexivity).
  - intros ram mb H. vm_compute in H. discriminate.
  - intros H. exfalso. apply H. vm_compute. reflexivity.
Defined.

(** C7, as stated, on a CPU with a BIOS requirement and no motherboard
    selected: the note is read inside [if cpu and mb:] and no advisory is
    reported. *)
Lemma bios_without_board_counterexample :
  BuildEngine.slot Examples.cpu_only_build "CPU" = Some Examples.bios_cpu
  /\ Dict.get (attributes Examples.bios_cpu) "required_bios" = Some (VStr "F20")
  /\ BuildEngine.compatibility_issues (R := PlainRuntime.runtime)
       Examples.cpu_only_build = Ok [].
Proof. repeat split; vm_compute; reflexivity. Qed.

(* ------------------------------------------------------------------ *)
(** ** Category normalisation *)

Section Strip.
Import PyStr.

Lemma after_space_shorter (s r : string) :
  after_space s = Some r -> (String.length r < String.length s)%nat.
Proof.
  destruct s as [|a [|b [|c r3]]]; simpl; try discriminate;
    repeat match goal with
           | |- context [if ?x then _ else _] => destruct x
           end;
    intros [= <-]; simpl; lia.
Qed.

Lemma lstrip_eq (s : string) :
  lstrip s = match after_space s with Some r => lstrip r | None => s end.
Proof.
  destruct s as [|a r]; [reflexivity|]. cbn [lstrip after_space].
  destruct (is_space a); [reflexivity|].
  destruct r as [|b r2]; [reflexivity|].
  destruct (is_space2 a b); [reflexivity|].
  destruct r2 as [|c r3]; [reflexivity|].
  destruct (is_space3 a b c); reflexivity.
Qed.

Lemma all_space_eq (s : string) :
  all_space s =
    match after_space s with
    | Some r => all_space r
    | None => match s with EmptyString => true | _ => false end
    end.
Proof.
  destruct s as [|a r]; [reflexivity|]. cbn [all_space after_space].
  destruct (is_space a); [reflexivity|].
  destruct r as [|b r2]; [reflexivity|].
  destruct (is_space2 a b); [reflexivity|].
  destruct r2 as [|c r3]; [reflexivity|].
  destruct (is_space3 a b c); reflexivity.
Qed.

(** Induction on a text along its leading white space. *)
Lemma space_induction (P : string -> Prop) :
  (forall s, after_space s = None -> P s) ->
  (forall s r, after_space s = Some r -> P r -> P s) ->
  forall s, P s.
Proof.
  intros Hnone Hsome s.
  remember (String.length s) as n eqn:Hn.
  revert s Hn. induction n as [n IH] using lt_wf_ind. intros s ->.
  destruct (after_space s) as [r|] eqn:E; [|now apply Hnone].
  apply (Hsome s r E). apply (IH (String.length r)); [|reflexivity].
  now apply after_space_shorter.
Qed.

Lemma after_space_app (s r x : string) :
  after_space s = Some r -> after_space (s ++ x) = Some (r ++ x)%string.
Proof.
  destruct s as [|a [|b [|c r3]]]; simpl; try discriminate;
    repeat match goal with
           | |- context [if ?x then _ else _] => destruct x
           end;
    try discriminate; intros [= <-]; try reflexivity.
Qed.

Lemma space2_cont (a b : ascii) : is_space2 a b = true -> is_cont b = true.
Proof.
  unfold is_space2, is_cont. intros H.
  apply andb_prop in H. destruct H as [_ H].
  apply orb_prop in H. destruct H as [H|H];
    apply N.eqb_eq in H; rewrite H; reflexivity.
Qed.

Lemma space3_cont (a b c : ascii) :
  is_space3 a b c = true -> is_cont b = true /\ is_cont c = true.
Proof.
  unfold is_space3, is_cont. intros H.
  repeat match type of H with
         | (if ?x then _ else _) = true => destruct x eqn:?
         end;
    repeat match goal with
           | H : (_ && _)%bool = true |- _ => apply andb_prop in H; destruct H
           | H : (_ =? _)%N = true |- _ => apply N.eqb_eq in H
           end;
    try match goal with
        | H : code b = _ |- _ => rewrite H
        end;
    try (split; [reflexivity|]);
    repeat match goal with
           | H : (_ || _)%bool = true |- _ => apply orb_prop in H; destruct H
           | H : (_ && _)%bool = true |- _ => apply andb_prop in H; destruct H
           | H : (_ =? _)%N = true |- _ => apply N.eqb_eq in H
           | H : (_ <=? _)%N = true |- _ => apply N.leb_le in H
           end;
    try match goal with
        | H : code c = _ |- _ => rewrite H; reflexivity
        end;
    apply andb_true_intro; split; apply N.leb_le; lia.
Qed.

(** A white-space character starts with no continuation byte. *)
Lemma after_space_lead (a : ascii) (r r' : string) :
  after_space (String a r) = Some r' -> is_cont a = false.
Proof.
  cbn [after_space]. destruct (is_space a) eqn:E1.
  - intros _. unfold is_space in E1. unfold is_cont.
    destruct (N.leb_spec 0x80 (code a)) as [Hle|]; [|reflexivity].
    exfalso. cbv zeta in E1.
    apply orb_prop in E1. destruct E1 as [E|E];
      apply andb_prop in E; destruct E as [_ E]; apply N.leb_le in E; lia.
  - destruct r as [|b r2]; [discriminate|].
    destruct (is_space2 a b) eqn:E2.
    + intros _. unfold is_space2 in E2. apply andb_prop in E2.
      destruct E2 as [E2 _]. apply N.eqb_eq in E2.
      unfold is_cont. rewrite E2. reflexivity.
    + destruct r2 as [|c r3]; [discriminate|].
      destruct (is_space3 a b c) eqn:E3; [|discriminate].
      intros _. unfold is_space3 in E3. unfold is_cont.
      destruct (code a =? 0xE1)%N eqn:Ea;
        [apply N.eqb_eq in Ea; rewrite Ea; reflexivity|].
      destruct (code a =? 0xE2)%N eqn:Eb;
        [apply N.eqb_eq in Eb; rewrite Eb; reflexivity|].
      apply andb_prop in E3. destruct E3 as [E3 _].
      apply andb_prop in E3. destruct E3 as [E3 _].
      apply N.eqb_eq in E3. rewrite E3. reflexivity.
Qed.

Lemma all_space_lead (a : ascii) (r : string) :
  all_space (String a r) = true -> is_cont a = false.
Proof.
  rewrite all_space_eq.
  destruct (after_space (String a r)) as [r'|] eqn:E; [|discriminate].
  intros _. exact (after_space_lead _ _ _ E).
Qed.

(** White space after a text adds no white space to its start. *)
Lemma no_space_app (u x : string) :
  after_space u = None -> u <> EmptyString -> all_space x = true ->
  after_space (u ++ x) = None.
Proof.
  intros Hu Hne Hx.
  assert (Hlead : forall b y, x = String b y -> is_cont b = false).
  { intros b y ->. exact (all_space_lead _ _ Hx). }
  destruct u as [|a [|b [|c r3]]]; [contradiction| | |].
  - cbn [after_space] in Hu. destruct (is_space a) eqn:E1; [discriminate|].
    cbn [append after_space]. rewrite E1.
    destruct x as [|b [|c y]]; [reflexivity| |].
    + destruct (is_space2 a b) eqn:E2; [|reflexivity].
      apply space2_cont in E2. rewrite (Hlead _ _ eq_refl) in E2.
      discriminate.
    + destruct (is_space2 a b) eqn:E2.
      * apply space2_cont in E2. rewrite (Hlead _ _ eq_refl) in E2.
        discriminate.
      * destruct (is_space3 a b c) eqn:E3; [|reflexivity].
        apply space3_cont in E3. destruct E3 as [E3 _].
        rewrite (Hlead _ _ eq_refl) in E3. discriminate.
  - cbn [after_space] in Hu. destruct (is_space a) eqn:E1; [discriminate|].
    destruct (is_space2 a b) eqn:E2; [discriminate|].
    cbn [append after_space]. rewrite E1, E2.
    destruct x as [|c y]; [reflexivity|].
    destruct (is_space3 a b c) eqn:E3; [|reflexivity].
    apply space3_cont in E3. destruct E3 as [_ E3].
    rewrite (Hlead _ _ eq_refl) in E3. discriminate.
  - cbn [after_space] in Hu |- *. cbn [append after_space].
    destruct (is_space a); [discriminate|].
    destruct (is_space2 a b); [discriminate|].
    destruct (is_space3 a b c); [discriminate|reflexivity].
Qed.

Lemma str_app_nil_r (s : string) : (s ++ "")%string = s.
Proof. induction s as [|c s IH]; simpl; [reflexivity | now rewrite IH]. Qed.

Lemma str_app_assoc (a b c : string) :
  ((a ++ b) ++ c)%string = (a ++ b ++ c)%string.
Proof. induction a as [|x a IH]; simpl; [reflexivity | now rewrite IH]. Qed.

Lemma str_length_app (a b : string) :
  String.length (a ++ b) = (String.length a + String.length b)%nat.
Proof. induction a as [|x a IH]; simpl; [reflexivity | now rewrite IH]. Qed.

(** What [lstrip] returns starts with no white space. *)
Lemma lstrip_no_space (s : string) : after_space (lstrip s) = None.
Proof.
  induction s as [s E|s r E IH] using space_induction;
    rewrite lstrip_eq, E; assumption.
Qed.

Lemma lstrip_fixed (s : string) : lstrip s = s <-> after_space s = None.
Proof.
  split; intros H.
  - rewrite <- H. apply lstrip_no_space.
  - now rewrite lstrip_eq, H.
Qed.

(** [lstrip] removes white space and nothing else. *)
Lemma lstrip_split (s : string) :
  exists ws, s = (ws ++ lstrip s)%string /\ all_space ws = true.
Proof.
  induction s as [s E|s r E IH] using space_induction.
  - exists EmptyString. rewrite lstrip_eq, E. split; reflexivity.
  - destruct IH as (ws & Hr & Hws). rewrite lstrip_eq, E.
    assert (Hs : exists w, s = (w ++ r)%string /\ after_space w = Some EmptyString).
    { clear - E. destruct s as [|a r0]; [discriminate|].
      cbn [after_space] in E. destruct (is_space a) eqn:E1.
      - injection E as <-. exists (String a "").
        split; [reflexivity|]. cbn [after_space]. now rewrite E1.
      - destruct r0 as [|b r2]; [discriminate|].
        destruct (is_space2 a b) eqn:E2.
        + injection E as <-. exists (String a (String b "")).
          split; [reflexivity|]. cbn [after_space]. now rewrite E1, E2.
        + destruct r2 as [|c r3]; [discriminate|].
          destruct (is_space3 a b c) eqn:E3; [|discriminate].
          injection E as <-. exists (String a (String b (String c ""))).
          split; [reflexivity|]. cbn [after_space]. now rewrite E1, E2, E3. }
    destruct Hs as (w & -> & Hw).
    exists (w ++ ws)%string. split.
    + rewrite str_app_assoc. now rewrite <- Hr.
    + rewrite all_space_eq, (after_space_app _ _ ws Hw). exact Hws.
Qed.

Lemma lstrip_length (s : string) :
  (String.length (lstrip s) <= String.length s)%nat.
Proof.
  destruct (lstrip_split s) as (ws & H & _).
  rewrite H at 2. rewrite str_length_app. lia.
Qed.

Lemma lstrip_skip (ws s : string) :
  all_space ws = true -> lstrip (ws ++ s) = lstrip s.
Proof.
  induction ws as [ws E|ws r E IH] using space_induction;
    rewrite all_space_eq, E.
  - destruct ws; [reflexivity | discriminate].
  - intros H. rewrite lstrip_eq, (after_space_app _ _ s E). now apply IH.
Qed.

Lemma lstrip_all_space (ws : string) :
  all_space ws = true -> lstrip ws = EmptyString.
Proof.
  intros H. rewrite <- (str_app_nil_r ws). now rewrite lstrip_skip.
Qed.

(** White space after a text does not make the text white space. *)
Lemma all_space_app_r (v ws : string) :
  all_space ws = true -> all_space (v ++ ws) = all_space v.
Proof.
  intros H. induction v as [v E|v r E IH] using space_induction.
  - destruct v as [|a v]; [exact H|].
    rewrite (all_space_eq (String a v)), E.
    rewrite all_space_eq, (no_space_app _ _ E); [reflexivity|discriminate|exact H].
  - rewrite (all_space_eq v), E, all_space_eq, (after_space_app _ _ ws E).
    exact IH.
Qed.

Lemma all_space_app (a b : string) :
  all_space a = true -> all_space b = true -> all_space (a ++ b) = true.
Proof. intros Ha Hb. now rewrite all_space_app_r. Qed.

Lemma rstrip_eq (s : string) :
  rstrip s =
    match s with
    | EmptyString => EmptyString
    | String c r => if all_space s then EmptyString else String c (rstrip r)
    end.
Proof. destruct s; reflexivity. Qed.

(** [rstrip] removes white space and nothing else. *)
Lemma rstrip_split (s : string) :
  exists ws, s = (rstrip s ++ ws)%string /\ all_space ws = true.
Proof.
  induction s as [|c s (ws & Hs & Hws)].
  - exists EmptyString. split; reflexivity.
  - rewrite rstrip_eq. destruct (all_space (String c s)) eqn:E.
    + exists (String c s). split; [reflexivity | exact E].
    + exists ws. split; [|exact Hws]. cbn [append]. now rewrite <- Hs.
Qed.

Lemma rstrip_length (s : string) :
  (String.length (rstrip s) <= String.length s)%nat.
Proof.
  destruct (rstrip_split s) as (ws & H & _).
  rewrite H at 2. rewrite str_length_app. lia.
Qed.

Lemma rstrip_all_space (ws : string) :
  all_space ws = true -> rstrip ws = EmptyString.
Proof. intros H. rewrite rstrip_eq. destruct ws; [reflexivity | now rewrite H]. Qed.

Lemma rstrip_skip (u ws : string) :
  all_space ws = true -> rstrip (u ++ ws) = rstrip u.
Proof.
  intros H. induction u as [|c u IH].
  - now apply rstrip_all_space.
  - rewrite (rstrip_eq (String c u)).
    change (String c u ++ ws)%string with (String c (u ++ ws)).
    rewrite rstrip_eq.
    change (String c (u ++ ws)) with (String c u ++ ws)%string.
    rewrite (all_space_app_r _ _ H), IH. reflexivity.
Qed.

Lemma rstrip_idempotent (s : string) : rstrip (rstrip s) = rstrip s.
Proof.
  destruct (rstrip_split s) as (ws & Hs & Hws).
  rewrite Hs at 2. now rewrite rstrip_skip.
Qed.

(** A text that [rstrip] leaves alone ends with no white space. *)
Lemma rstrip_fixed_length (s : string) :
  String.length (rstrip s) = String.length s -> rstrip s = s.
Proof.
  destruct (rstrip_split s) as (ws & Hs & _). intros H.
  rewrite Hs in H at 2. rewrite str_length_app in H.
  destruct ws; [|simpl in H; lia].
  now rewrite str_app_nil_r in Hs.
Qed.

Lemma lstrip_fixed_length (s : string) :
  String.length (lstrip s) = String.length s -> lstrip s = s.
Proof.
  destruct (lstrip_split s) as (ws & Hs & _). intros H.
  rewrite Hs in H at 2. rewrite str_length_app in H.
  destruct ws; [|simpl in H; lia]. now simpl in Hs.
Qed.

(** Stripping on the right leaves the start of a text as it is. *)
Lemma rstrip_no_space (t : string) :
  after_space t = None -> after_space (rstrip t) = None.
Proof.
  intros H. destruct (rstrip_split t) as (ws & Ht & _).
  destruct (after_space (rstrip t)) as [r|] eqn:E; [|reflexivity].
  rewrite Ht, (after_space_app _ _ ws E) in H. discriminate.
Qed.

Lemma strip_idempotent (s : string) : strip (strip s) = strip s.
Proof.
  unfold strip.
  rewrite (proj2 (lstrip_fixed (rstrip (lstrip s)))).
  - apply rstrip_idempotent.
  - apply rstrip_no_space, lstrip_no_space.
Qed.

(** A text that [strip] leaves alone has no white space at either end. *)
Lemma strip_fixed (u : string) :
  strip u = u <-> lstrip u = u /\ rstrip u = u.
Proof.
  unfold strip. split.
  - intros H.
    assert (Hl : lstrip u = u).
    { apply lstrip_fixed_length.
      pose proof (rstrip_length (lstrip u)) as H1.
      pose proof (lstrip_length u) as H2. rewrite H in H1. lia. }
    split; [exact Hl|]. now rewrite Hl in H.
  - intros [Hl Hr]. now rewrite Hl.
Qed.

(** White space around a text that has none at its ends is what
    [strip] removes. *)
Lemma strip_padding (ws1 u ws2 : string) :
  all_space ws1 = true -> all_space ws2 = true -> strip u = u ->
  strip (ws1 ++ u ++ ws2) = u.
Proof.
  intros H1 H2 Hu. apply strip_fixed in Hu. destruct Hu as [Hl Hr].
  unfold strip. rewrite (lstrip_skip _ _ H1).
  destruct u as [|c u].
  - cbn [append]. now rewrite (lstrip_all_space _ H2).
  - rewrite (proj2 (lstrip_fixed _)).
    + now rewrite (rstrip_skip _ _ H2).
    + apply no_space_app; [now apply lstrip_fixed | discriminate | exact H2].
Qed.

(** Lower-casing turns no character into white space and no white
    space into anything else. *)
Lemma lower_space (f : bool) (a : ascii) :
  is_space (lower_byte f a) = is_space a.
Proof. destruct f; destruct a as [[] [] [] [] [] [] [] []]; reflexivity. Qed.

Lemma lower_space2 (f : bool) (a b : ascii) :
  is_space2 (lower_byte f a) (lower_byte (negb f && is_c3 a) b)
  = is_space2 a b.
Proof.
  destruct f; destruct a as [[] [] [] [] [] [] [] []]; try reflexivity;
    destruct b as [[] [] [] [] [] [] [] []]; reflexivity.
Qed.

Lemma lower_space3 (f : bool) (a b c : ascii) :
  is_space3 (lower_byte f a) (lower_byte (negb f && is_c3 a) b)
            (lower_byte (negb (negb f && is_c3 a) && is_c3 b) c)
  = is_space3 a b c.
Proof.
  destruct f; destruct a as [[] [] [] [] [] [] [] []]; try reflexivity;
    destruct b as [[] [] [] [] [] [] [] []]; try reflexivity;
    destruct c as [[] [] [] [] [] [] [] []]; reflexivity.
Qed.

Lemma after_space_lower (f : bool) (s : string) :
  match after_space s with
  | Some r => exists f', after_space (lower_from f s) = Some (lower_from f' r)
  | None => after_space (lower_from f s) = None
  end.
Proof.
  destruct s as [|a r]; [reflexivity|].
  cbn [after_space lower_from]. rewrite lower_space.
  destruct (is_space a); [eexists; reflexivity|].
  destruct r as [|b r2]; [reflexivity|].
  cbn [lower_from]. rewrite lower_space2.
  destruct (is_space2 a b); [eexists; reflexivity|].
  destruct r2 as [|c r3]; [reflexivity|].
  cbn [lower_from]. rewrite lower_space3.
  destruct (is_space3 a b c); [eexists; reflexivity | reflexivity].
Qed.

Lemma lower_length (s : string) :
  forall f, String.length (lower_from f s) = String.length s.
Proof. induction s as [|c s IH]; intros f; simpl; [reflexivity | now rewrite IH]. Qed.

Lemma all_space_lower (s : string) :
  forall f, all_space (lower_from f s) = all_space s.
Proof.
  induction s as [s E|s r E IH] using space_induction; intros f;
    pose proof (after_space_lower f s) as H; rewrite E in H.
  - rewrite !all_space_eq, E, H. destruct s; reflexivity.
  - destruct H as [f' H]. rewrite !all_space_eq, E, H. apply IH.
Qed.

Lemma rstrip_lower (s : string) :
  forall f, rstrip (lower_from f s) = lower_from f (rstrip s).
Proof.
  induction s as [|c s IH]; intros f; [reflexivity|].
  rewrite (rstrip_eq (String c s)).
  rewrite <- (all_space_lower (String c s) f).
  cbn [lower_from]. rewrite rstrip_eq.
  destruct (all_space _); [reflexivity|].
  cbn [lower_from]. now rewrite IH.
Qed.

Lemma lower_lstrip_fixed (b : bool) (u : string) :
  lstrip (lower_from b u) = lower_from b u -> lstrip u = u.
Proof.
  intros H. apply lstrip_fixed in H. apply lstrip_fixed.
  pose proof (after_space_lower b u) as Hl.
  destruct (after_space u); [|reflexivity].
  destruct Hl as [f' Hl]. congruence.
Qed.

Lemma lower_rstrip_fixed (u : string) :
  forall b, rstrip (lower_from b u) = lower_from b u -> rstrip u = u.
Proof.
  intros b H. rewrite rstrip_lower in H.
  apply rstrip_fixed_length.
  rewrite <- (lower_length (rstrip u) b), H. apply lower_length.
Qed.

(** A text whose lower-case form has no white space at its ends has
    none either. *)
Lemma lower_strip_fixed (u : string) :
  lstrip (lower u) = lower u -> rstrip (lower u) = lower u -> strip u = u.
Proof.
  intros Hl Hr. apply strip_fixed. split.
  - exact (lower_lstrip_fixed false u Hl).
  - exact (lower_rstrip_fixed u false Hr).
Qed.
End Strip.

Section Normalisation.
Import PyStr Catalog Spec.

Lemma normalize_canonical (c : string) :
  In c canonical_categories -> _normalize_category c = c.
Proof.
  unfold canonical_categories. simpl.
  intros H; repeat (destruct H as [<-|H]; [vm_compute; reflexivity|]).
  destruct H.
Qed.

(** What [_normalize_category] returns is returned unchanged when
    normalised again. *)
Lemma normalize_idempotent (t : string) :
  _normalize_category (_normalize_category t) = _normalize_category t.
Proof.
  unfold _normalize_category at 2 3.
  destruct (contains "placa-mãe" _ || contains "motherboard" _
            || contains "mainboard" _) eqn:E0; [vm_compute; reflexivity|].
  destruct (mem _ ["gpu"; _; _]) eqn:E1; [vm_compute; reflexivity|].
  destruct (mem _ ["cpu"; _]) eqn:E2; [vm_compute; reflexivity|].
  destruct (mem _ ["ram"; _]) eqn:E3; [vm_compute; reflexivity|].
  destruct (mem _ ["fonte"; _; _]) eqn:E4; [vm_compute; reflexivity|].
  destruct (mem _ ["gabinete"; _]) eqn:E5; [vm_compute; reflexivity|].
  destruct (mem _ ["ssd"; _; _; _]) eqn:E6; [vm_compute; reflexivity|].
  destruct (mem _ ["cooler"; _; _]) eqn:E7; [vm_compute; reflexivity|].
  unfold _normalize_category. rewrite strip_idempotent.
  now rewrite E0, E1, E2, E3, E4, E5, E6, E7.
Qed.

Lemma normalize_exact_synonym (t s c : string) :
  In (s, c) exact_synonyms -> lower (strip t) = s ->
  _normalize_category t = c.
Proof.
  unfold exact_synonyms. simpl. intros Hin Hs.
  unfold _normalize_category. rewrite Hs.
  repeat (destruct Hin as [[= <- <-]|Hin]; [vm_compute; reflexivity|]).
  destruct Hin.
Qed.

Lemma normalize_board_term (t s : string) :
  In s board_terms -> contains s (lower (strip t)) = true ->
  _normalize_category t = "Placa-mãe".
Proof.
  unfold board_terms. simpl. intros Hin Hs.
  unfold _normalize_category.
  destruct Hin as [<-|[<-|[<-|[]]]]; rewrite Hs;
    rewrite ?orb_true_r; reflexivity.
Qed.

Lemma normalize_unlisted (t : string) :
  lower (strip t) = "processor" \/ lower (strip t) = "memory" ->
  _normalize_category t = strip t.
Proof.
  intros [H|H]; unfold _normalize_category; rewrite H; reflexivity.
Qed.

(** A synonym of the tables, in any letter case and between any white
    space, is folded into its name. *)
Lemma normalize_any_case_and_padding (ws1 u ws2 s c : string) :
  In (s, c) exact_synonyms ->
  all_space ws1 = true -> all_space ws2 = true -> lower u = s ->
  _normalize_category (ws1 ++ u ++ ws2) = c.
Proof.
  intros Hin H1 H2 Hu.
  apply (normalize_exact_synonym _ s c Hin).
  rewrite strip_padding; auto.
  apply lower_strip_fixed; rewrite Hu; clear Hu;
    unfold exact_synonyms in Hin; simpl in Hin;
    repeat (destruct Hin as [[= <- <-]|Hin]; [reflexivity|]);
    destruct Hin.
Qed.

(** C4, as the program has it.  Each of the eight names the program
    files parts under is returned unchanged, and so is every result of
    the normalisation; a label that, trimmed and lower-cased, is one of
    the synonyms of the program's tables, or contains one of its
    motherboard terms, is folded into the name of that table.  The
    labels "processor" and "memory" are in no table: they come back
    trimmed, in the letter case they were given.  In particular a
    synonym written in any letter case, with any white space around it
    (any run of the characters [str.strip] removes, those outside
    ASCII included), is folded like the synonym itself. *)
Theorem normalize_category_folds :
  (forall c, In c canonical_categories -> _normalize_category c = c)
  /\ (forall t,
        _normalize_category (_normalize_category t) = _normalize_category t)
  /\ (forall t s c,
        In (s, c) exact_synonyms -> lower (strip t) = s ->
        _normalize_category t = c)
  /\ (forall t s,
        In s board_terms -> contains s (lower (strip t)) = true ->
        _normalize_category t = "Placa-mãe")
  /\ (forall t,
        lower (strip t) = "processor" \/ lower (strip t) = "memory" ->
        _normalize_category t = strip t)
  /\ (forall ws1 u ws2 s c,
        In (s, c) exact_synonyms ->
        all_space ws1 = true -> all_space ws2 = true -> lower u = s ->
        _normalize_category (ws1 ++ u ++ ws2) = c).
Proof.
  split; [exact normalize_canonical|].
  split; [exact normalize_idempotent|].
  split; [exact normalize_exact_synonym|].
  split; [exact normalize_board_term|].
  split; [exact normalize_unlisted|].
  exact normalize_any_case_and_padding.
Qed.

Lemma normalize_category_folds_witness :
  _normalize_category "  Video CARD " = "GPU"
  /\ _normalize_category (Examples.nbsp ++ "Cpu" ++ Examples.em_space) = "CPU"
  /\ _normalize_category " MEMÓRIA" = "RAM"
  /\ _normalize_category "Kit MainBoard ATX" = "Placa-mãe"
  /\ _normalize_category " Memory " = "Memory".
Proof.
  destruct normalize_category_folds as (_ & _ & Hsyn & Hboard & Hun & Hpad).
  split; [|split; [|split; [|split]]].
  - apply (Hpad "  " "Video CARD" " " "video card");
      [vm_compute; tauto | reflexivity ..].
  - apply (Hpad Examples.nbsp "Cpu" Examples.em_space "cpu");
      [vm_compute; tauto | reflexivity ..].
  - apply (Hsyn _ "memória"); [vm_compute; tauto | reflexivity].
  - apply (Hboard _ "mainboard"); [vm_compute; tauto | reflexivity].
  - apply (Hun " Memory "). right. reflexivity.
Defined.

(** C4, as stated, on "processor": the label is in no table of the
    program, so it is not folded into CPU and its letter case changes
    the result.  And on the canonical names of the specification:
    Motherboard, PSU, Case and Storage are not returned unchanged, the
    program folds them into the names it files parts under. *)
Lemma normalize_processor_counterexample :
  _normalize_category "processor" = "processor"
  /\ _normalize_category "Processor" = "Processor"
  /\ _normalize_category "MEMORY" = "MEMORY"
  /\ _normalize_category "Processor" <> _normalize_category "processor"
  /\ _normalize_category "Motherboard" = "Placa-mãe"
  /\ _normalize_category "PSU" = "Fonte"
  /\ _normalize_category "Case" = "Gabinete"
  /\ _normalize_category "Storage" = "Armazenamento"
  /\ _normalize_category "Motherboard" <> "Motherboard".
Proof. repeat split; vm_compute; try reflexivity; discriminate. Qed.
End Normalisation.

(* ------------------------------------------------------------------ *)
(** ** The catalog indexes *)

Section CatalogIndexes.
Import Catalog Spec.

Lemma heap_set_same (h : heap) (r : ref) (p : Part) : heap_set h r p r = p.
Proof. unfold heap_set. now rewrite Nat.eqb_refl. Qed.

Lemma add_all_snoc (st : heap * Catalog.t) (rs : list ref) (r : ref) :
  add_all st (rs ++ [r])%list = add_part (add_all st rs) r.
Proof. unfold add_all. now rewrite fold_left_app. Qed.

Lemma indexed_init (h0 : heap) : indexed h0 [] h0 init.
Proof.
  split; simpl; intros; try discriminate; try contradiction.
  reflexivity.
Qed.

Lemma parts_in_add (h : heap) (c : Catalog.t) (r : ref) (k : string) :
  let norm := _normalize_category (category (h r)) in
  parts_in (snd (add_part (h, c) r)) k =
    if String.eqb norm k then py_append (parts_in c norm) r
    else parts_in c k.
Proof.
  intros norm. unfold parts_in, add_part. simpl. fold norm.
  unfold Dict.get_default at 1.
  destruct (String.eqb norm k) eqn:E.
  - apply String.eqb_eq in E. subst k. now rewrite get_set_same.
  - apply String.eqb_neq in E. now rewrite get_set_other.
Qed.

Lemma find_add (h : heap) (c : Catalog.t) (r : ref) (k : string) :
  find (snd (add_part (h, c) r)) k =
    if String.eqb (id (h r)) k then Some r else find c k.
Proof.
  unfold find, add_part. simpl. rewrite heap_set_same. simpl.
  destruct (String.eqb (id (h r)) k) eqn:E.
  - apply String.eqb_eq in E. subst k. apply get_set_same.
  - apply String.eqb_neq in E. now apply get_set_other.
Qed.

Lemma heap_add (h : heap) (c : Catalog.t) (r x : ref) :
  fst (add_part (h, c) r) x =
    if Nat.eqb x r
    then set_category (h r) (_normalize_category (category (h r)))
    else h x.
Proof. reflexivity. Qed.

Lemma indexed_add (h0 : heap) (done : list ref) (h : heap) (c : Catalog.t)
  (r : ref) :
  indexed h0 done h c ->
  indexed h0 (done ++ [r])%list
          (fst (add_part (h, c) r)) (snd (add_part (h, c) r)).
Proof.
  intros [Hid Hbyid Hbycat Hdone].
  set (norm := _normalize_category (category (h r))).
  assert (Hnorm : _normalize_category norm = norm)
    by apply normalize_idempotent.
  assert (Hids : forall x, id (fst (add_part (h, c) r) x) = id (h x)).
  { intros x. rewrite heap_add.
    destruct (Nat.eqb x r) eqn:E; auto.
    apply Nat.eqb_eq in E. now subst. }
  assert (Hcat : forall x, x <> r ->
            category (fst (add_part (h, c) r) x) = category (h x)).
  { intros x Hx. rewrite heap_add. apply Nat.eqb_neq in Hx. now rewrite Hx. }
  assert (Hcat_r : category (fst (add_part (h, c) r) r) = norm).
  { rewrite heap_add, Nat.eqb_refl. reflexivity. }
  split.
  - intros x. rewrite Hids. apply Hid.
  - intros k x. rewrite find_add, Hids.
    destruct (String.eqb (id (h r)) k) eqn:E.
    + apply String.eqb_eq in E. intros [= <-].
      split; [apply in_or_app; right; now left | exact E].
    + intros H. destruct (Hbyid _ _ H) as [Hin Hk].
      split; [apply in_or_app; now left | exact Hk].
  - intros k x. rewrite parts_in_add. fold norm.
    destruct (String.eqb norm k) eqn:E.
    + apply String.eqb_eq in E. subst k. unfold py_append.
      rewrite in_app_iff. intros [H|[<-|[]]].
      * destruct (Hbycat _ _ H) as (Hin & Hc & Hn).
        split; [apply in_or_app; now left|]. split; [|exact Hnorm].
        destruct (Nat.eq_dec x r) as [->|Hx]; [exact Hcat_r|].
        now rewrite Hcat.
      * split; [apply in_or_app; right; now left|].
        split; [exact Hcat_r | exact Hnorm].
    + intros H. destruct (Hbycat _ _ H) as (Hin & Hc & Hn).
      split; [apply in_or_app; now left|]. split; [|exact Hn].
      destruct (Nat.eq_dec x r) as [->|Hx]; [|now rewrite Hcat].
      rewrite Hcat_r. unfold norm. now rewrite Hc.
  - intros x Hx. rewrite Hids, find_add, parts_in_add. fold norm.
    assert (Hfiled_r : In r (py_append (parts_in c norm) r)).
    { unfold py_append. apply in_or_app. right. now left. }
    split.
    + destruct (Nat.eq_dec x r) as [->|Hne].
      * rewrite Hcat_r, String.eqb_refl. exact Hfiled_r.
      * rewrite (Hcat _ Hne).
        apply in_app_or in Hx. destruct Hx as [Hx|[Hx|[]]]; [|congruence].
        destruct (Hdone _ Hx) as [Hin _].
        destruct (String.eqb norm (category (h x))) eqn:E; [|exact Hin].
        apply String.eqb_eq in E. rewrite E.
        unfold py_append. apply in_or_app. now left.
    + destruct (String.eqb (id (h r)) (id (h x))) eqn:E;
        [eexists; reflexivity|].
      apply in_app_or in Hx. destruct Hx as [Hx|[<-|[]]].
      * exact (proj2 (Hdone _ Hx)).
      * now rewrite String.eqb_refl in E.
Qed.

Lemma indexed_add_all (h0 : heap) (rs : list ref) :
  indexed h0 rs (fst (add_all (h0, init) rs)) (snd (add_all (h0, init) rs)).
Proof.
  induction rs as [|r rs IH] using rev_ind.
  - apply indexed_init.
  - rewrite add_all_snoc.
    destruct (add_all (h0, init) rs) as [h c]. simpl in IH.
    now apply indexed_add.
Qed.

Lemma list_find_ext {A : Type} (f g : A -> bool) (l : list A) :
  (forall x, f x = g x) -> List.find f l = List.find g l.
Proof.
  intros H. induction l as [|x l IH]; [reflexivity|].
  simpl. now rewrite H, IH.
Qed.

(** [find(pid)] after the parts [rs] were added: the last of them
    that carries the id. *)
Lemma find_after_add_all (h0 : heap) (rs : list ref) (k : string) :
  find (snd (add_all (h0, init) rs)) k =
    List.find (fun r => String.eqb (id (h0 r)) k) (rev rs).
Proof.
  induction rs as [|r rs IH] using rev_ind; [reflexivity|].
  rewrite add_all_snoc, rev_app_distr.
  pose proof (ids_kept _ _ _ _ (indexed_add_all h0 rs) r) as Hid.
  destruct (add_all (h0, init) rs) as [h c]. cbn [fst snd] in Hid, IH.
  rewrite find_add, Hid, IH. reflexivity.
Qed.

(** C6, as the program has it.  After any sequence of [add_part]:
    every part indexed by id is filed in a category list; every part
    in a category list has that category as its own, a name the
    normalisation returns unchanged; the id of every filed part is
    indexed, and what it is bound to is the part added last among
    those carrying that id, the first one met when the parts added are
    gone through from the last to the first; and when the parts added
    have distinct ids, every filed part is indexed by id itself. *)
Theorem catalog_indexes_agree (h0 : heap) (rs : list ref) :
  let h := fst (add_all (h0, init) rs) in
  let c := snd (add_all (h0, init) rs) in
  (forall r, in_by_id c r -> in_by_cat c r)
  /\ (forall k r, In r (parts_in c k) ->
        category (h r) = k /\ _normalize_category k = k)
  /\ (forall r, in_by_cat c r ->
        exists r',
          find c (id (h r)) = Some r' /\ id (h r') = id (h r)
          /\ List.find (fun x => String.eqb (id (h x)) (id (h r))) (rev rs)
             = Some r')
  /\ ((forall r r', In r rs -> In r' rs -> id (h0 r) = id (h0 r') -> r = r')
      -> forall r, in_by_cat c r -> in_by_id c r).
Proof.
  intros h c. destruct (indexed_add_all h0 rs) as [Hid Hbyid Hbycat Hdone].
  fold h c in Hid, Hbyid, Hbycat, Hdone.
  assert (Hlast : forall k,
            find c k = List.find (fun x => String.eqb (id (h x)) k) (rev rs)).
  { intros k. unfold c. rewrite find_after_add_all.
    apply list_find_ext. intros x. now rewrite Hid. }
  assert (Hthird : forall r, in_by_cat c r ->
            In r rs /\ exists r', find c (id (h r)) = Some r'
                                 /\ id (h r') = id (h r) /\ In r' rs).
  { intros r [k Hk]. destruct (Hbycat _ _ Hk) as (Hin & _ & _).
    split; [exact Hin|].
    destruct (proj2 (Hdone _ Hin)) as [r' Hr'].
    exists r'. destruct (Hbyid _ _ Hr') as [Hin' Hk']. auto. }
  split; [|split; [|split]].
  - intros r [k Hk]. destruct (Hbyid _ _ Hk) as [Hin _].
    exists (category (h r)). exact (proj1 (Hdone _ Hin)).
  - intros k r Hk. destruct (Hbycat _ _ Hk) as (_ & Hc & Hn). auto.
  - intros r Hr. destruct (Hthird r Hr) as (_ & r' & Hf & He & _).
    exists r'. split; [exact Hf|]. split; [exact He|].
    now rewrite <- Hlast.
  - intros Hdistinct r Hr.
    destruct (Hthird r Hr) as (Hin & r' & Hf & He & Hin').
    exists (id (h r)). rewrite Hf. f_equal.
    apply Hdistinct; auto. now rewrite <- !Hid.
Qed.

Lemma catalog_indexes_agree_witness :
  let c := snd (add_all (Examples.two_ids_heap, init) [0; 1]%nat) in
  in_by_id c 0%nat /\ in_by_id c 1%nat.
Proof.
  intros c.
  pose proof (proj2 (proj2 (proj2
                (catalog_indexes_agree Examples.two_ids_heap [0; 1]%nat))))
    as H.
  assert (Hd : forall r r' : ref,
             In r [0; 1]%nat -> In r' [0; 1]%nat ->
             id (Examples.two_ids_heap r) = id (Examples.two_ids_heap r') ->
             r = r').
  { intros r r' [<-|[<-|[]]] [<-|[<-|[]]] E; try reflexivity;
      vm_compute in E; discriminate. }
  split; apply (H Hd).
  - exists "CPU". vm_compute. now left.
  - exists "GPU". vm_compute. now left.
Defined.

(** C6, as stated, on two part objects with the same id: both are
    filed under CPU, and the id index holds the second only. *)
Lemma catalog_same_id_counterexample :
  let c := snd (add_all (Examples.same_id_heap, init) [0; 1]%nat) in
  in_by_cat c 0%nat /\ ~ in_by_id c 0%nat.
Proof.
  intros c. split.
  - exists "CPU". vm_compute. now left.
  - intros [k H].
    assert (E : by_id c = [("1", 1%nat)]) by (vm_compute; reflexivity).
    unfold find in H. rewrite E in H. cbn [Dict.get] in H.
    destruct (String.eqb "1" k); discriminate.
Qed.
End CatalogIndexes.

(* ------------------------------------------------------------------ *)
(** ** The price parser *)

Section Prices.
Import Spec.
Context {R : PyRuntime}.

Lemma get_in_range (s : string) (i : nat) :
  (i < String.length s)%nat -> exists c, String.get i s = Some c.
Proof.
  revert i. induction s as [|d s IH]; simpl; intros i H; [lia|].
  destruct i as [|i]; [eexists; reflexivity|].
  apply IH. lia.
Qed.

Lemma getitem_neg_long (s : string) :
  (3 <= String.length s)%nat -> exists c, PyStr.getitem_neg s 3 = Ok c.
Proof.
  intros H. unfold PyStr.getitem_neg.
  destruct (Nat.ltb_spec (String.length s) 3); [lia|].
  destruct (get_in_range s (String.length s - 3)) as [c Hc]; [lia|].
  rewrite Hc. eexists; reflexivity.
Qed.

Lemma getitem_neg_short (s : string) :
  (String.length s < 3)%nat -> PyStr.getitem_neg s 3 = Raise IndexError.
Proof.
  intros H. unfold PyStr.getitem_neg.
  destruct (Nat.ltb_spec (String.length s) 3); [reflexivity | lia].
Qed.

Lemma parse_price_unfold (text : string) :
  _parse_price_brl (Some text) =
    if (text =? "")%string then Ok PyFloat.zero
    else
      let s := kept_text text in
      if (s =? "")%string then Ok PyFloat.zero
      else
        comma <- and_third_from_end (PyStr.count "," s =? 1) s "," ;;
        s <- (if comma
              then Ok (PyStr.replace_char "," "."
                         (PyStr.replace_char "." "" s))
              else
                dot <- and_third_from_end (PyStr.count "." s =? 1) s "." ;;
                if dot then Ok s
                else
                  let s :=
                    if 1 <? PyStr.count "." s
                    then PyStr.replace_char "." "" s else s in
                  Ok (PyStr.replace_char "," "." s)) ;;
        Ok (float_or_zero s).
Proof. reflexivity. Qed.

(** With three characters or more kept, the parser returns. *)
Lemma parse_price_returns (text : string) :
  (3 <= String.length (kept_text text))%nat ->
  exists f, _parse_price_brl (Some text) = Ok f.
Proof.
  intros H. rewrite parse_price_unfold. cbv zeta.
  destruct (text =? "")%string; [eexists; reflexivity|].
  destruct (kept_text text =? "")%string; [eexists; reflexivity|].
  destruct (getitem_neg_long _ H) as [c Hc].
  unfold and_third_from_end. rewrite Hc.
  destruct (PyStr.count "," _ =? 1); simpl;
    [destruct (Ascii.eqb c ","); simpl; [eexists; reflexivity|]|];
    (destruct (PyStr.count "." _ =? 1); simpl;
     [destruct (Ascii.eqb c "."); simpl|]; eexists; reflexivity).
Qed.

(** With one or two characters kept and a single comma or a single
    period among them, the parser raises [IndexError]. *)
Lemma parse_price_raises (text : string) :
  text <> "" -> kept_text text <> "" ->
  (String.length (kept_text text) < 3)%nat ->
  PyStr.count "," (kept_text text) = 1
  \/ PyStr.count "." (kept_text text) = 1 ->
  _parse_price_brl (Some text) = Raise IndexError.
Proof.
  intros Ht Hs Hlen Hsep. rewrite parse_price_unfold. cbv zeta.
  apply String.eqb_neq in Ht, Hs. rewrite Ht, Hs.
  unfold and_third_from_end. rewrite (getitem_neg_short _ Hlen).
  destruct (PyStr.count "," _ =? 1) eqn:E; simpl; [reflexivity|].
  destruct Hsep as [H|H]; [rewrite H in E; discriminate|].
  rewrite H. reflexivity.
Qed.
End Prices.

(** With the runtime for plain numerals, the two prices of the
    specification are the doubles nearest to 1234.56 and to 79.90. *)
Lemma parse_price_examples :
  _parse_price_brl (R := PlainRuntime.runtime) (Some "R$ 1.234,56")
    = Ok (PyFloat.of_decimal 123456 2)
  /\ _parse_price_brl (R := PlainRuntime.runtime) (Some "R$79,90")
    = Ok (PyFloat.of_decimal 7990 2).
Proof. split; vm_compute; reflexivity. Qed.

(* ================================================================== *)
(** * Further properties of the program *)

(* ------------------------------------------------------------------ *)
(** ** The catalog as its callers read it *)

Section CatalogQueries.
Import Catalog Spec.

Lemma set_category_same (p : Part) : set_category p (category p) = p.
Proof. now destruct p. Qed.

Lemma get_default_in_keys {V : Type} (d : Dict.dict V) (k : string) :
  In k (Dict.keys d) <-> exists v, Dict.get d k = Some v.
Proof.
  induction d as [|[k0 v0] d IH]; simpl.
  - split; [intros [] | intros [v Hv]; discriminate].
  - destruct (String.eqb k0 k) eqn:E.
    + apply String.eqb_eq in E. split; eauto.
    + apply String.eqb_neq in E. rewrite IH. split; auto.
      intros [H|H]; [contradiction | exact H].
Qed.

(** The normalised category of a part, before and after any additions,
    and the record of what was filed where. *)
Lemma add_all_by_cat (h0 : heap) (rs : list ref) :
  let h := fst (add_all (h0, init) rs) in
  let c := snd (add_all (h0, init) rs) in
  (forall x, _normalize_category (category (h x))
             = _normalize_category (category (h0 x)))
  /\ (forall k,
        parts_in c k =
          filter (fun r => String.eqb
                             (_normalize_category (category (h0 r))) k) rs)
  /\ NoDup (Dict.keys (by_cat c))
  /\ (forall k l, Dict.get (by_cat c) k = Some l -> l <> []).
Proof.
  induction rs as [|r rs IH] using rev_ind.
  - simpl. repeat split; auto; try constructor. discriminate.
  - rewrite add_all_snoc.
    destruct (add_all (h0, init) rs) as [h c]. simpl in IH.
    destruct IH as (Hn & Hp & Hnd & Hne).
    set (norm := _normalize_category (category (h r))).
    assert (Hnorm : norm = _normalize_category (category (h0 r))) by apply Hn.
    split; [|split; [|split]].
    + intros x. rewrite heap_add. fold norm.
      destruct (Nat.eqb x r) eqn:E; [|apply Hn].
      apply Nat.eqb_eq in E. subst x. simpl.
      unfold norm. rewrite normalize_idempotent. apply Hn.
    + intros k. rewrite parts_in_add. fold norm.
      rewrite filter_app. simpl. rewrite <- Hnorm.
      destruct (String.eqb norm k) eqn:E.
      * apply String.eqb_eq in E. subst k. now rewrite Hp.
      * now rewrite Hp, app_nil_r.
    + simpl. now apply NoDup_keys_set.
    + simpl. fold norm. intros k l.
      destruct (String.eqb norm k) eqn:E.
      * apply String.eqb_eq in E. subst k. rewrite get_set_same.
        intros [= <-]. unfold py_append. now destruct (Dict.get_default _ _ _).
      * apply String.eqb_neq in E. rewrite get_set_other by exact E.
        apply Hne.
Qed.

(** X1. After any sequence of [add_part], [parts_in(c)] lists, in the
    order they were added, exactly the parts whose category normalises
    to [c]; a part added twice is listed twice. *)
Theorem parts_in_lists_added_parts (h0 : heap) (rs : list ref) (k : string) :
  parts_in (snd (add_all (h0, init) rs)) k =
    filter (fun r => String.eqb (_normalize_category (category (h0 r))) k) rs.
Proof. exact (proj1 (proj2 (add_all_by_cat h0 rs)) k). Qed.

(** X2. After any sequence of [add_part], [find(pid)] is the part added
    last among those carrying the id [pid], and [None] when no part
    added carries it. *)
Theorem find_gives_last_added (h0 : heap) (rs : list ref) (k : string) :
  find (snd (add_all (h0, init) rs)) k =
    List.find (fun r => String.eqb (id (h0 r)) k) (rev rs).
Proof. exact (find_after_add_all h0 rs k). Qed.
End CatalogQueries.

Section Sorting.
Import PyStr.

Lemma insert_sorted_perm (x : string) (l : list string) :
  Permutation (insert_sorted x l) (x :: l).
Proof.
  induction l as [|y l IH]; simpl; auto.
  destruct (String.leb x y); auto.
  apply perm_trans with (y :: x :: l); [now constructor | constructor].
Qed.

Lemma sorted_perm (l : list string) : Permutation (sorted l) l.
Proof.
  induction l as [|x l IH]; simpl; auto.
  apply perm_trans with (x :: sorted l);
    [apply insert_sorted_perm | now constructor].
Qed.

Lemma insert_sorted_Sorted (x : string) (l : list string) :
  Sorted (fun a b => String.leb a b = true) l ->
  Sorted (fun a b => String.leb a b = true) (insert_sorted x l).
Proof.
  induction l as [|y l IH]; simpl; intros H.
  - repeat constructor.
  - destruct (String.leb x y) eqn:E.
    + constructor; [exact H | now constructor].
    + inversion H as [|? ? Hs Hh]; subst.
      constructor; [now apply IH|].
      assert (Hyx : String.leb y x = true).
      { destruct (String.leb_total x y) as [C|C]; congruence. }
      destruct l as [|z l]; simpl; [now constructor|].
      destruct (String.leb x z); constructor; auto.
      now inversion Hh.
Qed.

Lemma sorted_Sorted (l : list string) :
  Sorted (fun a b => String.leb a b = true) (sorted l).
Proof.
  induction l as [|x l IH]; simpl; [constructor|].
  now apply insert_sorted_Sorted.
Qed.
End Sorting.

Section CatalogCategories.
Import Catalog Spec.

(** X3. After any sequence of [add_part], [categories()] is in
    ascending order, names no category twice, and names exactly the
    normalised categories of the parts added. *)
Theorem categories_sorted_and_exact (h0 : heap) (rs : list ref) :
  let c := snd (add_all (h0, init) rs) in
  Sorted (fun a b => String.leb a b = true) (categories c)
  /\ NoDup (categories c)
  /\ forall k,
       In k (categories c) <->
       exists r, In r rs /\ _normalize_category (category (h0 r)) = k.
Proof.
  intros c. destruct (add_all_by_cat h0 rs) as (_ & Hp & Hnd & Hne).
  fold c in Hp, Hnd, Hne. unfold categories.
  split; [apply sorted_Sorted|]. split.
  - eapply Permutation_NoDup; [|exact Hnd].
    apply Permutation_sym, sorted_perm.
  - intros k. split.
    + intros Hin. apply (Permutation_in _ (sorted_perm _)) in Hin.
      apply get_default_in_keys in Hin. destruct Hin as [l Hl].
      pose proof (Hne _ _ Hl) as Hnil.
      pose proof (Hp k) as Hk. unfold parts_in, Dict.get_default in Hk.
      rewrite Hl in Hk. destruct l as [|r l]; [congruence|].
      assert (Hr : In r (r :: l)) by now left.
      rewrite Hk in Hr. apply filter_In in Hr. destruct Hr as [Hr E].
      apply String.eqb_eq in E. eauto.
    + intros (r & Hr & E).
      apply (Permutation_in _ (Permutation_sym (sorted_perm _))).
      apply get_default_in_keys.
      assert (Hf : In r (parts_in c k)).
      { rewrite Hp. apply filter_In. split; [exact Hr|].
        now apply String.eqb_eq. }
      unfold parts_in, Dict.get_default in Hf.
      destruct (Dict.get (by_cat c) k) as [l|]; [eauto | destruct Hf].
Qed.

Lemma add_part_normalised (h : heap) (c : Catalog.t) (r x : ref) :
  _normalize_category (category (h r)) = category (h r) ->
  fst (add_part (h, c) r) x = h x.
Proof.
  intros H. rewrite heap_add, H, set_category_same.
  destruct (Nat.eqb x r) eqn:E; [|reflexivity].
  apply Nat.eqb_eq in E. now subst.
Qed.

Lemma parts_in_grows (h : heap) (c : Catalog.t) (r x : ref) (k : string) :
  In x (parts_in c k) -> In x (parts_in (snd (add_part (h, c) r)) k).
Proof.
  intros H. rewrite parts_in_add. cbv zeta.
  destruct (String.eqb _ k) eqn:E; [|exact H].
  apply String.eqb_eq in E. rewrite E.
  unfold py_append. apply in_or_app. now left.
Qed.

(** X4. Parts that one catalog has filed can be added to any other
    catalog: no part object changes, and each is filed in the other
    catalog under the category it carries. *)
Theorem merge_keeps_parts (h0 : heap) (rs rs' : list ref) (c2 : Catalog.t) :
  incl rs' rs ->
  let h1 := fst (add_all (h0, init) rs) in
  (forall x, fst (add_all (h1, c2) rs') x = h1 x)
  /\ (forall r, In r rs' ->
        In r (parts_in (snd (add_all (h1, c2) rs')) (category (h1 r)))).
Proof.
  intros Hincl h1.
  assert (Hfix : forall r, In r rs ->
            _normalize_category (category (h1 r)) = category (h1 r)).
  { intros r Hr. destruct (indexed_add_all h0 rs) as [_ _ Hbycat Hdone].
    fold h1 in Hbycat, Hdone.
    destruct (Hbycat _ _ (proj1 (Hdone _ Hr))) as (_ & _ & Hn). exact Hn. }
  induction rs' as [|r rs' IH] using rev_ind.
  - split; [reflexivity | intros r []].
  - assert (Hincl' : incl rs' rs).
    { intros x Hx. apply Hincl, in_or_app. now left. }
    assert (Hr : In r rs).
    { apply Hincl, in_or_app. right. now left. }
    destruct (IH Hincl') as [Hheap Hfiled]. clear IH.
    rewrite add_all_snoc.
    destruct (add_all (h1, c2) rs') as [h' c']. cbn [fst snd] in Hheap, Hfiled.
    assert (Hfix' : _normalize_category (category (h' r)) = category (h' r)).
    { rewrite Hheap. now apply Hfix. }
    split.
    + intros x. rewrite (add_part_normalised _ _ _ _ Hfix'). apply Hheap.
    + intros x Hx. apply in_app_or in Hx. destruct Hx as [Hx|[<-|[]]].
      * apply parts_in_grows. now apply Hfiled.
      * rewrite parts_in_add. cbv zeta. rewrite Hfix', Hheap.
        rewrite String.eqb_refl. unfold py_append.
        apply in_or_app. right. now left.
Qed.

Lemma merge_keeps_parts_witness :
  let h1 := fst (add_all (Examples.two_ids_heap, init) [0; 1]%nat) in
  fst (add_all (h1, init) [1; 0]%nat) 1%nat = h1 1%nat
  /\ In 1%nat (parts_in (snd (add_all (h1, init) [1; 0]%nat)) "GPU").
Proof.
  intros h1.
  assert (Hincl : incl [1; 0]%nat [0; 1]%nat).
  { intros x [<-|[<-|[]]]; simpl; auto. }
  destruct (merge_keeps_parts Examples.two_ids_heap [0; 1]%nat [1; 0]%nat
              init Hincl) as [Hheap Hfiled].
  split; [apply Hheap|].
  apply (Hfiled 1%nat). now left.
Defined.
End CatalogCategories.

(* ------------------------------------------------------------------ *)
(** ** Selecting and removing parts *)

Section MoreDictFacts.
Variable V : Type.
Implicit Types (d : Dict.dict V) (k : string) (v : V).

Lemma get_absent d k : ~ In k (Dict.keys d) -> Dict.get d k = None.
Proof.
  induction d as [|[k0 v0] d IH]; simpl; auto.
  intros H. destruct (String.eqb k0 k) eqn:E.
  - apply String.eqb_eq in E. tauto.
  - apply IH. tauto.
Qed.

Lemma get_del_same d k :
  NoDup (Dict.keys d) -> Dict.get (Dict.del d k) k = None.
Proof.
  induction d as [|[k0 v0] d IH]; simpl; auto.
  intros H. inversion H as [|? ? Hnin Hnd]; subst.
  destruct (String.eqb k0 k) eqn:E; simpl.
  - apply String.eqb_eq in E. subst. now apply get_absent.
  - rewrite E. now apply IH.
Qed.

Lemma get_del_other d k k' :
  k <> k' -> Dict.get (Dict.del d k) k' = Dict.get d k'.
Proof.
  intros Hne. induction d as [|[k0 v0] d IH]; simpl; auto.
  destruct (String.eqb k0 k) eqn:E; simpl.
  - apply String.eqb_eq in E. subst k0.
    apply String.eqb_neq in Hne. now rewrite Hne.
  - now rewrite IH.
Qed.

Lemma del_absent d k : Dict.get d k = None -> Dict.del d k = d.
Proof.
  induction d as [|[k0 v0] d IH]; simpl; auto.
  destruct (String.eqb k0 k); [discriminate|].
  intros H. now rewrite IH.
Qed.

Lemma values_set_new d k v :
  Dict.get d k = None -> Dict.values (Dict.set d k v) = (Dict.values d ++ [v])%list.
Proof.
  unfold Dict.values.
  induction d as [|[k0 v0] d IH]; simpl; auto.
  destruct (String.eqb k0 k); [discriminate|].
  intros H. simpl. now rewrite IH.
Qed.

(** A binding splits the values around its own. *)
Lemma values_split d k v0 :
  Dict.get d k = Some v0 ->
  exists l1 l2,
    Dict.values d = (l1 ++ v0 :: l2)%list
    /\ (forall v, Dict.values (Dict.set d k v) = (l1 ++ v :: l2)%list)
    /\ Dict.values (Dict.del d k) = (l1 ++ l2)%list.
Proof.
  unfold Dict.values.
  induction d as [|[k0 w] d IH]; simpl; [discriminate|].
  destruct (String.eqb k0 k) eqn:E.
  - intros [= ->]. exists [], (map snd d). simpl. auto.
  - intros H. destruct (IH H) as (l1 & l2 & H1 & H2 & H3).
    exists (w :: l1), l2. simpl.
    rewrite H1, H3. repeat split. intros v. now rewrite H2.
Qed.
End MoreDictFacts.

Arguments get_del_same {V}.
Arguments get_del_other {V}.
Arguments del_absent {V}.
Arguments values_set_new {V}.
Arguments values_split {V}.

Section Slots.
Import PyVal BuildEngine Spec.

(** X5. [add] puts the part in its slot and leaves every other slot as
    it was: the occupant of a slot [c] afterwards is the part when [c]
    is its slot, and the former occupant otherwise. *)
Theorem add_fills_only_its_slot (self : BuildEngine.t) (p : Part) (c : string) :
  slot (add self p) c =
    if String.eqb (slot_of p) c then Some p else slot self c.
Proof.
  unfold slot, add. simpl.
  destruct (String.eqb (slot_of p) c) eqn:E.
  - apply String.eqb_eq in E. subst c. apply get_set_same.
  - apply String.eqb_neq in E. now apply get_set_other.
Qed.

(** X6. [remove] empties the slot it names and leaves every other slot
    as it was; on an empty slot it changes nothing at all. *)
Theorem remove_empties_only_its_slot (self : BuildEngine.t) (c : string) :
  NoDup (Dict.keys (parts self)) ->
  (forall c', slot (remove self c) c' =
                if String.eqb c c' then None else slot self c')
  /\ (slot self c = None -> remove self c = self).
Proof.
  intros Hwf. split.
  - intros c'. unfold slot, remove. simpl.
    destruct (String.eqb c c') eqn:E.
    + apply String.eqb_eq in E. subst c'. now apply get_del_same.
    + apply String.eqb_neq in E. now apply get_del_other.
  - intros H. unfold remove. destruct self as [d]. simpl in *.
    f_equal. now apply del_absent.
Qed.

Lemma remove_empties_only_its_slot_witness :
  slot (remove Examples.bare_build "RAM") "RAM" = None
  /\ slot (remove Examples.bare_build "RAM") "CPU"
     = slot Examples.bare_build "CPU".
Proof.
  assert (Hwf : NoDup (Dict.keys (parts Examples.bare_build))).
  { apply run_NoDup. constructor. }
  pose proof (proj1 (remove_empties_only_its_slot
                       Examples.bare_build "RAM" Hwf)) as H.
  split; [exact (H "RAM") | exact (H "CPU")].
Defined.

(** X7. [remove] takes the name of a slot, not the label of a part: a
    part whose category label differs from its slot (PSU for Fonte,
    Case for Gabinete, ...) is still selected after [remove] is called
    with that label. *)
Theorem remove_by_label_keeps_part (self : BuildEngine.t) (p : Part) :
  category p <> slot_of p ->
  slot (remove (add self p) (category p)) (slot_of p) = Some p.
Proof.
  intros H. unfold slot, remove. simpl.
  rewrite get_del_other by exact H. apply get_set_same.
Qed.

Lemma remove_by_label_keeps_part_witness :
  let psu := Examples.part "p1" "PSU" [] in
  slot (remove (add init psu) "PSU") "Fonte" = Some psu.
Proof.
  intros psu. apply (remove_by_label_keeps_part init psu).
  vm_compute. discriminate.
Defined.

(** X8. A part filed by the catalog is selected into the slot of the
    same name as its category, with one exception: the label
    "Air Cooler" is kept by the catalog and selected into Cooler. *)
Theorem catalog_category_is_slot (p : Part) :
  Catalog._normalize_category (category p) = category p ->
  slot_of p = category p
  \/ (category p = "Air Cooler" /\ slot_of p = "Cooler").
Proof.
  intros H. unfold slot_of, cat_map, Dict.get_default.
  remember (category p) as n eqn:Hn. clear Hn.
  cbn [Dict.get].
  repeat match goal with
         | |- context [String.eqb ?k n] =>
             let E := fresh "E" in
             destruct (String.eqb k n) eqn:E;
             [ apply String.eqb_eq in E; subst n;
               first [ now left
                     | right; split; reflexivity
                     | vm_compute in H; discriminate ]
             | ]
         end.
  now left.
Qed.

Lemma catalog_category_is_slot_witness :
  slot_of (Examples.part "c9" "Air Cooler" []) = "Air Cooler"
  \/ ("Air Cooler" = "Air Cooler"
      /\ slot_of (Examples.part "c9" "Air Cooler" []) = "Cooler").
Proof.
  apply (catalog_category_is_slot (Examples.part "c9" "Air Cooler" [])).
  vm_compute. reflexivity.
Defined.
End Slots.

(* ------------------------------------------------------------------ *)
(** ** Parts that do not count for the power estimate *)

Section SilentParts.
Import PyVal BuildEngine Spec.
Context {R : PyRuntime}.

Lemma fold_add_tdp_same (ps : list Part) (t t' : PyFloat.float) :
  same_number t t' ->
  same_number (fold_left add_tdp ps t) (fold_left add_tdp ps t').
Proof.
  intros H.
  eapply same_number_trans.
  - apply fold_add_tdp_contributions. exact H.
  - apply same_number_sym, fold_add_tdp_contributions, same_number_refl.
Qed.

Lemma add_tdp_silent (t : PyFloat.float) (p : Part) :
  silent p -> same_number (add_tdp t p) t.
Proof.
  intros [[e He]|Hz].
  - rewrite (add_tdp_raise _ _ _ He). apply same_number_refl.
  - rewrite (add_tdp_reading _ _ _ Hz). apply add_zero_same.
Qed.

(** A silent part anywhere in the selection can be put in, taken out
    or exchanged for another silent part. *)
Lemma fold_add_tdp_skip (l1 l2 : list Part) (p : Part) (t : PyFloat.float) :
  silent p ->
  same_number (fold_left add_tdp (l1 ++ p :: l2) t)
              (fold_left add_tdp (l1 ++ l2) t).
Proof.
  intros Hp. rewrite !fold_left_app. simpl.
  apply fold_add_tdp_same. now apply add_tdp_silent.
Qed.

Lemma estimated_power_same_total (self self' : BuildEngine.t) :
  same_number (fold_left add_tdp (Dict.values (parts self)) PyFloat.zero)
              (fold_left add_tdp (Dict.values (parts self')) PyFloat.zero) ->
  estimated_power self = estimated_power self'.
Proof.
  intros H. rewrite (estimated_power_of_total self _ H).
  symmetry. apply estimated_power_of_total, same_number_refl.
Qed.

(** X9. A part without a usable TDP reading never changes the power
    estimate: selecting it into an empty slot, selecting it in the
    place of another such part, or removing it leaves [estimated_power]
    as it was. *)
Theorem silent_part_keeps_power (self : BuildEngine.t) (p : Part) :
  silent p ->
  (slot self (slot_of p) = None ->
   estimated_power (add self p) = estimated_power self)
  /\ (forall q, slot self (slot_of p) = Some q -> silent q ->
        estimated_power (add self p) = estimated_power self)
  /\ (forall c, slot self c = Some p ->
        estimated_power (remove self c) = estimated_power self).
Proof.
  intros Hp. split; [|split].
  - intros Hnone. apply estimated_power_same_total.
    unfold add. cbn [parts]. rewrite (values_set_new _ _ _ Hnone).
    rewrite <- (app_nil_r (Dict.values (parts self))) at 2.
    now apply fold_add_tdp_skip.
  - intros q Hq Hsq. apply estimated_power_same_total.
    destruct (values_split _ _ _ Hq) as (l1 & l2 & H1 & H2 & _).
    unfold add. cbn [parts]. rewrite H2, H1.
    eapply same_number_trans; [now apply fold_add_tdp_skip|].
    apply same_number_sym. now apply fold_add_tdp_skip.
  - intros c Hc. apply estimated_power_same_total.
    destruct (values_split _ _ _ Hc) as (l1 & l2 & H1 & _ & H3).
    unfold remove. cbn [parts]. rewrite H3, H1.
    apply same_number_sym. now apply fold_add_tdp_skip.
Qed.
End SilentParts.

Lemma silent_part_keeps_power_witness :
  BuildEngine.estimated_power (R := PlainRuntime.runtime)
    (BuildEngine.add Examples.powered_build (Examples.part "g1" "Case" []))
  = BuildEngine.estimated_power (R := PlainRuntime.runtime)
      Examples.powered_build.
Proof.
  assert (Hs : Spec.silent (R := PlainRuntime.runtime)
                 (Examples.part "g1" "Case" [])).
  { right. vm_compute. reflexivity. }
  apply (proj1 (silent_part_keeps_power (R := PlainRuntime.runtime)
                  Examples.powered_build (Examples.part "g1" "Case" []) Hs)).
  vm_compute. reflexivity.
Defined.

(* ------------------------------------------------------------------ *)
(** ** When the compatibility rules apply *)

Section MoreRules.
Import PyVal BuildEngine Spec.
Context {R : PyRuntime}.

(** X10. Every rule involves the motherboard, the case or the power
    supply: with none of the three selected, [compatibility_issues]
    returns no issue, whatever the other parts carry. *)
Theorem no_issue_without_board_case_psu (self : BuildEngine.t) :
  slot self "Placa-mãe" = None -> slot self "Gabinete" = None ->
  slot self "Fonte" = None ->
  compatibility_issues self = Ok [].
Proof.
  intros Hmb Hcase Hpsu. unfold compatibility_issues.
  rewrite Hmb, Hcase, Hpsu. cbv zeta.
  unfold rule_cpu_mb, rule_ram_mb, rule_gpu_case, rule_cooler_case, rule_psu.
  destruct (slot self "CPU"), (slot self "RAM"), (slot self "GPU"),
    (slot self "Cooler"); reflexivity.
Qed.

(** X11. With a CPU and a motherboard and no memory, case or power
    supply selected, sockets that are both given and a CPU without a
    BIOS note: the result is the socket issue alone when the sockets
    differ, by exact comparison, and no issue when they are equal. *)
Theorem socket_rule_alone (self : BuildEngine.t) (cpu mb : Part) :
  slot self "CPU" = Some cpu -> slot self "Placa-mãe" = Some mb ->
  slot self "RAM" = None -> slot self "Gabinete" = None ->
  slot self "Fonte" = None ->
  let cpu_sock := py_or (attr cpu "soquete") (attr cpu "socket") in
  let mb_sock := py_or (attr mb "soquete") (attr mb "socket") in
  truthy cpu_sock = true -> truthy mb_sock = true ->
  truthy (bios_of cpu) = false ->
  compatibility_issues self =
    Ok (if py_ne cpu_sock mb_sock then [issue_socket cpu_sock mb_sock]
        else []).
Proof.
  intros Hcpu Hmb Hram Hcase Hpsu cpu_sock mb_sock Hc Hm Hb.
  unfold compatibility_issues. rewrite Hcpu, Hmb, Hram, Hcase, Hpsu.
  cbv zeta.
  unfold rule_cpu_mb, rule_ram_mb, rule_gpu_case, rule_cooler_case, rule_psu.
  fold cpu_sock mb_sock. rewrite Hc, Hm, Hb. simpl.
  destruct (slot self "GPU"), (slot self "Cooler");
    destruct (py_ne cpu_sock mb_sock); reflexivity.
Qed.

(** X12. With memory and a motherboard and no CPU, case or power supply
    selected, and memory types given as text on both: the types are
    compared in upper case, as [str.upper] gives it (so that ddr4 and
    DDR4 agree, and groß and GROSS); the result is no issue when they
    agree and one issue naming both, in upper case, when they
    differ. *)
Theorem ram_rule_ignores_case (self : BuildEngine.t) (ram mb : Part)
  (s t : string) :
  slot self "RAM" = Some ram -> slot self "Placa-mãe" = Some mb ->
  slot self "CPU" = None -> slot self "Gabinete" = None ->
  slot self "Fonte" = None ->
  ram_type_of ram = VStr s -> board_ram_type_of mb = VStr t ->
  s <> "" -> t <> "" ->
  compatibility_issues self =
    Ok (if String.eqb (PyStr.upper s) (PyStr.upper t) then []
        else [issue_ram (PyStr.upper s) (PyStr.upper t)]).
Proof.
  intros Hram Hmb Hcpu Hcase Hpsu Hs Ht Hsne Htne.
  unfold compatibility_issues. rewrite Hcpu, Hmb, Hram, Hcase, Hpsu.
  cbv zeta.
  unfold rule_cpu_mb, rule_ram_mb, rule_gpu_case, rule_cooler_case, rule_psu.
  cbv zeta. rewrite Hs, Ht.
  apply String.eqb_neq in Hsne, Htne.
  cbn [truthy py_upper]. rewrite Hsne, Htne. simpl.
  destruct (slot self "GPU"), (slot self "Cooler");
    destruct (String.eqb (PyStr.upper s) (PyStr.upper t)); reflexivity.
Qed.
End MoreRules.

Lemma socket_rule_alone_witness :
  BuildEngine.compatibility_issues (R := PlainRuntime.runtime)
    (BuildEngine.run BuildEngine.init
       [ BuildEngine.Select (Examples.part "c" "CPU" [("socket", VStr "AM4")]);
         BuildEngine.Select
           (Examples.part "m" "Motherboard" [("soquete", VStr "am4")]) ])
  = Ok ["Soquete incompatível: CPU(AM4) != Placa-mãe(am4)"].
Proof.
  apply (socket_rule_alone (R := PlainRuntime.runtime) _
           (Examples.part "c" "CPU" [("socket", VStr "AM4")])
           (Examples.part "m" "Motherboard" [("soquete", VStr "am4")]));
    vm_compute; reflexivity.
Defined.

Lemma ram_rule_ignores_case_witness :
  BuildEngine.compatibility_issues (R := PlainRuntime.runtime)
    (BuildEngine.run BuildEngine.init
       [ BuildEngine.Select (Examples.part "r" "RAM" [("tipo", VStr "ddr4")]);
         BuildEngine.Select
           (Examples.part "m" "Placa-mãe" [("mem_type", VStr "DDR4")]) ])
  = Ok [].
Proof.
  apply (ram_rule_ignores_case (R := PlainRuntime.runtime) _
           (Examples.part "r" "RAM" [("tipo", VStr "ddr4")])
           (Examples.part "m" "Placa-mãe" [("mem_type", VStr "DDR4")])
           "ddr4" "DDR4");
    try (vm_compute; reflexivity); discriminate.
Defined.

Lemma no_issue_without_board_case_psu_witness :
  BuildEngine.compatibility_issues (R := PlainRuntime.runtime)
    Examples.cpu_only_build = Ok [].
Proof.
  apply (no_issue_without_board_case_psu (R := PlainRuntime.runtime));
    vm_compute; reflexivity.
Defined.

(* ------------------------------------------------------------------ *)
(** ** The shape of the assembly guide *)

Section Guide.
Import PyVal BuildEngine Spec.
Context {R : PyRuntime}.

Ltac split_conditions :=
  repeat match goal with
         | |- context [present ?o] => destruct (present o)
         | |- context [match slot ?s "Armazenamento" with _ => _ end] =>
             destruct (slot s "Armazenamento")
         | |- context [if ?c then _ else _] => destruct c
         end.

(** X13. [assembly_steps] raises exactly what [compatibility_issues]
    raises.  When it returns, the guide is the warning block (empty
    without issues, else the warning line and one line per issue), then
    the tools line, then the steps, and it always ends with the
    front-panel line and the power-on line. *)
Theorem assembly_steps_shape (self : BuildEngine.t) :
  match compatibility_issues self with
  | Raise e => assembly_steps self = Raise e
  | Ok issues =>
      exists body,
        assembly_steps self =
          Ok (warning_block issues
              ++ line_tools :: body
              ++ [line_front_panel; line_power_on])%list
  end.
Proof.
  unfold assembly_steps. cbv zeta.
  destruct (compatibility_issues self) as [issues|e]; [|reflexivity].
  match goal with
  | |- context [py_append (py_append ?S line_front_panel) line_power_on] =>
      assert (HS : exists b, S = line_tools :: b)
        by (split_conditions; eexists; reflexivity);
      destruct HS as [b HS]; rewrite HS
  end.
  exists b. simpl bind. unfold py_append, warning_block.
  destruct issues; simpl; rewrite <- ?app_assoc; reflexivity.
Qed.

Lemma mem_of_In (x : string) (l : list string) :
  In x l -> PyStr.mem x l = true.
Proof.
  intros H. unfold PyStr.mem. apply existsb_exists.
  exists x. split; [exact H | apply String.eqb_refl].
Qed.

(** No line of the warning block is a storage line. *)
Lemma warning_block_not_storage (issues : list string) (x : string) :
  x = line_m2 \/ x = line_sata -> ~ In x (warning_block issues).
Proof.
  intros Hx Hin. unfold warning_block in Hin.
  destruct issues as [|i issues]; [exact Hin|].
  destruct Hin as [Hin|Hin].
  - destruct Hx; subst x; vm_compute in Hin; discriminate.
  - apply in_map_iff in Hin. destruct Hin as (it & Hit & _).
    destruct Hx; subst x; vm_compute in Hit; discriminate.
Qed.

(** X14. The M.2 line is given only with a motherboard selected and a
    storage part of form factor m.2; the SATA line only with a storage
    part of form factor 2.5, 3.5 or sata.  So a guide never has both
    lines, and without a motherboard an M.2 drive gets no line. *)
Theorem storage_lines_follow_form_factor (self : BuildEngine.t)
  (steps : list string) :
  assembly_steps self = Ok steps ->
  (In line_m2 steps ->
     slot self "Placa-mãe" <> None
     /\ exists st, slot self "Armazenamento" = Some st
                   /\ form_factor st = "m.2")
  /\ (In line_sata steps ->
        exists st, slot self "Armazenamento" = Some st
                   /\ (form_factor st = "2.5" \/ form_factor st = "3.5"
                       \/ form_factor st = "sata"))
  /\ ~ (In line_m2 steps /\ In line_sata steps).
Proof.
  intros Hsteps.
  assert (Hm2 : In line_m2 steps ->
            slot self "Placa-mãe" <> None
            /\ exists st, slot self "Armazenamento" = Some st
                          /\ form_factor st = "m.2").
  { intros Hin. unfold assembly_steps in Hsteps. cbv zeta in Hsteps.
    destruct (compatibility_issues self) as [issues|e]; [|discriminate].
    simpl bind in Hsteps.
    match type of Hsteps with
    | context [match issues with [] => Ok ?P | _ :: _ => _ end] =>
        set (plain := P) in Hsteps
    end.
    assert (Hs : steps = (warning_block issues ++ plain)%list)
      by (destruct issues; injection Hsteps as <-; reflexivity).
    clear Hsteps. subst steps.
    apply in_app_or in Hin. destruct Hin as [Hin|Hin].
    { exfalso. eapply warning_block_not_storage; [|exact Hin]. now left. }
    apply mem_of_In in Hin. subst plain.
    destruct (slot self "Placa-mãe") as [mb|];
      destruct (slot self "Armazenamento") as [st|];
      cbn [present] in Hin;
      try destruct (String.eqb (form_factor st) "m.2") eqn:Eff;
      try (apply String.eqb_eq in Eff);
      try (split; [discriminate | eexists; split; [reflexivity | exact Eff]]);
      exfalso;
      repeat match type of Hin with
             | context [present ?o] => destruct (present o)
             | context [if ?c then _ else _] => destruct c
             end;
      vm_compute in Hin; discriminate. }
  assert (Hsata : In line_sata steps ->
            exists st, slot self "Armazenamento" = Some st
                       /\ (form_factor st = "2.5" \/ form_factor st = "3.5"
                           \/ form_factor st = "sata")).
  { intros Hin. unfold assembly_steps in Hsteps. cbv zeta in Hsteps.
    destruct (compatibility_issues self) as [issues|e]; [|discriminate].
    simpl bind in Hsteps.
    match type of Hsteps with
    | context [match issues with [] => Ok ?P | _ :: _ => _ end] =>
        set (plain := P) in Hsteps
    end.
    assert (Hs : steps = (warning_block issues ++ plain)%list)
      by (destruct issues; injection Hsteps as <-; reflexivity).
    clear Hsteps. subst steps.
    apply in_app_or in Hin. destruct Hin as [Hin|Hin].
    { exfalso. eapply warning_block_not_storage; [|exact Hin]. now right. }
    apply mem_of_In in Hin. subst plain.
    destruct (slot self "Armazenamento") as [st|];
      try (exists st; split; [reflexivity|];
           destruct (String.eqb (form_factor st) "2.5") eqn:E1;
           [apply String.eqb_eq in E1; now left|];
           destruct (String.eqb (form_factor st) "3.5") eqn:E2;
           [apply String.eqb_eq in E2; now (right; left)|];
           destruct (String.eqb (form_factor st) "sata") eqn:E3;
           [apply String.eqb_eq in E3; now (right; right)|]);
      exfalso; cbn [orb] in Hin;
      repeat match type of Hin with
             | context [present ?o] => destruct (present o)
             | context [if ?c then _ else _] => destruct c
             end;
      vm_compute in Hin; discriminate. }
  split; [exact Hm2|]. split; [exact Hsata|].
  intros [H1 H2].
  destruct (Hm2 H1) as (_ & st & Hst & Hff).
  destruct (Hsata H2) as (st' & Hst' & Hff').
  rewrite Hst in Hst'. injection Hst' as <-.
  rewrite Hff in Hff'. destruct Hff' as [H|[H|H]]; discriminate.
Qed.
End Guide.

Lemma storage_lines_follow_form_factor_witness :
  ~ (In BuildEngine.line_m2
       ["Ferramentas: chave Phillips #2, pasta térmica, pulseira antiestática (opcional).";
        "1) Instalar CPU e Cooler (se for o caso) antes de encaixar a Placa-mãe.";
        "10) Conectar cabos frontais (Power/Reset, USB, Áudio) e organizar todos os cabos com abraçadeiras.";
        "11) Conectar periféricos (Monitor, Teclado, Mouse) e ligar o sistema para o POST inicial."]
     /\ In BuildEngine.line_sata
          ["Ferramentas: chave Phillips #2, pasta térmica, pulseira antiestática (opcional).";
           "1) Instalar CPU e Cooler (se for o caso) antes de encaixar a Placa-mãe.";
           "10) Conectar cabos frontais (Power/Reset, USB, Áudio) e organizar todos os cabos com abraçadeiras.";
           "11) Conectar periféricos (Monitor, Teclado, Mouse) e ligar o sistema para o POST inicial."]).
Proof.
  apply (proj2 (proj2 (storage_lines_follow_form_factor
                         (R := PlainRuntime.runtime)
                         (BuildEngine.run BuildEngine.init
                            [BuildEngine.Select
                               (Examples.part "s" "SSD"
                                  [("form_factor", VStr "M.2")])])
                         _ eq_refl))).
Defined.

(* ------------------------------------------------------------------ *)
(** ** How the price parser reads the separators *)

Section StringFacts.
Import PyStr.

Lemma count_app (c : ascii) (a b : string) :
  count c (a ++ b) = count c a + count c b.
Proof. induction a as [|x a IH]; simpl; [reflexivity | rewrite IH; lia]. Qed.

Lemma count_nonneg (c : ascii) (a : string) : 0 <= count c a.
Proof.
  induction a as [|x a IH]; simpl; [lia|].
  destruct (Ascii.eqb x c); lia.
Qed.

Lemma count_digits (c : ascii) (a : string) :
  is_digit c = false -> all_digits a = true -> count c a = 0.
Proof.
  intros Hc. induction a as [|x a IH]; simpl; [reflexivity|].
  intros H. apply andb_prop in H. destruct H as [Hx Ha].
  destruct (Ascii.eqb_spec x c) as [->|_]; [congruence|].
  now rewrite IH.
Qed.

Lemma replace_char_app (c : ascii) (new a b : string) :
  replace_char c new (a ++ b) = (replace_char c new a ++ replace_char c new b)%string.
Proof.
  induction a as [|x a IH]; simpl; [reflexivity|].
  destruct (Ascii.eqb x c); simpl; rewrite IH; [|reflexivity].
  now rewrite str_app_assoc.
Qed.

(** Replacing a character a text does not have changes nothing. *)
Lemma replace_char_absent (c : ascii) (new a : string) :
  count c a = 0 -> replace_char c new a = a.
Proof.
  induction a as [|x a IH]; simpl; [reflexivity|].
  pose proof (count_nonneg c a).
  destruct (Ascii.eqb x c); [lia|].
  intros H'. now rewrite IH by lia.
Qed.

Lemma count_replace_other (c d : ascii) (a : string) :
  Ascii.eqb d c = false -> count c (replace_char d "" a) = count c a.
Proof.
  intros Hdc. induction a as [|x a IH]; simpl; [reflexivity|].
  destruct (Ascii.eqb_spec x d) as [->|Hx]; simpl.
  - rewrite Hdc. rewrite IH. lia.
  - now rewrite IH.
Qed.

Lemma count_replace_self (c : ascii) (a : string) :
  count c (replace_char c "" a) = 0.
Proof.
  induction a as [|x a IH]; simpl; [reflexivity|].
  destruct (Ascii.eqb x c) eqn:E; simpl; [exact IH|].
  now rewrite E, IH.
Qed.

(** The character before the last two of a text. *)
Lemma getitem_neg_third (x : string) (c : ascii) (y : string) :
  String.length y = 2%nat ->
  getitem_neg (x ++ String c y) 3 = Ok c.
Proof.
  intros Hy. unfold getitem_neg.
  rewrite str_length_app. simpl String.length. rewrite Hy.
  destruct (Nat.ltb_spec (String.length x + 3) 3); [lia|].
  replace (String.length x + 3 - 3)%nat with (String.length x) by lia.
  assert (Hget : String.get (String.length x) (x ++ String c y) = Some c).
  { clear. induction x as [|d x IH]; simpl; auto. }
  now rewrite Hget.
Qed.
End StringFacts.

Section Separators.
Import PyStr Spec.
Context {R : PyRuntime}.

Lemma kept_text_nonempty (text : string) :
  kept_text text <> "" -> text <> "".
Proof. intros H ->. apply H. reflexivity. Qed.

(** What a raise of [_parse_price_brl] tells of its argument. *)
Lemma parse_price_raise_inv (text : option string) (e : exn) :
  _parse_price_brl text = Raise e ->
  e = IndexError
  /\ exists t, text = Some t
       /\ (String.length (kept_text t) < 3)%nat
       /\ (count "," (kept_text t) = 1 \/ count "." (kept_text t) = 1).
Proof.
  destruct text as [t|]; [|discriminate].
  intros H.
  destruct (Nat.ltb_spec (String.length (kept_text t)) 3) as [Hlen|Hlen].
  - assert (Hsep : count "," (kept_text t) = 1
                   \/ count "." (kept_text t) = 1).
    { rewrite parse_price_unfold in H. cbv zeta in H.
      destruct (t =? "")%string; [discriminate|].
      destruct (kept_text t =? "")%string; [discriminate|].
      unfold and_third_from_end in H.
      destruct (count "," (kept_text t) =? 1) eqn:E1;
        [apply Z.eqb_eq in E1; now left|].
      destruct (count "." (kept_text t) =? 1) eqn:E2;
        [apply Z.eqb_eq in E2; now right|].
      simpl in H. discriminate. }
    assert (Hne : kept_text t <> "").
    { intros E. rewrite E in Hsep. simpl in Hsep. lia. }
    rewrite (parse_price_raises t (kept_text_nonempty t Hne) Hne Hlen Hsep)
      in H.
    injection H as <-. split; [reflexivity|]. eauto.
  - destruct (parse_price_returns t Hlen) as [f Hf]. congruence.
Qed.

(** X15. [_parse_price_brl] raises in one situation only, and then
    [IndexError]: one or two characters are kept of the text, and
    there is exactly one comma among them, or exactly one period. *)
Theorem parse_price_raises_exactly (text : option string) (e : exn) :
  _parse_price_brl text = Raise e <->
  e = IndexError
  /\ exists t, text = Some t
       /\ (String.length (kept_text t) < 3)%nat
       /\ (count "," (kept_text t) = 1 \/ count "." (kept_text t) = 1).
Proof.
  split.
  - apply parse_price_raise_inv.
  - intros (-> & t & -> & Hlen & Hsep).
    assert (Hne : kept_text t <> "").
    { intros E. rewrite E in Hsep. simpl in Hsep. lia. }
    exact (parse_price_raises t (kept_text_nonempty t Hne) Hne Hlen Hsep).
Qed.

(** X16. When what is kept of a text is digits, one comma and digits,
    three characters or more, the comma is the decimal point wherever
    it stands: "79,90" is read as 79.90 and "1,234" as 1.234. *)
Theorem single_comma_is_decimal_point (text a b : string) :
  kept_text text = (a ++ "," ++ b)%string ->
  all_digits a = true -> all_digits b = true ->
  (3 <= String.length (a ++ "," ++ b))%nat ->
  _parse_price_brl (Some text) = Ok (float_or_zero (a ++ "." ++ b)).
Proof.
  intros Hk Ha Hb Hlen.
  assert (Hne : kept_text text <> "").
  { rewrite Hk. destruct a; discriminate. }
  pose proof (kept_text_nonempty _ Hne) as Ht.
  rewrite parse_price_unfold. cbv zeta.
  apply String.eqb_neq in Hne, Ht. rewrite Ht, Hne, Hk.
  assert (Hc : count "," (a ++ "," ++ b) = 1).
  { rewrite !count_app, (count_digits "," a), (count_digits "," b); auto. }
  assert (Hp : count "." (a ++ "," ++ b) = 0).
  { rewrite !count_app, (count_digits "." a), (count_digits "." b); auto. }
  assert (Hrc : replace_char "," "." (a ++ "," ++ b) = (a ++ "." ++ b)%string).
  { rewrite !replace_char_app.
    rewrite (replace_char_absent "," _ a), (replace_char_absent "," _ b);
      auto using count_digits. }
  destruct (getitem_neg_long _ Hlen) as [c Hget].
  unfold and_third_from_end. rewrite Hc, Hp, Hget.
  simpl in Hp, Hrc |- *.
  destruct (Ascii.eqb c ","); simpl.
  - rewrite (replace_char_absent "." _ _ Hp). now rewrite Hrc.
  - now rewrite Hrc.
Qed.

(** X17. When what is kept of a text is digits, one period and digits,
    three characters or more, the period is the decimal point wherever
    it stands: "1.234" is read as 1.234, not as 1234. *)
Theorem single_period_is_decimal_point (text a b : string) :
  kept_text text = (a ++ "." ++ b)%string ->
  all_digits a = true -> all_digits b = true ->
  (3 <= String.length (a ++ "." ++ b))%nat ->
  _parse_price_brl (Some text) = Ok (float_or_zero (a ++ "." ++ b)).
Proof.
  intros Hk Ha Hb Hlen.
  assert (Hne : kept_text text <> "").
  { rewrite Hk. destruct a; discriminate. }
  pose proof (kept_text_nonempty _ Hne) as Ht.
  rewrite parse_price_unfold. cbv zeta.
  apply String.eqb_neq in Hne, Ht. rewrite Ht, Hne, Hk.
  assert (Hc : count "," (a ++ "." ++ b) = 0).
  { rewrite !count_app, (count_digits "," a), (count_digits "," b); auto. }
  assert (Hp : count "." (a ++ "." ++ b) = 1).
  { rewrite !count_app, (count_digits "." a), (count_digits "." b); auto. }
  destruct (getitem_neg_long _ Hlen) as [c Hget].
  unfold and_third_from_end. rewrite Hc, Hp, Hget.
  simpl in Hc |- *.
  destruct (Ascii.eqb c "."); simpl; [reflexivity|].
  now rewrite (replace_char_absent "," _ _ Hc).
Qed.

(** X18. When what is kept of a text ends with a comma and two digits,
    with no other comma, the comma is the decimal point and every
    period before it is dropped as a thousands separator:
    "1.234.567,89" reaches [float] as "1234567.89". *)
Theorem periods_before_comma_are_dropped (text x c : string) :
  kept_text text = (x ++ "," ++ c)%string ->
  count "," x = 0 -> all_digits c = true -> String.length c = 2%nat ->
  _parse_price_brl (Some text)
  = Ok (float_or_zero (replace_char "." "" x ++ "." ++ c)).
Proof.
  intros Hk Hx Hc Hlen.
  assert (Hne : kept_text text <> "").
  { rewrite Hk. destruct x; discriminate. }
  pose proof (kept_text_nonempty _ Hne) as Ht.
  rewrite parse_price_unfold. cbv zeta.
  apply String.eqb_neq in Hne, Ht. rewrite Ht, Hne, Hk.
  assert (Hcount : count "," (x ++ "," ++ c) = 1).
  { rewrite !count_app, Hx, (count_digits "," c); auto. }
  unfold and_third_from_end. rewrite Hcount.
  change (x ++ "," ++ c)%string with (x ++ String "," c)%string.
  rewrite (getitem_neg_third x "," c Hlen). simpl.
  do 2 f_equal.
  rewrite replace_char_app. simpl.
  rewrite (replace_char_absent "." "" c) by (apply count_digits; auto).
  rewrite replace_char_app. simpl.
  rewrite (replace_char_absent "," "." c) by (apply count_digits; auto).
  rewrite (replace_char_absent "," "." (replace_char "." "" x)).
  - reflexivity.
  - rewrite count_replace_other; auto.
Qed.
End Separators.

Lemma single_comma_is_decimal_point_witness :
  _parse_price_brl (R := PlainRuntime.runtime) (Some "R$ 1,234")
  = Ok (float_or_zero (R := PlainRuntime.runtime) "1.234").
Proof.
  apply (single_comma_is_decimal_point (R := PlainRuntime.runtime)
           "R$ 1,234" "1" "234"); try (vm_compute; reflexivity).
  simpl. lia.
Defined.

Lemma single_period_is_decimal_point_witness :
  _parse_price_brl (R := PlainRuntime.runtime) (Some "R$ 1.234")
  = Ok (float_or_zero (R := PlainRuntime.runtime) "1.234").
Proof.
  apply (single_period_is_decimal_point (R := PlainRuntime.runtime)
           "R$ 1.234" "1" "234"); try (vm_compute; reflexivity).
  simpl. lia.
Defined.

Lemma periods_before_comma_are_dropped_witness :
  _parse_price_brl (R := PlainRuntime.runtime) (Some "R$ 1.234.567,89")
  = Ok (float_or_zero (R := PlainRuntime.runtime) "1234567.89").
Proof.
  apply (periods_before_comma_are_dropped (R := PlainRuntime.runtime)
           "R$ 1.234.567,89" "1.234.567" "89"); vm_compute; reflexivity.
Defined.

Lemma parse_price_raises_exactly_witness :
  _parse_price_brl (R := PlainRuntime.runtime) (Some "R$ ,5")
  = Raise IndexError.
Proof.
  apply (proj2 (parse_price_raises_exactly (R := PlainRuntime.runtime)
                  (Some "R$ ,5") IndexError)).
  split; [reflexivity|]. exists "R$ ,5".
  split; [reflexivity|]. split; [vm_compute; lia|]. left. reflexivity.
Defined.

(* ------------------------------------------------------------------ *)
(** ** Reading a table cell *)

Section TableCells.
Import PyStr PyVal Spec.
Context {R : PyRuntime}.

(** X19. [_try_num] gives back a number, a boolean or its very
    argument: a value that is not text comes back unchanged, and text
    is never returned trimmed, lower-cased or without its unit, nor
    turned into [None]. *)
Theorem try_num_keeps_text (v : value) :
  ((forall s, v <> VStr s) -> _try_num v = v)
  /\ (forall t, _try_num v = VStr t -> v = VStr t)
  /\ (_try_num v = VNone -> v = VNone).
Proof.
  destruct v as [|b|z|f|s];
    try (split; [reflexivity | split; [intros t H; exact H | intros H; exact H]]).
  assert (Hs : _try_num (VStr s) = VStr s
               \/ (exists b, _try_num (VStr s) = VBool b)
               \/ (exists z, _try_num (VStr s) = VInt z)
               \/ (exists f, _try_num (VStr s) = VFloat f)).
  { unfold _try_num. cbv zeta.
    destruct (lower (strip s) =? "")%string; [now left|].
    destruct (mem (lower (strip s)) ["true"; "sim"; "yes"]);
      [right; left; eexists; reflexivity|].
    destruct (mem (lower (strip s)) ["false"; "não"; "no"]);
      [right; left; eexists; reflexivity|].
    destruct (contains "." (strip_units (lower (strip s)))).
    - destruct (float_of_str _); [|now left].
      right; right; right. eexists; reflexivity.
    - destruct (int_of_str _); [|now left].
      right; right; left. eexists; reflexivity. }
  split; [|split].
  - intros H. now destruct (H s).
  - intros t Ht.
    destruct Hs as [E|[[b E]|[[z E]|[f E]]]]; rewrite E in Ht; congruence.
  - intros Hn.
    destruct Hs as [E|[[b E]|[[z E]|[f E]]]]; rewrite E in Hn; congruence.
Qed.

(** X20. The words true, sim and yes, in any letter case and between
    any white space (any run of the characters [str.strip] removes,
    those outside ASCII included), are read as [True]; false, não and
    no as [False]. *)
Theorem try_num_reads_boolean_words (ws1 u ws2 : string) :
  all_space ws1 = true -> all_space ws2 = true ->
  (In (lower u) ["true"; "sim"; "yes"] ->
   _try_num (VStr (ws1 ++ u ++ ws2)) = VBool true)
  /\ (In (lower u) ["false"; "não"; "no"] ->
      _try_num (VStr (ws1 ++ u ++ ws2)) = VBool false).
Proof.
  intros H1 H2.
  assert (Hstrip : forall w,
            In w ["true"; "sim"; "yes"; "false"; "não"; "no"] ->
            lower u = w -> lower (strip (ws1 ++ u ++ ws2)) = w).
  { intros w Hw Hu. rewrite strip_padding; auto.
    apply lower_strip_fixed; rewrite Hu; clear Hu;
      simpl in Hw;
      repeat (destruct Hw as [<-|Hw]; [reflexivity|]); destruct Hw. }
  split; intros Hin.
  - assert (E : lower (strip (ws1 ++ u ++ ws2)) = lower u).
    { apply Hstrip; [|reflexivity]. simpl in *. tauto. }
    unfold _try_num. cbv zeta. rewrite E.
    simpl in Hin.
    repeat (destruct Hin as [<-|Hin]; [reflexivity|]); destruct Hin.
  - assert (E : lower (strip (ws1 ++ u ++ ws2)) = lower u).
    { apply Hstrip; [|reflexivity]. simpl in *. tauto. }
    unfold _try_num. cbv zeta. rewrite E.
    simpl in Hin.
    repeat (destruct Hin as [<-|Hin]; [reflexivity|]); destruct Hin.
Qed.
End TableCells.

Lemma try_num_reads_boolean_words_witness :
  _try_num (R := PlainRuntime.runtime) (VStr "  SIM ") = VBool true
  /\ _try_num (R := PlainRuntime.runtime)
       (VStr (Examples.nbsp ++ "True" ++ Examples.em_space)) = VBool true
  /\ _try_num (R := PlainRuntime.runtime) (VStr "Não") = VBool false.
Proof.
  split; [|split].
  - apply (proj1 (try_num_reads_boolean_words (R := PlainRuntime.runtime)
                    "  " "SIM" " " eq_refl eq_refl)).
    vm_compute. tauto.
  - apply (proj1 (try_num_reads_boolean_words (R := PlainRuntime.runtime)
                    Examples.nbsp "True" Examples.em_space
                    eq_refl eq_refl)).
    vm_compute. tauto.
  - apply (proj2 (try_num_reads_boolean_words (R := PlainRuntime.runtime)
                    "" "Não" "" eq_refl eq_refl)).
    vm_compute. tauto.
Defined.

Lemma try_num_keeps_text_witness :
  VStr "DDR4" = VStr "DDR4".
Proof.
  apply (proj1 (proj2 (try_num_keeps_text (R := PlainRuntime.runtime)
                         (VStr "DDR4")))).
  vm_compute. reflexivity.
Defined.

Section UnitMarks.
Import PyStr PyVal Spec.
Context {R : PyRuntime}.

(** A digit is no white space and starts none. *)
Lemma digit_no_space (c : ascii) (r : string) :
  is_digit c = true -> after_space (String c r) = None.
Proof.
  destruct c as [[] [] [] [] [] [] [] []]; intros H;
    try (vm_compute in H; discriminate H);
    destruct r as [|b [|d r3]]; reflexivity.
Qed.

Lemma digit_lower (c : ascii) :
  is_digit c = true -> lower_byte false c = c /\ is_c3 c = false.
Proof.
  destruct c as [[] [] [] [] [] [] [] []]; intros H;
    try (vm_compute in H; discriminate H); split; reflexivity.
Qed.

Lemma digit_differs (c x : ascii) :
  is_digit c = true -> is_digit x = false -> Ascii.eqb c x = false.
Proof.
  intros Hc Hx. destruct (Ascii.eqb_spec c x) as [->|]; congruence.
Qed.

Lemma lower_digits_app (d u : string) :
  all_digits d = true -> lower (d ++ u) = (d ++ lower u)%string.
Proof.
  unfold lower. induction d as [|c d IH]; [reflexivity|].
  intros H. simpl in H. apply andb_prop in H. destruct H as [Hc Hd].
  destruct (digit_lower c Hc) as [Hl H3].
  cbn [append lower_from]. rewrite Hl, H3. cbn [negb andb].
  now rewrite IH.
Qed.

(** Stripping on the right stops at a digit. *)
Lemma rstrip_digits_app (d b : string) :
  all_digits d = true -> rstrip (d ++ b) = (d ++ rstrip b)%string.
Proof.
  induction d as [|c d IH]; [reflexivity|].
  intros H. simpl in H. apply andb_prop in H. destruct H as [Hc Hd].
  cbn [append]. rewrite rstrip_eq, all_space_eq, (digit_no_space c _ Hc).
  now rewrite (IH Hd).
Qed.

Lemma rstrip_digits (d : string) : all_digits d = true -> rstrip d = d.
Proof.
  intros H. rewrite <- (str_app_nil_r d) at 1.
  rewrite (rstrip_digits_app d "" H). apply str_app_nil_r.
Qed.

Lemma strip_digits (d : string) : all_digits d = true -> strip d = d.
Proof.
  intros Hd. apply strip_fixed. split; [|now apply rstrip_digits].
  destruct d as [|c d]; [reflexivity|].
  simpl in Hd. apply andb_prop in Hd.
  apply lstrip_fixed. now apply digit_no_space.
Qed.

Lemma strip_digits_app (d b : string) :
  all_digits d = true -> d <> "" -> rstrip b = b ->
  strip (d ++ b) = (d ++ b)%string.
Proof.
  intros Hd Hne Hb. unfold strip.
  destruct d as [|c d]; [contradiction|].
  pose proof Hd as Hd'. simpl in Hd'. apply andb_prop in Hd'.
  rewrite (proj2 (lstrip_fixed _)) by (apply digit_no_space; tauto).
  now rewrite (rstrip_digits_app _ _ Hd), Hb.
Qed.

(** Removing a mark that starts with a letter or a sign passes over
    digits. *)
Lemma remove_sub_digits (o : ascii) (old' d s : string) :
  is_digit o = false -> all_digits d = true ->
  remove_sub (String o old') (d ++ s)
  = (d ++ remove_sub (String o old') s)%string.
Proof.
  intros Ho. unfold remove_sub.
  induction d as [|c d IH]; [reflexivity|].
  intros H. simpl in H. apply andb_prop in H. destruct H as [Hc Hd].
  cbn [append remove_sub_from prefix].
  destruct (ascii_dec o c) as [->|_]; [congruence|].
  now rewrite (IH Hd).
Qed.

Lemma contains_period_digits (d : string) :
  all_digits d = true -> contains "." d = false.
Proof.
  induction d as [|c d IH]; [reflexivity|].
  intros H. simpl in H. apply andb_prop in H. destruct H as [Hc Hd].
  cbn [contains prefix].
  destruct (ascii_dec "." c) as [<-|_]; [discriminate|].
  now apply IH.
Qed.

Lemma string_eqb_head (c x : ascii) (r y : string) :
  Ascii.eqb c x = false -> String.eqb (String c r) (String x y) = false.
Proof. intros H. simpl. now rewrite H. Qed.

Lemma strip_units_digits (d w : string) :
  all_digits d = true ->
  In w ["gb"; "g"; "tb"; "mhz"; "mm"; "w"] ->
  strip_units (d ++ w) = d.
Proof.
  intros Hd Hw. unfold strip_units.
  rewrite !remove_sub_digits by (auto; reflexivity).
  assert (E : remove_sub "w"
                (remove_sub "mm"
                   (remove_sub "mhz"
                      (remove_sub "tb" (remove_sub "g" (remove_sub "gb" w)))))
              = "").
  { simpl in Hw.
    repeat (destruct Hw as [<-|Hw]; [reflexivity|]); destruct Hw. }
  rewrite E, str_app_nil_r. now apply strip_digits.
Qed.

(** X21. Digits followed by one of the unit marks GB, G, TB, MHz, mm
    or W, in any letter case, are read as the digits alone: the cell
    "16GB" gives what [int] makes of "16", and the cell itself when
    [int] refuses the digits. *)
Theorem try_num_drops_unit_mark (d u : string) :
  all_digits d = true -> d <> "" ->
  In (lower u) ["gb"; "g"; "tb"; "mhz"; "mm"; "w"] ->
  _try_num (VStr (d ++ u)) =
    match int_of_str d with
    | Some z => VInt z
    | None => VStr (d ++ u)
    end.
Proof.
  intros Hd Hne Hu.
  assert (Hr : rstrip u = u).
  { apply (lower_rstrip_fixed u false). fold (lower u).
    simpl in Hu.
    repeat (destruct Hu as [<-|Hu]; [reflexivity|]); destruct Hu. }
  unfold _try_num. cbv zeta.
  rewrite (strip_digits_app d u Hd Hne Hr), (lower_digits_app d u Hd).
  destruct d as [|c d]; [contradiction|].
  pose proof Hd as Hd'. simpl in Hd'. apply andb_prop in Hd'.
  destruct Hd' as [Hc _].
  cbn [append String.eqb].
  assert (Hwords : forall l,
            Forall (fun w => exists x y, w = String x y /\ is_digit x = false) l ->
            mem (String c (d ++ lower u)) l = false).
  { intros l Hl. unfold mem. induction Hl as [|w l (x & y & -> & Hx) _ IH];
      [reflexivity|].
    cbn [existsb]. rewrite IH.
    rewrite (string_eqb_head c x _ _ (digit_differs c x Hc Hx)).
    reflexivity. }
  rewrite !Hwords by (repeat constructor; eexists; eexists; split; reflexivity).
  change (String c (d ++ lower u)) with (String c d ++ lower u)%string.
  rewrite (strip_units_digits _ _ Hd Hu).
  rewrite (contains_period_digits _ Hd). reflexivity.
Qed.
End UnitMarks.

Lemma try_num_drops_unit_mark_witness :
  _try_num (R := PlainRuntime.runtime) (VStr "3200MHz") = VInt 3200.
Proof.
  apply (try_num_drops_unit_mark (R := PlainRuntime.runtime) "3200" "MHz");
    [reflexivity | discriminate | vm_compute; tauto].
Defined.

(* ------------------------------------------------------------------ *)
(** ** What the scrapers hand to the catalog *)

Section ScrapedParts.
Import PyStr PyVal Spec.
Context {R : PyRuntime} {E : Type} {S : Soup E}.

(** X22. The category a scraper gives a part is one the catalog keeps
    unchanged and the engine uses as the slot name: a scraped part is
    filed and selected under the category the scraper chose. *)
Theorem scraped_category_is_kept (name : string) (p : Part) :
  category p = infer_category name ->
  In (category p) ("Unknown" :: canonical_categories)
  /\ Catalog._normalize_category (category p) = category p
  /\ BuildEngine.slot_of p = category p.
Proof.
  intros H. unfold BuildEngine.slot_of. rewrite H. unfold infer_category.
  cbv zeta.
  repeat match goal with
         | |- context [if ?c then _ else _] => destruct c
         end;
    (split; [simpl; tauto | split; vm_compute; reflexivity]).
Qed.

Lemma infer_category_known (name : string) :
  In (infer_category name) ("Unknown" :: canonical_categories).
Proof.
  unfold infer_category. cbv zeta.
  repeat match goal with
         | |- context [if ?c then _ else _] => destruct c
         end;
    simpl; tauto.
Qed.

Lemma mem_false_not_In (x : string) (l : list string) :
  mem x l = false -> ~ In x l.
Proof.
  intros H Hin. unfold mem in H.
  assert (existsb (String.eqb x) l = true).
  { apply existsb_exists. exists x. split; [exact Hin|apply String.eqb_refl]. }
  congruence.
Qed.

(** What the loop of a scraper keeps true of [items] and [seen]. *)
Lemma scrap_loop_invariant (read : E -> result card)
  (source prefix : string) (limit : Z) (cards : list E) :
  forall (items : list Part) (seen : list string) (res : list Part),
    map id items = seen -> NoDup seen ->
    Z.of_nat (List.length items) < limit \/ items = [] ->
    Forall (fun p => In (category p) ("Unknown" :: canonical_categories))
           items ->
    scrap_loop read source prefix limit cards items seen = Ok res ->
    NoDup (map id res)
    /\ Z.of_nat (List.length res) <= Z.max 1 limit
    /\ (List.length res <= List.length items + List.length cards)%nat
    /\ Forall (fun p => In (category p) ("Unknown" :: canonical_categories))
              res.
Proof.
  induction cards as [|c cards IH]; intros items seen res Hseen Hnd Hlim Hcat.
  - simpl. intros [= <-]. rewrite Hseen. repeat split; auto; try lia.
    destruct Hlim as [Hl| ->]; simpl; lia.
  - cbn [scrap_loop].
    destruct (read c) as [cd|e]; [|discriminate].
    cbn [bind]. cbv zeta.
    destruct (mem (card_pid prefix seen cd) seen) eqn:Emem.
    + intros H. destruct (IH _ _ _ Hseen Hnd Hlim Hcat H)
        as (H1 & H2 & H3 & H4).
      repeat split; auto. simpl. lia.
    + set (pid := card_pid prefix seen cd) in *.
      set (item := mkPart pid _ _ _ _).
      assert (Hseen' : map id (py_append items item) = py_append seen pid).
      { unfold py_append. rewrite map_app. simpl. now rewrite Hseen. }
      assert (Hnd' : NoDup (py_append seen pid)).
      { unfold py_append. apply NoDup_app; auto.
        - repeat constructor. intros [].
        - intros x Hx [<-|[]]. now apply (mem_false_not_In _ _ Emem). }
      assert (Hcat' : Forall (fun p => In (category p)
                                          ("Unknown" :: canonical_categories))
                             (py_append items item)).
      { unfold py_append. apply Forall_app. split; [exact Hcat|].
        constructor; [|constructor].
        apply infer_category_known. }
      assert (Hlen : List.length (py_append items item)
                     = Datatypes.S (List.length items)).
      { unfold py_append. rewrite length_app. simpl. lia. }
      destruct (limit <=? Z.of_nat (List.length (py_append items item)))
        eqn:Elim.
      * intros [= <-]. rewrite Hseen'.
        repeat split; auto; rewrite Hlen; simpl; try lia.
        destruct Hlim as [Hl| ->]; simpl; lia.
      * apply Z.leb_gt in Elim. intros H.
        destruct (IH _ _ _ Hseen' Hnd' (or_introl Elim) Hcat' H)
          as (H1 & H2 & H3 & H4).
        repeat split; auto. rewrite Hlen in H3. simpl. lia.
Qed.

(** X23. The parts a scraper returns have pairwise different ids, are
    no more than the cards of the page and no more than the limit
    (with a limit of zero or less the loop still stops only after its
    first part, so one part can be returned), and each has one of the
    eight categories or Unknown; this whatever way the scraper has of
    reading a card. *)
Theorem scraper_parts_are_distinct (read : E -> result card)
  (source prefix : string) (limit : Z) (cards : list E)
  (items : list Part) :
  scrap_loop read source prefix limit cards [] [] = Ok items ->
  NoDup (map id items)
  /\ Z.of_nat (List.length items) <= Z.max 1 limit
  /\ (List.length items <= List.length cards)%nat
  /\ Forall (fun p => In (category p) ("Unknown" :: canonical_categories))
            items.
Proof.
  intros H.
  exact (scrap_loop_invariant read source prefix limit cards [] [] items
           eq_refl (NoDup_nil _) (or_intror eq_refl) (Forall_nil _) H).
Qed.

(** The loop raises what the reading of a card raises, and returns
    when every card can be read. *)
Lemma scrap_loop_failure (read : E -> result card)
  (source prefix : string) (limit : Z) (cards : list E) :
  forall (items : list Part) (seen : list string),
    (forall e, scrap_loop read source prefix limit cards items seen = Raise e ->
       exists c, In c cards /\ read c = Raise e)
    /\ ((forall c, In c cards -> exists cd, read c = Ok cd) ->
        exists res,
          scrap_loop read source prefix limit cards items seen = Ok res).
Proof.
  induction cards as [|c cards IH]; intros items seen.
  - split; [discriminate | intros _; eexists; reflexivity].
  - cbn [scrap_loop]. split.
    + intros e. destruct (read c) as [cd|e'] eqn:Er.
      * cbn [bind]. cbv zeta.
        destruct (mem _ seen);
          [|destruct (limit <=? _); [discriminate|]];
          intros H; apply (proj1 (IH _ _)) in H;
          destruct H as (c' & Hc' & Hr');
          (exists c'; split; [now right | exact Hr']).
      * cbn [bind]. intros [= <-]. exists c. split; [now left | exact Er].
    + intros Hall. destruct (Hall c (or_introl eq_refl)) as [cd Hcd].
      rewrite Hcd. cbn [bind]. cbv zeta.
      assert (Hrest : forall c', In c' cards -> exists cd', read c' = Ok cd')
        by (intros c' Hc'; apply Hall; now right).
      destruct (mem _ seen); [apply (proj2 (IH _ _) Hrest)|].
      destruct (limit <=? _); [eexists; reflexivity|].
      apply (proj2 (IH _ _) Hrest).
Qed.

(** Reading a card on the Kabum page raises in two situations. *)
Lemma read_kabum_raises (c : E) (e : exn) :
  read_kabum c = Raise e ->
  (e = AttributeError /\ is_product_link c = true
   /\ select_one c ".name, h2, h3" = None)
  \/ (e = IndexError
      /\ _parse_price_brl (kabum_price_text c) = Raise IndexError).
Proof.
  unfold read_kabum. destruct (is_product_link c) eqn:El.
  - destruct (select_one c ".name, h2, h3") as [el|] eqn:En.
    + cbn [bind].
      destruct (_parse_price_brl (kabum_price_text c)) as [f|e'] eqn:Ep;
        [discriminate|].
      cbn [bind]. intros [= <-].
      destruct (parse_price_raise_inv _ _ Ep) as [-> _]. right. now split.
    + cbn [bind]. intros [= <-]. left. repeat split.
  - cbv zeta.
    destruct (_parse_price_brl (kabum_price_text c)) as [f|e'] eqn:Ep;
      [discriminate|].
    cbn [bind]. intros [= <-].
    destruct (parse_price_raise_inv _ _ Ep) as [-> _]. right. now split.
Qed.

(** Reading a card on the two other pages raises in one. *)
Lemma read_shop_raises (selector : string) (c : E) (e : exn) :
  read_shop selector c = Raise e ->
  e = IndexError
  /\ exists el, select_one c selector = Some el
                /\ _parse_price_brl (Some (get_text el)) = Raise IndexError.
Proof.
  unfold read_shop. cbv zeta.
  destruct (select_one c selector) as [el|]; [|discriminate].
  destruct (_parse_price_brl (Some (get_text el))) as [f|e'] eqn:Ep;
    [discriminate|].
  cbn [bind]. intros [= <-].
  destruct (parse_price_raise_inv _ _ Ep) as [-> _].
  split; [reflexivity|]. exists el. now split.
Qed.

(** X24. What makes a scraper fail on the cards of a page.
    [scrap_kabum_category] raises [AttributeError] on a link to a
    product that has no name element inside, and [IndexError] when
    [_parse_price_brl] raises on the price text of a card; it raises
    nothing else.  [scrap_pichau_category] and
    [scrap_terabyte_category] raise only [IndexError], and only when
    [_parse_price_brl] raises on the text of the price element of a
    card.  One such card loses the whole page, the parts gathered
    before it included.  Each scraper returns its parts when every
    card can be read. *)
Theorem scraper_failures_traced (limit : Z) (cards : list E) :
  (forall e, scrap_kabum_cards cards limit = Raise e ->
     exists c, In c cards
       /\ ((e = AttributeError /\ is_product_link c = true
            /\ select_one c ".name, h2, h3" = None)
           \/ (e = IndexError
               /\ _parse_price_brl (kabum_price_text c) = Raise IndexError)))
  /\ (forall e, scrap_pichau_cards cards limit = Raise e ->
        e = IndexError
        /\ exists c el, In c cards
             /\ select_one c ".price, .valor, .price-box" = Some el
             /\ _parse_price_brl (Some (get_text el)) = Raise IndexError)
  /\ (forall e, scrap_terabyte_cards cards limit = Raise e ->
        e = IndexError
        /\ exists c el, In c cards
             /\ select_one c ".price, .valor" = Some el
             /\ _parse_price_brl (Some (get_text el)) = Raise IndexError)
  /\ ((forall c, In c cards -> exists cd, read_kabum c = Ok cd) ->
      exists items, scrap_kabum_cards cards limit = Ok items)
  /\ ((forall c, In c cards -> exists cd, read_pichau c = Ok cd) ->
      exists items, scrap_pichau_cards cards limit = Ok items)
  /\ ((forall c, In c cards -> exists cd, read_terabyte c = Ok cd) ->
      exists items, scrap_terabyte_cards cards limit = Ok items).
Proof.
  split; [|split; [|split; [|split; [|split]]]].
  - intros e H. apply (proj1 (scrap_loop_failure _ _ _ _ _ _ _)) in H.
    destruct H as (c & Hc & Hr). exists c. split; [exact Hc|].
    now apply read_kabum_raises.
  - intros e H. apply (proj1 (scrap_loop_failure _ _ _ _ _ _ _)) in H.
    destruct H as (c & Hc & Hr).
    destruct (read_shop_raises _ _ _ Hr) as (-> & el & Hel & Hp).
    split; [reflexivity|]. exists c, el. auto.
  - intros e H. apply (proj1 (scrap_loop_failure _ _ _ _ _ _ _)) in H.
    destruct H as (c & Hc & Hr).
    destruct (read_shop_raises _ _ _ Hr) as (-> & el & Hel & Hp).
    split; [reflexivity|]. exists c, el. auto.
  - apply (proj2 (scrap_loop_failure _ _ _ _ _ _ _)).
  - apply (proj2 (scrap_loop_failure _ _ _ _ _ _ _)).
  - apply (proj2 (scrap_loop_failure _ _ _ _ _ _ _)).
Qed.
End ScrapedParts.

Section ScrapedPages.
Import Examples.

Lemma scraped_category_is_kept_witness :
  Catalog._normalize_category "Armazenamento" = "Armazenamento".
Proof.
  exact (proj1 (proj2 (scraped_category_is_kept "SSD Kingston 480GB"
                         (Examples.part "s1" "Armazenamento" []) eq_refl))).
Defined.

Lemma scraper_parts_are_distinct_witness :
  NoDup ["p1"; "pich_1"].
Proof.
  pose proof (scraper_parts_are_distinct
                (read_pichau (R := PlainRuntime.runtime))
                "pichau" "pich_" 2
                [ Examples.shop_card "http://a/p1" "Processador X"
                    (Some "R$ 1.234,56");
                  Examples.shop_card "http://b/p1" "Outro" None;
                  Examples.mkNode "div" None "Gabinete Y" None
                    (Some "R$ 300,00") None;
                  Examples.mkNode "div" None "Fonte Z" None None None ])
    as H.
  vm_compute in H. exact (proj1 (H _ eq_refl)).
Defined.

Lemma scraper_failures_traced_witness :
  (exists c,
     In c [ Examples.shop_card "/produto/1" "Processador X" (Some "R$ 10,00");
            Examples.product_link "/produto/2" None (Some "R$ 20,00") ]
     /\ ((AttributeError = AttributeError
          /\ is_product_link c = true
          /\ select_one c ".name, h2, h3" = None)
         \/ (AttributeError = IndexError
             /\ _parse_price_brl (R := PlainRuntime.runtime)
                  (kabum_price_text c) = Raise IndexError)))
  /\ (exists items,
        scrap_kabum_cards (R := PlainRuntime.runtime)
          [ Examples.shop_card "/produto/1" "Processador X" (Some "R$ 10,00");
            Examples.product_link "/produto/2" (Some "Gabinete Y")
              (Some "R$ 20,00") ] 80 = Ok items).
Proof.
  split.
  - exact (proj1 (scraper_failures_traced (R := PlainRuntime.runtime) 80
                    [ Examples.shop_card "/produto/1" "Processador X"
                        (Some "R$ 10,00");
                      Examples.product_link "/produto/2" None
                        (Some "R$ 20,00") ])
                 AttributeError eq_refl).
  - apply (proj1 (proj2 (proj2 (proj2
             (scraper_failures_traced (R := PlainRuntime.runtime) 80
                [ Examples.shop_card "/produto/1" "Processador X"
                    (Some "R$ 10,00");
                  Examples.product_link "/produto/2" (Some "Gabinete Y")
                    (Some "R$ 20,00") ]))))).
    intros c [<-|[<-|[]]]; eexists; vm_compute; reflexivity.
Defined.
End ScrapedPages.
